(** * The batched ingestion pipeline of the selfbot: a shallow embedding

    The development follows the Go files it is about:

    - [database] (batched): [Database], its four bounded channels, the
      [processBatch] loop, [flushBatch], the [Store*] producers, the [Get*]
      readers with [buildQuery] and the [Interface] wrappers, and [Close];
    - [database] (simple): [SimpleDatabase] with direct [InsertOne] writes
      and [isDuplicateError];
    - [bot]: [processMessage], [processDeletedMessage],
      [processEditedMessage], [processMention], [getChannelInfo] and
      [isUserMentioned] of [SimpleBot], and the monitor of
      [RestartManager];
    - [commands]: the queries of the snipe, editsnipe and lastping
      commands, the loop of the spam command, and the string and slice
      helpers.

    Goroutines are modelled by interleaving: every producer call, ticker
    firing, loop iteration of a batch processor and phase of [Close] is
    one labelled step on the shared [Database] state. *)

From Stdlib Require Import Ascii.
From stdpp Require Import gmap strings list sorting.

Open Scope string_scope.
Open Scope list_scope.
Open Scope Z_scope.

(** ** Go values shared by all packages *)

(** [time.Time], as nanoseconds since the epoch. *)
Definition Time := Z.

(** [time.Duration], in nanoseconds. *)
Definition Duration := Z.

Definition Millisecond : Duration := 1000000.
Definition Second : Duration := 1000 * Millisecond.

(** The conversion [int32(x)] of an [int64]. *)
Definition int32 (x : Z) : Z := (x + 2 ^ 31) mod 2 ^ 32 - 2 ^ 31.

(** [len] of a slice, as a Go [int]. *)
Definition len {A} (l : list A) : Z := Z.of_nat (length l).

(** The values a Go function hands back to its caller.  A function
    declared without results returns [NoResult]. *)
Inductive results (E : Type) :=
| NoResult
| ResBool (b : bool)
| ResError (e : option E).
Arguments NoResult {E}.
Arguments ResBool {E} b.
Arguments ResError {E} e.

(** ** Record structures of the batched database *)

Module ReplyInfo.
Record t := mk {
  UserID : string;
  Username : string;
  Content : string;
  Attachments : list string;
  IsSnapshot : bool
}.
End ReplyInfo.

Module MessageSnapshot.
Record t := mk {
  ID : string;
  Content : string;
  CreatedAt : Time;
  Attachments : list string;
  AuthorID : option string;
  AuthorName : option string
}.
End MessageSnapshot.

Module MessageData.
Record t := mk {
  ID : string;
  MessageID : string;
  UserID : string;
  Username : string;
  Content : string;
  CreatedAt : Time;
  ChannelID : string;
  ChannelName : option string;
  ChannelType : option string;
  IsGroup : bool;
  Attachments : list string;
  InstanceID : string;
  IsSelf : bool;
  GuildID : option string;
  GuildName : option string;
  ReplyTo : option ReplyInfo.t;
  Snapshots : list (option MessageSnapshot.t)
}.
End MessageData.

Module DeletedMessageData.
Record t := mk {
  MessageID : string;
  UserID : string;
  Username : option string;
  Content : string;
  DeletedAt : Time;
  ChannelID : string;
  ChannelName : option string;
  ChannelType : option string;
  IsGroup : bool;
  Attachments : list string;
  GuildID : option string;
  GuildName : option string;
  ReplyTo : option ReplyInfo.t;
  Snapshots : list (option MessageSnapshot.t)
}.
End DeletedMessageData.

Module EditedMessageData.
Record t := mk {
  MessageID : string;
  UserID : string;
  Username : option string;
  BeforeContent : string;
  AfterContent : string;
  BeforeAttachments : list string;
  AfterAttachments : list string;
  EditedAt : Time;
  ChannelID : string;
  ChannelName : option string;
  ChannelType : option string;
  IsGroup : bool;
  GuildID : option string;
  GuildName : option string;
  ReplyTo : option ReplyInfo.t
}.
End EditedMessageData.

Module MentionData.
Record t := mk {
  MessageID : string;
  AuthorID : string;
  AuthorName : string;
  Content : string;
  CreatedAt : Time;
  ChannelID : string;
  ChannelName : option string;
  Attachments : list string;
  ChannelType : Z;
  IsGroup : bool;
  TargetID : string;
  GuildID : option string;
  GuildName : option string;
  ReplyTo : option ReplyInfo.t
}.
End MentionData.

(** ** Record structures of the simple database *)

Module SimpleMessageData.
Record t := mk {
  ID : string;
  MessageID : string;
  UserID : string;
  Username : string;
  Content : string;
  CreatedAt : Time;
  ChannelID : string;
  ChannelName : string;
  ChannelType : string;
  IsGroup : bool;
  Attachments : list string;
  InstanceID : string;
  IsSelf : bool;
  GuildID : string;
  GuildName : string
}.
End SimpleMessageData.

Module SimpleDeletedMessageData.
Record t := mk {
  MessageID : string;
  UserID : string;
  Username : string;
  Content : string;
  DeletedAt : Time;
  ChannelID : string;
  ChannelName : string;
  ChannelType : string;
  IsGroup : bool;
  Attachments : list string;
  GuildID : string;
  GuildName : string
}.
End SimpleDeletedMessageData.

Module SimpleEditedMessageData.
Record t := mk {
  MessageID : string;
  UserID : string;
  Username : string;
  BeforeContent : string;
  AfterContent : string;
  BeforeAttachments : list string;
  AfterAttachments : list string;
  EditedAt : Time;
  ChannelID : string;
  ChannelName : string;
  ChannelType : string;
  IsGroup : bool;
  GuildID : string;
  GuildName : string
}.
End SimpleEditedMessageData.

Module SimpleMentionData.
Record t := mk {
  MessageID : string;
  AuthorID : string;
  AuthorName : string;
  Content : string;
  CreatedAt : Time;
  ChannelID : string;
  ChannelName : string;
  Attachments : list string;
  ChannelType : Z;
  IsGroup : bool;
  TargetID : string;
  GuildID : string;
  GuildName : string
}.
End SimpleMentionData.

(** ** The document store

    What the program uses of the MongoDB driver: collections addressed by
    name, unordered [InsertMany], [InsertOne], [Find] with a descending
    sort and a limit, and [Disconnect].  Each collection holds documents
    that are schema-matched to one record variant; the wire form of a
    record is the field set of the batched database's structures (a
    pointer or [omitempty] field that is absent is [None]). *)

Module mongo.

Inductive document :=
| DocMessage (m : MessageData.t)
| DocDeleted (m : DeletedMessageData.t)
| DocEdited (m : EditedMessageData.t)
| DocMention (m : MentionData.t).

(** The value of the date field named [f], when the document has one. *)
Definition field_time (f : string) (doc : document) : option Time :=
  match doc with
  | DocMessage m =>
      if decide (f = "created_at") then Some (MessageData.CreatedAt m) else None
  | DocDeleted m =>
      if decide (f = "deleted_at") then Some (DeletedMessageData.DeletedAt m) else None
  | DocEdited m =>
      if decide (f = "edited_at") then Some (EditedMessageData.EditedAt m) else None
  | DocMention m =>
      if decide (f = "created_at") then Some (MentionData.CreatedAt m) else None
  end.

(** The value of the string field named [f], for the fields that the
    queries of this program name. *)
Definition field_string (f : string) (doc : document) : option string :=
  match doc with
  | DocMessage m =>
      if decide (f = "_id") then Some (MessageData.ID m)
      else if decide (f = "message_id") then Some (MessageData.MessageID m)
      else if decide (f = "user_id") then Some (MessageData.UserID m)
      else if decide (f = "channel_id") then Some (MessageData.ChannelID m)
      else if decide (f = "guild_id") then MessageData.GuildID m
      else None
  | DocDeleted m =>
      if decide (f = "message_id") then Some (DeletedMessageData.MessageID m)
      else if decide (f = "user_id") then Some (DeletedMessageData.UserID m)
      else if decide (f = "channel_id") then Some (DeletedMessageData.ChannelID m)
      else if decide (f = "guild_id") then DeletedMessageData.GuildID m
      else None
  | DocEdited m =>
      if decide (f = "message_id") then Some (EditedMessageData.MessageID m)
      else if decide (f = "user_id") then Some (EditedMessageData.UserID m)
      else if decide (f = "channel_id") then Some (EditedMessageData.ChannelID m)
      else if decide (f = "guild_id") then EditedMessageData.GuildID m
      else None
  | DocMention m =>
      if decide (f = "message_id") then Some (MentionData.MessageID m)
      else if decide (f = "author_id") then Some (MentionData.AuthorID m)
      else if decide (f = "channel_id") then Some (MentionData.ChannelID m)
      else if decide (f = "target_id") then Some (MentionData.TargetID m)
      else if decide (f = "guild_id") then MentionData.GuildID m
      else None
  end.

(** Query conditions on one field: equality, [$ne], and a date range
    with optional [$gte] and [$lte] bounds. *)
Inductive cond :=
| Eq (v : string)
| Ne (v : string)
| Range (gte lte : option Time).

(** [bson.M] used as a query: a map from field names to conditions. *)
Abbreviation M := (gmap string cond).

Definition holds (doc : document) (f : string) (c : cond) : bool :=
  match c with
  | Eq v => bool_decide (field_string f doc = Some v)
  | Ne v => bool_decide (field_string f doc ≠ Some v)
  | Range gte lte =>
      match field_time f doc with
      | Some t =>
          from_option (λ a, Z.leb a t) true gte && from_option (λ b, Z.leb t b) true lte
      | None => false
      end
  end.

Definition matches (q : M) (doc : document) : bool :=
  forallb (λ fc, holds doc fc.1 fc.2) (map_to_list q).

(** Write errors carry the position in the batch and the server's code;
    11000 is the duplicate-key code. *)
Record WriteError := mkWriteError { Index : nat; Code : Z }.

Inductive error :=
| WriteException (WriteErrors : list WriteError)
| BulkWriteException (WriteErrors : list WriteError)
| ErrEmptySlice
| ErrClientDisconnected
| ErrServerSelection
| ErrBadValue
| ErrDecode.

(** The server: its collections, whether it can be reached, and its
    acceptance policy.  [verdict name docs x] is the code with which the
    server rejects [x] for collection [name] holding [docs] (unique
    indexes and validation live on the server), [None] when it accepts. *)
Record Server := mkServer {
  collections : gmap string (list document);
  reachable : bool;
  verdict : string → list document → document → option Z
}.

(** A client handle together with the server it talks to. *)
Record Client := mkClient {
  connected : bool;
  server : Server
}.

Definition collection (name : string) (s : Server) : list document :=
  default [] (collections s !! name).

(** Unordered insertion: a rejected document does not stop the ones
    after it. *)
Fixpoint insert_unordered (v : list document → document → option Z)
    (i : nat) (docs : list document) (batch : list document)
    : list document * list WriteError :=
  match batch with
  | [] => (docs, [])
  | x :: rest =>
      match v docs x with
      | None => insert_unordered v (S i) (docs ++ [x]) rest
      | Some code =>
          let r := insert_unordered v (S i) docs rest in
          (r.1, mkWriteError i code :: r.2)
      end
  end.

Definition with_collection (name : string) (docs : list document) (c : Client) : Client :=
  mkClient (connected c)
    (mkServer (<[name := docs]> (collections (server c)))
       (reachable (server c)) (verdict (server c))).

(** [Collection.InsertMany] with [SetOrdered(false)]. *)
Definition InsertMany (name : string) (batch : list document) (c : Client)
    : Client * option error :=
  match batch with
  | [] => (c, Some ErrEmptySlice)
  | _ :: _ =>
      if negb (connected c) then (c, Some ErrClientDisconnected)
      else if negb (reachable (server c)) then (c, Some ErrServerSelection)
      else
        let r := insert_unordered (verdict (server c) name) 0
                   (collection name (server c)) batch in
        (with_collection name r.1 c,
         match r.2 with [] => None | _ :: _ => Some (BulkWriteException r.2) end)
  end.

(** [Collection.InsertOne]. *)
Definition InsertOne (name : string) (x : document) (c : Client)
    : Client * option error :=
  if negb (connected c) then (c, Some ErrClientDisconnected)
  else if negb (reachable (server c)) then (c, Some ErrServerSelection)
  else
    match verdict (server c) name (collection name (server c)) x with
    | None => (with_collection name (collection name (server c) ++ [x]) c, None)
    | Some code => (c, Some (WriteException [mkWriteError 0 code]))
    end.

(** Descending order on the sort field; a document without the field
    sorts below every document that has it. *)
Definition key_le (a b : option Time) : Prop :=
  match a, b with
  | None, _ => True
  | Some _, None => False
  | Some x, Some y => x ≤ y
  end.

Definition desc (f : string) (x y : document) : Prop :=
  key_le (field_time f y) (field_time f x).

#[global] Instance key_le_dec a b : Decision (key_le a b).
Proof. destruct a, b; simpl; apply _. Defined.

#[global] Instance desc_dec f x y : Decision (desc f x y).
Proof. unfold desc. apply _. Defined.

(** [SetLimit]: a positive limit is the maximum number of documents, 0
    means no limit, and a negative limit asks for at most its absolute
    value in a single batch. *)
Definition apply_limit (limit : Z) (l : list document) : list document :=
  if decide (limit = 0) then l else take (Z.abs_nat limit) l.

(** [Collection.Find] with [SetSort(bson.D{{f, -1}})], [SetLimit(limit)]
    and, when given, [SetBatchSize(batchSize)], read to the end of the
    cursor.  The server refuses a negative batch size. *)
Definition Find (name : string) (q : M) (f : string) (limit : Z)
    (batchSize : option Z) (c : Client) : list document + error :=
  if negb (connected c) then inr ErrClientDisconnected
  else if negb (reachable (server c)) then inr ErrServerSelection
  else if from_option (λ b, bool_decide (b < 0)) false batchSize then inr ErrBadValue
  else
    inl (apply_limit limit
           (merge_sort (desc f) (filter (λ x, matches q x = true) (collection name (server c))))).

(** [Client.Disconnect]. *)
Definition Disconnect (c : Client) : Client * option error :=
  if connected c then (mkClient false (server c), None)
  else (c, Some ErrClientDisconnected).

End mongo.

(** ** Buffered channels

    A channel made with a positive capacity: a FIFO buffer that holds at
    most [cap] elements.  A send inside a [select] with a [default] branch
    never waits; a send on a closed channel panics. *)

Module channel.

Record chan (A : Type) := mk {
  buf : list A;
  cap : nat;
  closed : bool
}.
Arguments mk {A} buf cap closed.
Arguments buf {A} c.
Arguments cap {A} c.
Arguments closed {A} c.

(** [make(chan A, n)] *)
Definition make (A : Type) (n : nat) : chan A := mk [] n false.

Inductive send_result (A : Type) :=
| Sent (c : chan A)
| WouldBlock
| SendOnClosed.
Arguments Sent {A} c.
Arguments WouldBlock {A}.
Arguments SendOnClosed {A}.

(** [select { case c <- x: ... default: ... }] *)
Definition try_send {A} (x : A) (c : chan A) : send_result A :=
  if closed c then SendOnClosed
  else if bool_decide (length (buf c) < cap c)%nat
       then Sent (mk (buf c ++ [x]) (cap c) (closed c))
       else WouldBlock.

(** [select { case x := <-c: ... case <-time.After(t): ... }] on an open
    channel: the oldest buffered element, or nothing when the buffer
    stays empty until the timer fires. *)
Definition recv_or_timeout {A} (c : chan A) : option (A * chan A) :=
  match buf c with
  | x :: rest => Some (x, mk rest (cap c) (closed c))
  | [] => None
  end.

(** [close(c)]: closing a closed channel panics ([None]). *)
Definition close {A} (c : chan A) : option (chan A) :=
  if closed c then None else Some (mk (buf c) (cap c) true).

End channel.

(** How a call ends: it returns, or it panics. *)
Inductive completion (S : Type) :=
| Returns (s : S)
| Panics (s : S).
Arguments Returns {S} s.
Arguments Panics {S} s.

Definition final {S} (c : completion S) : S :=
  match c with Returns s => s | Panics s => s end.

(** Log lines, by level and message. *)
Inductive log_entry :=
| LogInfo (msg : string)
| LogWarn (msg : string)
| LogDebug (msg : string)
| LogDebugInserted (n : nat) (collectionName : string)
| LogErrorBulkWrite (collectionName : string) (nonDuplicates : Z)
| LogErrorInsertBatch (collectionName : string) (err : mongo.error)
| LogErrorStore (what : string) (err : mongo.error)
| LogErrorDecode (what : string).

Module config.
Record Database := mkDatabase { URI : string; Name : string }.
End config.

(** ** The batched database *)

Module Database.
Import channel.

(** The four batch processors, named by the channel each one drains
    (the four cases of the type switch in [processBatch]). *)
Inductive kind := KMessage | KDeleted | KEdited | KMention.

#[global] Instance kind_eq_dec : EqDecision kind.
Proof. solve_decision. Defined.

(** The variables local to one [processBatch] goroutine: its batch,
    whether a tick is waiting in [ticker.C] (a channel of capacity one),
    and whether the goroutine has returned. *)
Record processor := mkProcessor {
  batch : list mongo.document;
  ticker : bool;
  returned : bool
}.

(** Where a call of [Close] stands. *)
Inductive close_state :=
| CloseNotCalled
| CloseWaiting
| CloseReturned (r : results mongo.error).

(** The [Database] structure (its client, its four channels, the batch
    settings, the context and the wait group), together with the locals
    of its four goroutines, the progress of [Close] and the log. *)
Record t := mk {
  client : mongo.Client;
  messageBatch : chan MessageData.t;
  deletedBatch : chan DeletedMessageData.t;
  editedBatch : chan EditedMessageData.t;
  mentionBatch : chan MentionData.t;
  batchSize : Z;
  flushInterval : Duration;
  ctx_done : bool;
  wg : Z;
  procMessage : processor;
  procDeleted : processor;
  procEdited : processor;
  procMention : processor;
  closing : close_state;
  log : list log_entry
}.

Definition proc (k : kind) (d : t) : processor :=
  match k with
  | KMessage => procMessage d
  | KDeleted => procDeleted d
  | KEdited => procEdited d
  | KMention => procMention d
  end.

Definition set_proc (k : kind) (p : processor) (d : t) : t :=
  match k with
  | KMessage =>
      mk (client d) (messageBatch d) (deletedBatch d) (editedBatch d) (mentionBatch d)
        (batchSize d) (flushInterval d) (ctx_done d) (wg d)
        p (procDeleted d) (procEdited d) (procMention d) (closing d) (log d)
  | KDeleted =>
      mk (client d) (messageBatch d) (deletedBatch d) (editedBatch d) (mentionBatch d)
        (batchSize d) (flushInterval d) (ctx_done d) (wg d)
        (procMessage d) p (procEdited d) (procMention d) (closing d) (log d)
  | KEdited =>
      mk (client d) (messageBatch d) (deletedBatch d) (editedBatch d) (mentionBatch d)
        (batchSize d) (flushInterval d) (ctx_done d) (wg d)
        (procMessage d) (procDeleted d) p (procMention d) (closing d) (log d)
  | KMention =>
      mk (client d) (messageBatch d) (deletedBatch d) (editedBatch d) (mentionBatch d)
        (batchSize d) (flushInterval d) (ctx_done d) (wg d)
        (procMessage d) (procDeleted d) (procEdited d) p (closing d) (log d)
  end.

Definition set_client (c : mongo.Client) (d : t) : t :=
  mk c (messageBatch d) (deletedBatch d) (editedBatch d) (mentionBatch d)
    (batchSize d) (flushInterval d) (ctx_done d) (wg d)
    (procMessage d) (procDeleted d) (procEdited d) (procMention d) (closing d) (log d).

Definition set_messageBatch (c : chan MessageData.t) (d : t) : t :=
  mk (client d) c (deletedBatch d) (editedBatch d) (mentionBatch d)
    (batchSize d) (flushInterval d) (ctx_done d) (wg d)
    (procMessage d) (procDeleted d) (procEdited d) (procMention d) (closing d) (log d).

Definition set_deletedBatch (c : chan DeletedMessageData.t) (d : t) : t :=
  mk (client d) (messageBatch d) c (editedBatch d) (mentionBatch d)
    (batchSize d) (flushInterval d) (ctx_done d) (wg d)
    (procMessage d) (procDeleted d) (procEdited d) (procMention d) (closing d) (log d).

Definition set_editedBatch (c : chan EditedMessageData.t) (d : t) : t :=
  mk (client d) (messageBatch d) (deletedBatch d) c (mentionBatch d)
    (batchSize d) (flushInterval d) (ctx_done d) (wg d)
    (procMessage d) (procDeleted d) (procEdited d) (procMention d) (closing d) (log d).

Definition set_mentionBatch (c : chan MentionData.t) (d : t) : t :=
  mk (client d) (messageBatch d) (deletedBatch d) (editedBatch d) c
    (batchSize d) (flushInterval d) (ctx_done d) (wg d)
    (procMessage d) (procDeleted d) (procEdited d) (procMention d) (closing d) (log d).

Definition set_ctx_done (b : bool) (d : t) : t :=
  mk (client d) (messageBatch d) (deletedBatch d) (editedBatch d) (mentionBatch d)
    (batchSize d) (flushInterval d) b (wg d)
    (procMessage d) (procDeleted d) (procEdited d) (procMention d) (closing d) (log d).

Definition set_wg (n : Z) (d : t) : t :=
  mk (client d) (messageBatch d) (deletedBatch d) (editedBatch d) (mentionBatch d)
    (batchSize d) (flushInterval d) (ctx_done d) n
    (procMessage d) (procDeleted d) (procEdited d) (procMention d) (closing d) (log d).

Definition set_closing (c : close_state) (d : t) : t :=
  mk (client d) (messageBatch d) (deletedBatch d) (editedBatch d) (mentionBatch d)
    (batchSize d) (flushInterval d) (ctx_done d) (wg d)
    (procMessage d) (procDeleted d) (procEdited d) (procMention d) c (log d).

Definition logf (e : log_entry) (d : t) : t :=
  mk (client d) (messageBatch d) (deletedBatch d) (editedBatch d) (mentionBatch d)
    (batchSize d) (flushInterval d) (ctx_done d) (wg d)
    (procMessage d) (procDeleted d) (procEdited d) (procMention d) (closing d)
    (log d ++ [e]).

(** The structure [New] builds once the server has answered: the fixed
    batch settings and channel capacities, the context not cancelled,
    and the four processors started ([startBatchProcessors] adds four to
    the wait group). *)
Definition started (srv : mongo.Server) : t :=
  mk (mongo.mkClient true srv)
    (make MessageData.t 2000)
    (make DeletedMessageData.t 1000)
    (make EditedMessageData.t 1000)
    (make MentionData.t 500)
    1000
    (5 * Second)
    false
    4
    (mkProcessor [] false false)
    (mkProcessor [] false false)
    (mkProcessor [] false false)
    (mkProcessor [] false false)
    CloseNotCalled
    [LogInfo "Connected to MongoDB with optimized configuration"].

(** [New]: connect and ping; on an error nothing is built. *)
Definition New (cfg : config.Database) (srv : mongo.Server) : t + mongo.error :=
  if negb (mongo.reachable srv) then inr mongo.ErrServerSelection
  else inl (started srv).

(** The collection each processor is started on, as
    [startBatchProcessors] pairs them with the channels. *)
Definition collectionName (k : kind) : string :=
  match k with
  | KMessage => "user_messages"
  | KDeleted => "deleted_messages"
  | KEdited => "edited_messages"
  | KMention => "mentions"
  end.

(** [getCollection]: the cached handle of a collection.  [New] caches a
    handle for each of the four names above and nothing is added later;
    the processors and the readers ask for these names only.  A handle
    is identified with the name of its collection. *)
Definition getCollection (name : string) (d : t) : string := name.

(** The loop of [flushBatch] over [bulkErr.WriteErrors]. *)
Definition count_nonDuplicates (errs : list mongo.WriteError) : Z :=
  fold_left (λ nonDuplicates writeErr,
               if decide (mongo.Code writeErr ≠ 11000)
               then nonDuplicates + 1 else nonDuplicates)
    errs 0.

(** [flushBatch] *)
Definition flushBatch (collectionName : string) (batch : list mongo.document) (d : t) : t :=
  match batch with
  | [] => d
  | _ :: _ =>
      let r := mongo.InsertMany (getCollection collectionName d) batch (client d) in
      let d1 := set_client r.1 d in
      match r.2 with
      | Some (mongo.BulkWriteException errs) =>
          let nonDuplicates := count_nonDuplicates errs in
          if decide (nonDuplicates > 0)
          then logf (LogErrorBulkWrite collectionName nonDuplicates) d1
          else d1
      | Some err => logf (LogErrorInsertBatch collectionName err) d1
      | None => logf (LogDebugInserted (length batch) collectionName) d1
      end
  end.

(** The outer [select] of [processBatch].  The [default] branch is taken
    only when neither [ctx.Done()] nor [ticker.C] is ready; when both are
    ready the runtime picks one of them ([pick]). *)
Inductive outer_case := CaseDone | CaseTicker | CaseDefault.

Definition select_outer (done tick pick : bool) : outer_case :=
  match done, tick with
  | true, true => if pick then CaseDone else CaseTicker
  | true, false => CaseDone
  | false, true => CaseTicker
  | false, false => CaseDefault
  end.

(** The receive of the inner [select], by channel type: the oldest
    element of the processor's channel, as a batch entry. *)
Definition receive (batchChan : kind) (d : t) : option (mongo.document * t) :=
  match batchChan with
  | KMessage =>
      match recv_or_timeout (messageBatch d) with
      | Some (msg, c) => Some (mongo.DocMessage msg, set_messageBatch c d)
      | None => None
      end
  | KDeleted =>
      match recv_or_timeout (deletedBatch d) with
      | Some (msg, c) => Some (mongo.DocDeleted msg, set_deletedBatch c d)
      | None => None
      end
  | KEdited =>
      match recv_or_timeout (editedBatch d) with
      | Some (msg, c) => Some (mongo.DocEdited msg, set_editedBatch c d)
      | None => None
      end
  | KMention =>
      match recv_or_timeout (mentionBatch d) with
      | Some (msg, c) => Some (mongo.DocMention msg, set_mentionBatch c d)
      | None => None
      end
  end.

(** What ended the wait of one loop iteration. *)
Inductive wake :=
| WakeDone
| WakeTicker
| WakeReceive
| WakeTimeout (after : Duration).

(** One iteration of the [for] loop of [processBatch], for the processor
    that drains [batchChan]. *)
Definition processBatch_iter (collectionName : string) (batchChan : kind)
    (pick : bool) (d : t) : t * wake :=
  let p := proc batchChan d in
  match select_outer (ctx_done d) (ticker p) pick with
  | CaseDone =>
      let d1 := if bool_decide (len (batch p) > 0)
                then flushBatch collectionName (batch p) d else d in
      (* return: the deferred ticker.Stop() and wg.Done() run *)
      (set_wg (wg d1 - 1) (set_proc batchChan (mkProcessor (batch p) (ticker p) true) d1),
       WakeDone)
  | CaseTicker =>
      if bool_decide (len (batch p) > 0)
      then (set_proc batchChan (mkProcessor [] false false)
              (flushBatch collectionName (batch p) d), WakeTicker)
      else (set_proc batchChan (mkProcessor (batch p) false false) d, WakeTicker)
  | CaseDefault =>
      match receive batchChan d with
      | Some (msg, d1) =>
          let batch1 := batch p ++ [msg] in
          if bool_decide (len batch1 >= batchSize d)
          then (set_proc batchChan (mkProcessor [] (ticker p) false)
                  (flushBatch collectionName batch1 d1), WakeReceive)
          else (set_proc batchChan (mkProcessor batch1 (ticker p) false) d1, WakeReceive)
      | None => (d, WakeTimeout (10 * Millisecond))
      end
  end.

(** [StoreMessage] and its three siblings: a send that never waits; when
    the channel is full a warning is logged and the record is dropped.
    None of them has a result. *)
Definition StoreMessage (msg : MessageData.t) (d : t) : completion t :=
  match try_send msg (messageBatch d) with
  | Sent c => Returns (set_messageBatch c d)
  | WouldBlock => Returns (logf (LogWarn "Message batch channel full, dropping message") d)
  | SendOnClosed => Panics d
  end.

Definition StoreDeletedMessage (msg : DeletedMessageData.t) (d : t) : completion t :=
  match try_send msg (deletedBatch d) with
  | Sent c => Returns (set_deletedBatch c d)
  | WouldBlock =>
      Returns (logf (LogWarn "Deleted message batch channel full, dropping message") d)
  | SendOnClosed => Panics d
  end.

Definition StoreEditedMessage (msg : EditedMessageData.t) (d : t) : completion t :=
  match try_send msg (editedBatch d) with
  | Sent c => Returns (set_editedBatch c d)
  | WouldBlock =>
      Returns (logf (LogWarn "Edited message batch channel full, dropping message") d)
  | SendOnClosed => Panics d
  end.

Definition StoreMention (mention : MentionData.t) (d : t) : completion t :=
  match try_send mention (mentionBatch d) with
  | Sent c => Returns (set_mentionBatch c d)
  | WouldBlock => Returns (logf (LogWarn "Mention batch channel full, dropping message") d)
  | SendOnClosed => Panics d
  end.

(** The value a [Store*] call returns to its caller. *)
Definition Store_results (c : completion t) : results mongo.error := NoResult.

(** A record of any kind, handed to the [Store*] function of its kind. *)
Definition Store (x : mongo.document) (d : t) : completion t :=
  match x with
  | mongo.DocMessage m => StoreMessage m d
  | mongo.DocDeleted m => StoreDeletedMessage m d
  | mongo.DocEdited m => StoreEditedMessage m d
  | mongo.DocMention m => StoreMention m d
  end.

(** Occupancy and capacity of the channel of a kind. *)
Definition occupancy (k : kind) (d : t) : nat :=
  match k with
  | KMessage => length (buf (messageBatch d))
  | KDeleted => length (buf (deletedBatch d))
  | KEdited => length (buf (editedBatch d))
  | KMention => length (buf (mentionBatch d))
  end.

Definition capacity (k : kind) (d : t) : nat :=
  match k with
  | KMessage => cap (messageBatch d)
  | KDeleted => cap (deletedBatch d)
  | KEdited => cap (editedBatch d)
  | KMention => cap (mentionBatch d)
  end.

Definition chan_closed (k : kind) (d : t) : bool :=
  match k with
  | KMessage => closed (messageBatch d)
  | KDeleted => closed (deletedBatch d)
  | KEdited => closed (editedBatch d)
  | KMention => closed (mentionBatch d)
  end.

(** The records waiting in the channel of a kind, oldest first. *)
Definition queued (k : kind) (d : t) : list mongo.document :=
  match k with
  | KMessage => mongo.DocMessage <$> buf (messageBatch d)
  | KDeleted => mongo.DocDeleted <$> buf (deletedBatch d)
  | KEdited => mongo.DocEdited <$> buf (editedBatch d)
  | KMention => mongo.DocMention <$> buf (mentionBatch d)
  end.

Definition kind_of (x : mongo.document) : kind :=
  match x with
  | mongo.DocMessage _ => KMessage
  | mongo.DocDeleted _ => KDeleted
  | mongo.DocEdited _ => KEdited
  | mongo.DocMention _ => KMention
  end.

(** [QueryFilter] and [TimeRange] *)
Record TimeRange := mkTimeRange {
  After : option Time;
  Before : option Time
}.

Record QueryFilter := mkQueryFilter {
  UserID : option string;
  ChannelID : option string;
  GuildID : option string;
  TargetID : option string;
  ExcludeUser : option string;
  TimeRange_ : option TimeRange
}.

Definition put_if (key : string) (v : option mongo.cond) (query : mongo.M) : mongo.M :=
  match v with
  | Some c => <[key := c]> query
  | None => query
  end.

(** [buildQuery] *)
Definition buildQuery (filter : option QueryFilter) : mongo.M :=
  match filter with
  | None => ∅
  | Some filter =>
      let query := put_if "user_id" (mongo.Eq <$> UserID filter) ∅ in
      let query := put_if "channel_id" (mongo.Eq <$> ChannelID filter) query in
      let query := put_if "guild_id" (mongo.Eq <$> GuildID filter) query in
      let query := put_if "target_id" (mongo.Eq <$> TargetID filter) query in
      let query := put_if "user_id" (mongo.Ne <$> ExcludeUser filter) query in
      match TimeRange_ filter with
      | Some r =>
          match After r, Before r with
          | None, None => query
          | a, b => <["created_at" := mongo.Range a b]> query
          end
      | None => query
      end
  end.

(** [min], the helper of the package. *)
Definition min (a b : Z) : Z := if bool_decide (a < b) then a else b.

(** The largest capacity [make] accepts for a slice of pointers: the
    runtime's allocation bound of 2^48 bytes over the 8-byte element. *)
Definition maxSliceCap : Z := 2 ^ 45.

(** How a reader call ends. *)
Inductive rows (A : Type) :=
| Rows (result : list A) (err : option mongo.error)
| RowsPanic.
Arguments Rows {A} result err.
Arguments RowsPanic {A}.

(** [cursor.Decode] into the structure of each variant: a document that
    is not of the variant does not decode. *)
Definition decodeDeleted (x : mongo.document) : option DeletedMessageData.t :=
  match x with mongo.DocDeleted m => Some m | _ => None end.

Definition decodeEdited (x : mongo.document) : option EditedMessageData.t :=
  match x with mongo.DocEdited m => Some m | _ => None end.

Definition decodeMention (x : mongo.document) : option MentionData.t :=
  match x with mongo.DocMention m => Some m | _ => None end.

(** The cursor loop of the readers: a document that fails to decode is
    logged and skipped. *)
Fixpoint cursor_loop {A} (decode : mongo.document → option A) (what : string)
    (docs : list mongo.document) (messages : list A) (d : t) : list A * t :=
  match docs with
  | [] => (messages, d)
  | x :: rest =>
      match decode x with
      | Some msg => cursor_loop decode what rest (messages ++ [msg]) d
      | None => cursor_loop decode what rest messages (logf (LogErrorDecode what) d)
      end
  end.

(** The common body of [GetDeletedMessages], [GetEditedMessages] and
    [GetMentions]: they differ in the collection, the sort field, the
    structure decoded into and the log text. *)
Definition find_sorted {A} (name field what : string)
    (decode : mongo.document → option A)
    (filter : option QueryFilter) (limit : Z) (d : t) : rows A * t :=
  let query := buildQuery filter in
  match mongo.Find (getCollection name d) query field limit
          (Some (int32 (min limit 100))) (client d) with
  | inr err => (Rows [] (Some err), d)
  | inl docs =>
      if bool_decide (limit < 0 ∨ maxSliceCap < limit) then (RowsPanic, d)
      else
        let r := cursor_loop decode what docs [] d in
        (Rows r.1 None, r.2)
  end.

Definition GetDeletedMessages (filter : option QueryFilter) (limit : Z) (d : t)
    : rows DeletedMessageData.t * t :=
  find_sorted "deleted_messages" "deleted_at" "deleted message" decodeDeleted filter limit d.

Definition GetEditedMessages (filter : option QueryFilter) (limit : Z) (d : t)
    : rows EditedMessageData.t * t :=
  find_sorted "edited_messages" "edited_at" "edited message" decodeEdited filter limit d.

Definition GetMentions (filter : option QueryFilter) (limit : Z) (d : t)
    : rows MentionData.t * t :=
  find_sorted "mentions" "created_at" "mention" decodeMention filter limit d.

(** A filter handed over as [interface{}]: nil, a [bson.M], or a value
    of another type. *)
Inductive any_filter :=
| FilterNil
| FilterM (bsonFilter : mongo.M)
| FilterOther.

Definition emptyQueryFilter : QueryFilter :=
  mkQueryFilter None None None None None None.

(** The conversion of a [bson.M] into a [QueryFilter] at the head of
    [GetDeletedMessagesInterface] and [GetEditedMessagesInterface]: a
    string under [user_id] becomes [UserID], a [$ne] string under
    [user_id] becomes [ExcludeUser], a string under [channel_id] becomes
    [ChannelID]; nothing else is read. *)
Definition convertUserChannel (bsonFilter : mongo.M) : QueryFilter :=
  let queryFilter := emptyQueryFilter in
  let queryFilter :=
    match bsonFilter !! "user_id" with
    | Some (mongo.Eq userIDStr) =>
        mkQueryFilter (Some userIDStr) (ChannelID queryFilter) (GuildID queryFilter)
          (TargetID queryFilter) (ExcludeUser queryFilter) (TimeRange_ queryFilter)
    | Some (mongo.Ne neStr) =>
        mkQueryFilter (UserID queryFilter) (ChannelID queryFilter) (GuildID queryFilter)
          (TargetID queryFilter) (Some neStr) (TimeRange_ queryFilter)
    | _ => queryFilter
    end in
  match bsonFilter !! "channel_id" with
  | Some (mongo.Eq channelIDStr) =>
      mkQueryFilter (UserID queryFilter) (Some channelIDStr) (GuildID queryFilter)
        (TargetID queryFilter) (ExcludeUser queryFilter) (TimeRange_ queryFilter)
  | _ => queryFilter
  end.

(** The conversion at the head of [GetMentionsInterface]: only a string
    under [target_id] is read. *)
Definition convertTarget (bsonFilter : mongo.M) : QueryFilter :=
  let queryFilter := emptyQueryFilter in
  match bsonFilter !! "target_id" with
  | Some (mongo.Eq targetIDStr) =>
      mkQueryFilter (UserID queryFilter) (ChannelID queryFilter) (GuildID queryFilter)
        (Some targetIDStr) (ExcludeUser queryFilter) (TimeRange_ queryFilter)
  | _ => queryFilter
  end.

(** [var queryFilter *QueryFilter], set only for a [bson.M]. *)
Definition queryFilterOf (convert : mongo.M → QueryFilter) (filter : any_filter)
    : option QueryFilter :=
  match filter with
  | FilterM bsonFilter => Some (convert bsonFilter)
  | FilterNil | FilterOther => None
  end.

(** The tail of the three wrappers: an error of the reader is passed on
    without rows, otherwise every row is handed back as an
    [interface{}]. *)
Definition asInterfaces {A} (wrap : A → mongo.document) (r : rows A) : rows mongo.document :=
  match r with
  | Rows messages (Some err) => Rows [] (Some err)
  | Rows messages None => Rows (wrap <$> messages) None
  | RowsPanic => RowsPanic
  end.

Definition GetDeletedMessagesInterface (filter : any_filter) (limit : Z) (d : t)
    : rows mongo.document * t :=
  let r := GetDeletedMessages (queryFilterOf convertUserChannel filter) limit d in
  (asInterfaces mongo.DocDeleted r.1, r.2).

Definition GetEditedMessagesInterface (filter : any_filter) (limit : Z) (d : t)
    : rows mongo.document * t :=
  let r := GetEditedMessages (queryFilterOf convertUserChannel filter) limit d in
  (asInterfaces mongo.DocEdited r.1, r.2).

Definition GetMentionsInterface (filter : any_filter) (limit : Z) (d : t)
    : rows mongo.document * t :=
  let r := GetMentions (queryFilterOf convertTarget filter) limit d in
  (asInterfaces mongo.DocMention r.1, r.2).

(** [Close], in its two phases.  First it logs and cancels the context;
    then [wg.Wait()] keeps it waiting until the counter is zero. *)
Definition Close_begin (d : t) : t :=
  set_closing CloseWaiting
    (set_ctx_done true (logf (LogInfo "Shutting down database...") d)).

(** Once [wg.Wait()] has returned, [Close] closes the four channels,
    disconnects the client and returns the error of [Disconnect].  While
    the counter is not zero there is no next state: [None]. *)
Definition Close_end (d : t) : option (completion t) :=
  if decide (wg d = 0) then
    match close (messageBatch d), close (deletedBatch d),
          close (editedBatch d), close (mentionBatch d) with
    | Some c1, Some c2, Some c3, Some c4 =>
        let d1 := set_mentionBatch c4 (set_editedBatch c3
                    (set_deletedBatch c2 (set_messageBatch c1 d))) in
        let r := mongo.Disconnect (client d1) in
        Some (Returns (set_closing (CloseReturned (ResError r.2)) (set_client r.1 d1)))
    | _, _, _, _ => Some (Panics d)
    end
  else None.

(** ** Runs of the pipeline

    The goroutines interleave: a producer calls a [Store*] function, the
    ticker of a processor fires, a processor runs one loop iteration, or
    [Close] moves on.  [step] is [None] when the action cannot happen in
    the state: the processor has returned, [Close] is still waiting, or
    the call panics. *)
Inductive action :=
| AStore (x : mongo.document)
| ATick (k : kind)
| AIter (k : kind) (pick : bool)
| ACloseBegin
| ACloseEnd.

Definition step (a : action) (d : t) : option t :=
  match a with
  | AStore x =>
      match Store x d with
      | Returns d' => Some d'
      | Panics _ => None
      end
  | ATick k =>
      if returned (proc k d) then None
      else Some (set_proc k (mkProcessor (batch (proc k d)) true false) d)
  | AIter k pick =>
      if returned (proc k d) then None
      else Some (processBatch_iter (collectionName k) k pick d).1
  | ACloseBegin =>
      match closing d with
      | CloseNotCalled => Some (Close_begin d)
      | _ => None
      end
  | ACloseEnd =>
      match closing d with
      | CloseWaiting =>
          match Close_end d with
          | Some (Returns d') => Some d'
          | _ => None
          end
      | _ => None
      end
  end.

Fixpoint run (tr : list action) (d : t) : option t :=
  match tr with
  | [] => Some d
  | a :: rest =>
      match step a d with
      | Some d' => run rest d'
      | None => None
      end
  end.

End Database.

(** ** The simple database *)

Module SimpleDatabase.

(** The [SimpleDatabase] structure, with the log the package writes to. *)
Record t := mk {
  client : mongo.Client;
  log : list log_entry
}.

Definition logf (e : log_entry) (d : t) : t := mk (client d) (log d ++ [e]).

(** [NewSimpleDatabase] *)
Definition NewSimpleDatabase (cfg : config.Database) (srv : mongo.Server)
    : t + mongo.error :=
  if negb (mongo.reachable srv) then inr mongo.ErrServerSelection
  else inl (mk (mongo.mkClient true srv) [LogInfo "Connected to MongoDB"]).

(** A string field tagged [omitempty] is left out when it is empty. *)
Definition omitempty (s : string) : option string :=
  if decide (s = "") then None else Some s.

(** The documents the simple structures are written as. *)
Definition docMessage (m : SimpleMessageData.t) : mongo.document :=
  mongo.DocMessage
    (MessageData.mk (SimpleMessageData.ID m) (SimpleMessageData.MessageID m)
       (SimpleMessageData.UserID m) (SimpleMessageData.Username m)
       (SimpleMessageData.Content m) (SimpleMessageData.CreatedAt m)
       (SimpleMessageData.ChannelID m)
       (omitempty (SimpleMessageData.ChannelName m))
       (omitempty (SimpleMessageData.ChannelType m))
       (SimpleMessageData.IsGroup m) (SimpleMessageData.Attachments m)
       (SimpleMessageData.InstanceID m) (SimpleMessageData.IsSelf m)
       (omitempty (SimpleMessageData.GuildID m))
       (omitempty (SimpleMessageData.GuildName m))
       None []).

Definition docDeleted (m : SimpleDeletedMessageData.t) : mongo.document :=
  mongo.DocDeleted
    (DeletedMessageData.mk (SimpleDeletedMessageData.MessageID m)
       (SimpleDeletedMessageData.UserID m)
       (omitempty (SimpleDeletedMessageData.Username m))
       (SimpleDeletedMessageData.Content m) (SimpleDeletedMessageData.DeletedAt m)
       (SimpleDeletedMessageData.ChannelID m)
       (omitempty (SimpleDeletedMessageData.ChannelName m))
       (omitempty (SimpleDeletedMessageData.ChannelType m))
       (SimpleDeletedMessageData.IsGroup m) (SimpleDeletedMessageData.Attachments m)
       (omitempty (SimpleDeletedMessageData.GuildID m))
       (omitempty (SimpleDeletedMessageData.GuildName m))
       None []).

Definition docEdited (m : SimpleEditedMessageData.t) : mongo.document :=
  mongo.DocEdited
    (EditedMessageData.mk (SimpleEditedMessageData.MessageID m)
       (SimpleEditedMessageData.UserID m)
       (omitempty (SimpleEditedMessageData.Username m))
       (SimpleEditedMessageData.BeforeContent m) (SimpleEditedMessageData.AfterContent m)
       (SimpleEditedMessageData.BeforeAttachments m)
       (SimpleEditedMessageData.AfterAttachments m)
       (SimpleEditedMessageData.EditedAt m) (SimpleEditedMessageData.ChannelID m)
       (omitempty (SimpleEditedMessageData.ChannelName m))
       (omitempty (SimpleEditedMessageData.ChannelType m))
       (SimpleEditedMessageData.IsGroup m)
       (omitempty (SimpleEditedMessageData.GuildID m))
       (omitempty (SimpleEditedMessageData.GuildName m))
       None).

Definition docMention (m : SimpleMentionData.t) : mongo.document :=
  mongo.DocMention
    (MentionData.mk (SimpleMentionData.MessageID m) (SimpleMentionData.AuthorID m)
       (SimpleMentionData.AuthorName m) (SimpleMentionData.Content m)
       (SimpleMentionData.CreatedAt m) (SimpleMentionData.ChannelID m)
       (omitempty (SimpleMentionData.ChannelName m))
       (SimpleMentionData.Attachments m) (SimpleMentionData.ChannelType m)
       (SimpleMentionData.IsGroup m) (SimpleMentionData.TargetID m)
       (omitempty (SimpleMentionData.GuildID m))
       (omitempty (SimpleMentionData.GuildName m))
       None).

(** Decoding a stored document into a simple structure: an absent field
    is the empty string, fields the structure lacks are ignored. *)
Definition decodeDeleted (x : mongo.document) : option SimpleDeletedMessageData.t :=
  match x with
  | mongo.DocDeleted m =>
      Some (SimpleDeletedMessageData.mk (DeletedMessageData.MessageID m)
              (DeletedMessageData.UserID m)
              (default "" (DeletedMessageData.Username m))
              (DeletedMessageData.Content m) (DeletedMessageData.DeletedAt m)
              (DeletedMessageData.ChannelID m)
              (default "" (DeletedMessageData.ChannelName m))
              (default "" (DeletedMessageData.ChannelType m))
              (DeletedMessageData.IsGroup m) (DeletedMessageData.Attachments m)
              (default "" (DeletedMessageData.GuildID m))
              (default "" (DeletedMessageData.GuildName m)))
  | _ => None
  end.

Definition decodeEdited (x : mongo.document) : option SimpleEditedMessageData.t :=
  match x with
  | mongo.DocEdited m =>
      Some (SimpleEditedMessageData.mk (EditedMessageData.MessageID m)
              (EditedMessageData.UserID m)
              (default "" (EditedMessageData.Username m))
              (EditedMessageData.BeforeContent m) (EditedMessageData.AfterContent m)
              (EditedMessageData.BeforeAttachments m)
              (EditedMessageData.AfterAttachments m)
              (EditedMessageData.EditedAt m) (EditedMessageData.ChannelID m)
              (default "" (EditedMessageData.ChannelName m))
              (default "" (EditedMessageData.ChannelType m))
              (EditedMessageData.IsGroup m)
              (default "" (EditedMessageData.GuildID m))
              (default "" (EditedMessageData.GuildName m)))
  | _ => None
  end.

Definition decodeMention (x : mongo.document) : option SimpleMentionData.t :=
  match x with
  | mongo.DocMention m =>
      Some (SimpleMentionData.mk (MentionData.MessageID m) (MentionData.AuthorID m)
              (MentionData.AuthorName m) (MentionData.Content m)
              (MentionData.CreatedAt m) (MentionData.ChannelID m)
              (default "" (MentionData.ChannelName m))
              (MentionData.Attachments m) (MentionData.ChannelType m)
              (MentionData.IsGroup m) (MentionData.TargetID m)
              (default "" (MentionData.GuildID m))
              (default "" (MentionData.GuildName m)))
  | _ => None
  end.

(** [isDuplicateError] *)
Definition isDuplicateError (err : mongo.error) : bool :=
  match err with
  | mongo.WriteException WriteErrors =>
      existsb (λ writeErr, bool_decide (mongo.Code writeErr = 11000)) WriteErrors
  | _ => false
  end.

(** The common body of the four [Store*] methods: one [InsertOne]; an
    error that is not a duplicate-key error is logged and returned. *)
Definition store (name what : string) (x : mongo.document) (d : t)
    : t * option mongo.error :=
  let r := mongo.InsertOne name x (client d) in
  let d1 := mk r.1 (log d) in
  match r.2 with
  | Some err =>
      if negb (isDuplicateError err)
      then (logf (LogErrorStore what err) d1, Some err)
      else (d1, None)
  | None => (d1, None)
  end.

Definition StoreMessage (msg : SimpleMessageData.t) (d : t) : t * option mongo.error :=
  store "user_messages" "message" (docMessage msg) d.

Definition StoreDeletedMessage (msg : SimpleDeletedMessageData.t) (d : t)
    : t * option mongo.error :=
  store "deleted_messages" "deleted message" (docDeleted msg) d.

Definition StoreEditedMessage (msg : SimpleEditedMessageData.t) (d : t)
    : t * option mongo.error :=
  store "edited_messages" "edited message" (docEdited msg) d.

Definition StoreMention (mention : SimpleMentionData.t) (d : t)
    : t * option mongo.error :=
  store "mentions" "mention" (docMention mention) d.

(** The common body of the three readers: [Find] with the sort and the
    limit, then [cursor.All], which fails as a whole when a document
    does not decode. *)
Definition find_sorted {A} (name field : string)
    (decode : mongo.document → option A) (filter : mongo.M) (limit : Z) (d : t)
    : list A * option mongo.error :=
  match mongo.Find name filter field limit None (client d) with
  | inr err => ([], Some err)
  | inl docs =>
      match mapM decode docs with
      | Some messages => (messages, None)
      | None => ([], Some mongo.ErrDecode)
      end
  end.

Definition GetDeletedMessages (filter : mongo.M) (limit : Z) (d : t)
    : list SimpleDeletedMessageData.t * option mongo.error :=
  find_sorted "deleted_messages" "deleted_at" decodeDeleted filter limit d.

Definition GetEditedMessages (filter : mongo.M) (limit : Z) (d : t)
    : list SimpleEditedMessageData.t * option mongo.error :=
  find_sorted "edited_messages" "edited_at" decodeEdited filter limit d.

Definition GetMentions (filter : mongo.M) (limit : Z) (d : t)
    : list SimpleMentionData.t * option mongo.error :=
  find_sorted "mentions" "created_at" decodeMention filter limit d.

(** [Close] *)
Definition Close (d : t) : t * option mongo.error :=
  let r := mongo.Disconnect (client d) in (mk r.1 (log d), r.2).

End SimpleDatabase.

(** ** The Discord library, as far as the bot reads it *)

Module discordgo.

Record User := mkUser {
  ID : string;
  Username : string;
  Bot : bool
}.

Record MessageAttachment := mkMessageAttachment { ProxyURL : string }.

Record MessageReference := mkMessageReference { MessageID : string }.

Definition ChannelTypeDM : Z := 1.
Definition ChannelTypeGroupDM : Z := 3.

Record Channel := mkChannel {
  Name : string;
  Type_ : Z;
  GuildID : string
}.

Record Message := mkMessage {
  MsgID : string;
  ChannelID : string;
  Content : string;
  Author : option User;
  Attachments : list MessageAttachment;
  Mentions : list User;
  Reference : option MessageReference
}.

(** The answers of the REST calls [Session.Channel] and
    [Session.ChannelMessage]; [None] is an error. *)
Record Session := mkSession {
  Channel_ : string → option Channel;
  ChannelMessage : string → string → option Message
}.

End discordgo.

(** ** The bot *)

Module SimpleBot.

Record SimpleChannelInfo := mkChannelInfo {
  Name : string;
  Type_ : string;
  IsGroup : bool;
  GuildID : string;
  GuildName : string
}.

Record t := mk {
  database : SimpleDatabase.t;
  session : option discordgo.Session;
  userID : string;
  index : Z;
  channelCache : gmap string SimpleChannelInfo
}.

Definition set_database (db : SimpleDatabase.t) (b : t) : t :=
  mk db (session b) (userID b) (index b) (channelCache b).

Definition set_channelCache (c : gmap string SimpleChannelInfo) (b : t) : t :=
  mk (database b) (session b) (userID b) (index b) c.

Definition logf (e : log_entry) (b : t) : t :=
  set_database (SimpleDatabase.logf e (database b)) b.

(** The part of [getChannelInfo] that runs under [recover]: it fills
    the default [channelInfo] from the channel the session returns.
    Slicing a guild id shorter than 8 bytes panics; the panic is
    recovered and leaves the fields assigned so far. *)
Definition fill_channelInfo (channelID : string) (channelInfo : SimpleChannelInfo)
    (b : t) : SimpleChannelInfo * t :=
  match session b with
  | None => (channelInfo, b)
  | Some session =>
      match discordgo.Channel_ session channelID with
      | None => (channelInfo, logf (LogDebug "Failed to get channel info") b)
      | Some channel =>
          let name := if decide (discordgo.Name channel ≠ "")
                      then discordgo.Name channel else Name channelInfo in
          let type_ := if decide (discordgo.Type_ channel = discordgo.ChannelTypeDM)
                      then "DMs"
                      else if decide (discordgo.Type_ channel = discordgo.ChannelTypeGroupDM)
                      then "group" else "text" in
          let isGroup := if decide (discordgo.Type_ channel = discordgo.ChannelTypeGroupDM)
                         then true else IsGroup channelInfo in
          let info := mkChannelInfo name type_ isGroup (GuildID channelInfo)
                        (GuildName channelInfo) in
          if decide (discordgo.GuildID channel ≠ ""
                     ∧ discordgo.Type_ channel ≠ discordgo.ChannelTypeDM
                     ∧ discordgo.Type_ channel ≠ discordgo.ChannelTypeGroupDM)
          then
            if bool_decide (String.length (discordgo.GuildID channel) < 8)%nat
            then (mkChannelInfo name type_ isGroup (discordgo.GuildID channel)
                    (GuildName channelInfo),
                  logf (LogDebug "Recovered from panic getting channel info") b)
            else (mkChannelInfo name type_ isGroup (discordgo.GuildID channel)
                    ("Server-" +:+ String.substring 0 8 (discordgo.GuildID channel)),
                  b)
          else (info, b)
      end
  end.

(** [getChannelInfo]: the cached entry, or a fresh one that is then
    cached.  It never returns nil.  (The goroutine it starts to replace
    the placeholder guild name later is a separate activity.) *)
Definition getChannelInfo (channelID : string) (b : t) : SimpleChannelInfo * t :=
  match channelCache b !! channelID with
  | Some channelInfo => (channelInfo, b)
  | None =>
      let r := fill_channelInfo channelID
                 (mkChannelInfo "Unknown Channel" "text" false "" "") b in
      (r.1, set_channelCache (<[channelID := r.1]> (channelCache r.2)) r.2)
  end.

(** [isUserMentioned]; [None] is the panic on a referenced message
    without author. *)
Definition isUserMentioned (m : discordgo.Message) (b : t) : option bool :=
  if decide (userID b = "") then Some false
  else if existsb (λ user, bool_decide (discordgo.ID user = userID b)) (discordgo.Mentions m)
  then Some true
  else
    match discordgo.Reference m with
    | Some ref =>
        if decide (discordgo.MessageID ref ≠ "") then
          match session b with
          | Some session =>
              match discordgo.ChannelMessage session (discordgo.ChannelID m)
                      (discordgo.MessageID ref) with
              | Some refMsg =>
                  match discordgo.Author refMsg with
                  | Some author =>
                      Some (bool_decide (discordgo.ID author = userID b))
                  | None => None
                  end
              | None => Some false
              end
          | None => Some false
          end
        else Some false
    | None => Some false
    end.

Definition proxyURLs (l : list discordgo.MessageAttachment) : list string :=
  discordgo.ProxyURL <$> l.

(** [processMention]; the caller has checked the author. *)
Definition processMention (m : discordgo.Message) (author : discordgo.User)
    (now : Time) (b : t) : t :=
  if decide (userID b = "") then b
  else
    let r := getChannelInfo (discordgo.ChannelID m) b in
    let channelInfo := r.1 in
    let channelType :=
      if decide (Type_ channelInfo = "DMs") then 1
      else if decide (Type_ channelInfo = "group") then 3 else 0 in
    let mentionData :=
      SimpleMentionData.mk (discordgo.MsgID m) (discordgo.ID author)
        (discordgo.Username author) (discordgo.Content m) now
        (discordgo.ChannelID m) (Name channelInfo)
        (proxyURLs (discordgo.Attachments m)) channelType (IsGroup channelInfo)
        (userID b) (GuildID channelInfo) (GuildName channelInfo) in
    let s := SimpleDatabase.StoreMention mentionData (database r.2) in
    match s.2 with
    | Some err => logf (LogErrorStore "bot: mention" err) (set_database s.1 r.2)
    | None => set_database s.1 r.2
    end.

(** [processMessage]; [now] and [now'] are the two readings of the
    clock, for the message and for the mention. *)
Definition processMessage (m : discordgo.Message) (now now' : Time) (b : t)
    : completion t :=
  match discordgo.Author m with
  | None => Panics b
  | Some author =>
      if discordgo.Bot author then Returns b
      else if decide (userID b = "") then Returns b
      else
        let r := getChannelInfo (discordgo.ChannelID m) b in
        let channelInfo := r.1 in
        let msgData :=
          SimpleMessageData.mk (discordgo.MsgID m) (discordgo.MsgID m)
            (discordgo.ID author) (discordgo.Username author) (discordgo.Content m)
            now (discordgo.ChannelID m) (Name channelInfo) (Type_ channelInfo)
            (IsGroup channelInfo) (proxyURLs (discordgo.Attachments m))
            (userID b) (bool_decide (discordgo.ID author = userID b))
            (GuildID channelInfo) (GuildName channelInfo) in
        let s := SimpleDatabase.StoreMessage msgData (database r.2) in
        let b1 := match s.2 with
                  | Some err => logf (LogErrorStore "bot: message" err) (set_database s.1 r.2)
                  | None => set_database s.1 r.2
                  end in
        match isUserMentioned m b1 with
        | None => Panics b1
        | Some mentioned =>
            if mentioned && bool_decide (discordgo.ID author ≠ userID b1)
            then Returns (processMention m author now' b1)
            else Returns b1
        end
  end.

(** [processDeletedMessage]; [None] is a nil message. *)
Definition processDeletedMessage (m : option discordgo.Message) (now : Time) (b : t) : t :=
  match m with
  | None => b
  | Some m =>
      match discordgo.Author m with
      | None => b
      | Some author =>
          if discordgo.Bot author then b
          else if decide (userID b = "" ∨ discordgo.ID author = userID b) then b
          else
            let r := getChannelInfo (discordgo.ChannelID m) b in
            let channelInfo := r.1 in
            let msgData :=
              SimpleDeletedMessageData.mk (discordgo.MsgID m) (discordgo.ID author)
                (discordgo.Username author) (discordgo.Content m) now
                (discordgo.ChannelID m) (Name channelInfo) (Type_ channelInfo)
                (IsGroup channelInfo) (proxyURLs (discordgo.Attachments m))
                (GuildID channelInfo) (GuildName channelInfo) in
            let s := SimpleDatabase.StoreDeletedMessage msgData (database r.2) in
            match s.2 with
            | Some err =>
                logf (LogErrorStore "bot: deleted message" err) (set_database s.1 r.2)
            | None => set_database s.1 r.2
            end
      end
  end.

(** [processEditedMessage] *)
Definition processEditedMessage (before after : option discordgo.Message)
    (now : Time) (b : t) : t :=
  match before, after with
  | Some before, Some after =>
      match discordgo.Author after with
      | None => b
      | Some author =>
          if discordgo.Bot author then b
          else if decide (userID b = "" ∨ discordgo.ID author = userID b) then b
          else if decide (discordgo.Content before = discordgo.Content after) then b
          else
            let r := getChannelInfo (discordgo.ChannelID after) b in
            let channelInfo := r.1 in
            let msgData :=
              SimpleEditedMessageData.mk (discordgo.MsgID after) (discordgo.ID author)
                (discordgo.Username author) (discordgo.Content before)
                (discordgo.Content after)
                (proxyURLs (discordgo.Attachments before))
                (proxyURLs (discordgo.Attachments after))
                now (discordgo.ChannelID after) (Name channelInfo) (Type_ channelInfo)
                (IsGroup channelInfo) (GuildID channelInfo) (GuildName channelInfo) in
            let s := SimpleDatabase.StoreEditedMessage msgData (database r.2) in
            match s.2 with
            | Some err =>
                logf (LogErrorStore "bot: edited message" err) (set_database s.1 r.2)
            | None => set_database s.1 r.2
            end
      end
  | _, _ => b
  end.

End SimpleBot.

(** ** The Go library functions the commands call *)

(** A Go string is its bytes. *)
Definition bytes (s : string) : list ascii := String.list_ascii_of_string s.
Definition str (l : list ascii) : string := String.string_of_list_ascii l.

Module strconv.

(** The digit loop of [ParseUint] in base 10: any byte that is not a
    decimal digit is a syntax error. *)
Fixpoint digits (s : list ascii) (n : Z) : option Z :=
  match s with
  | [] => Some n
  | c :: rest =>
      match Ascii.is_nat c with
      | Some d => digits rest (n * 10 + Z.of_nat d)
      | None => None
      end
  end.

(** [strconv.ParseInt(s, 10, 64)]; [None] is a non-nil error, for bad
    syntax (no digits, a byte that is not a digit) as for a value out of
    the range of [int64]. *)
Definition ParseInt (s : string) : option Z :=
  match bytes s with
  | [] => None
  | c :: rest =>
      let neg := bool_decide (c = "-"%char) in
      let s1 := if bool_decide (c = "+"%char) || neg then rest else c :: rest in
      match s1 with
      | [] => None
      | _ :: _ =>
          match digits s1 0 with
          | Some un =>
              if neg then (if bool_decide (un ≤ 2 ^ 63) then Some (- un) else None)
              else (if bool_decide (un < 2 ^ 63) then Some un else None)
          | None => None
          end
      end
  end.

End strconv.

Module strings.

(** [strings.HasPrefix] and [strings.HasSuffix] *)
Definition HasPrefix (s prefix : string) : bool :=
  bool_decide (bytes prefix `prefix_of` bytes s).

Definition HasSuffix (s suffix : string) : bool :=
  bool_decide (bytes suffix `suffix_of` bytes s).

(** [strings.Trim] for a cutset of ASCII bytes: the bytes of the cutset
    are removed from both ends. *)
Fixpoint trimLeft (cutset s : list ascii) : list ascii :=
  match s with
  | [] => []
  | c :: rest => if bool_decide (c ∈ cutset) then trimLeft cutset rest else s
  end.

Definition trimRight (cutset s : list ascii) : list ascii :=
  reverse (trimLeft cutset (reverse s)).

Definition Trim (s cutset : string) : string :=
  str (trimLeft (bytes cutset) (trimRight (bytes cutset) (bytes s))).

(** [strings.ReplaceAll] for a non-empty [old], which is what the
    callers pass: the occurrences of [old] that do not overlap are
    replaced from left to right.  [skip] counts the bytes of an
    occurrence still to pass over. *)
Fixpoint replace (old new : list ascii) (skip : nat) (s : list ascii) : list ascii :=
  match s with
  | [] => []
  | c :: rest =>
      match skip with
      | S k => replace old new k rest
      | O =>
          if bool_decide (old `prefix_of` s)
          then new ++ replace old new (length old - 1) rest
          else c :: replace old new 0 rest
      end
  end.

Definition ReplaceAll (s old new : string) : string :=
  str (replace (bytes old) (bytes new) 0 (bytes s)).

(** [strings.Split] for a separator of one byte; [cur] is the piece
    being read. *)
Fixpoint split (sep : ascii) (cur s : list ascii) : list (list ascii) :=
  match s with
  | [] => [cur]
  | c :: rest =>
      if decide (c = sep) then cur :: split sep [] rest
      else split sep (cur ++ [c]) rest
  end.

Definition Split (s : string) (sep : ascii) : list string :=
  str <$> split sep [] (bytes s).

(** [strings.Join] *)
Fixpoint Join (elems : list string) (sep : string) : string :=
  match elems with
  | [] => ""
  | [x] => x
  | x :: rest => x +:+ sep +:+ Join rest sep
  end.

End strings.

(** ** The commands that query the store *)

Module commands.

(** The two REST calls the argument loop makes, [s.User] and
    [s.Channel]; [None] is an error. *)
Record Rest := mkRest {
  User : string → option discordgo.User;
  Channel : string → option discordgo.Channel
}.

(** The three variables of the argument loop. *)
Record parsed := mkParsed {
  userID : string;
  channelID : string;
  limit : Z
}.

(** The argument loop of the snipe and the editsnipe command, one
    iteration at a time: [arg] is [args[i]] and [rest] what follows it, so
    that [i+1 < len(args)] is [rest ≠ []] and [args[i+1]] its head. *)
Fixpoint parseArgs (s : Rest) (args : list string) (st : parsed) : parsed :=
  match args with
  | [] => st
  | arg :: rest =>
      let st :=
        if strings.HasPrefix arg "<@" && strings.HasSuffix arg ">"
        then mkParsed (strings.Trim arg "<@!>") (channelID st) (limit st)
        else if strings.HasPrefix arg "<#" && strings.HasSuffix arg ">"
        then mkParsed (userID st) (strings.Trim arg "<#>") (limit st)
        else
          match strconv.ParseInt arg with
          | Some num =>
              if bool_decide (len (bytes arg) > 15) then
                if bool_decide (is_Some (User s arg))
                then mkParsed arg (channelID st) (limit st)
                else if bool_decide (is_Some (Channel s arg))
                then mkParsed (userID st) arg (limit st)
                else st
              else mkParsed (userID st) (channelID st) num
          | None => st
          end in
      let st :=
        if decide (userID st ≠ "") then
          match rest with
          | next :: _ =>
              match strconv.ParseInt next with
              | Some num =>
                  if bool_decide (num < 100)
                  then mkParsed (userID st) (channelID st) num else st
              | None => st
              end
          | [] => st
          end
        else st in
      parseArgs s rest st
  end.

(** "Limit between 1 and 1000" *)
Definition clampLimit (limit : Z) : Z :=
  if bool_decide (limit < 1) then 1
  else if bool_decide (limit > 1000) then 1000 else limit.

(** The filter of the snipe and the editsnipe command. *)
Definition buildFilter (self : string) (st : parsed) : mongo.M :=
  let filter : mongo.M := {["user_id" := mongo.Ne self]} in
  let filter := if decide (userID st ≠ "")
                then <["user_id" := mongo.Eq (userID st)]> filter else filter in
  if decide (channelID st ≠ "")
  then <["channel_id" := mongo.Eq (channelID st)]> filter else filter.

(** What the snipe and the editsnipe command ask the store: the filter
    and the limit, from the arguments, the own account [self] and the
    channel [channel] the command was sent in. *)
Definition snipeQuery (s : Rest) (self channel : string) (args : list string)
    : mongo.M * Z :=
  let st := parseArgs s args (mkParsed "" channel 1) in
  (buildFilter self st, clampLimit (limit st)).

(** What the lastping command asks the store. *)
Definition lastpingQuery (self : string) (args : list string) : mongo.M * Z :=
  let limit := 5 in
  let limit :=
    match args with
    | arg :: _ =>
        match strconv.ParseInt arg with
        | Some num => num
        | None => limit
        end
    | [] => limit
    end in
  ({["target_id" := mongo.Eq self]}, clampLimit limit).

(** [Execute] of the three commands, up to the rows it goes on to
    format and send. *)
Module SimpleSnipeCommand.
Definition Execute (s : Rest) (self channel : string) (args : list string)
    (db : SimpleDatabase.t) : list SimpleDeletedMessageData.t * option mongo.error :=
  let q := snipeQuery s self channel args in
  SimpleDatabase.GetDeletedMessages q.1 q.2 db.
End SimpleSnipeCommand.

Module SimpleEditSnipeCommand.
Definition Execute (s : Rest) (self channel : string) (args : list string)
    (db : SimpleDatabase.t) : list SimpleEditedMessageData.t * option mongo.error :=
  let q := snipeQuery s self channel args in
  SimpleDatabase.GetEditedMessages q.1 q.2 db.
End SimpleEditSnipeCommand.

Module SimpleLastPingCommand.
Definition Execute (self : string) (args : list string)
    (db : SimpleDatabase.t) : list SimpleMentionData.t * option mongo.error :=
  let q := lastpingQuery self args in
  SimpleDatabase.GetMentions q.1 q.2 db.
End SimpleLastPingCommand.

(** The helpers of the commands *)

(** The string that holds the one byte of a backslash. *)
Definition backslash : string := String (ascii_of_nat 92) "".

(** [CleanContent] *)
Definition CleanContent (content : string) : string :=
  let content := strings.ReplaceAll content backslash "" in
  let content := strings.ReplaceAll content "```" "" in
  let content := strings.ReplaceAll content "`" "" in
  let content := strings.ReplaceAll content "|" "" in
  let content := strings.ReplaceAll content "*" "" in
  content.

(** [TruncateContent]; [None] is the panic of the slice expression
    [content[:maxLength-3]] on a negative bound. *)
Definition TruncateContent (content : string) (maxLength : Z) : option string :=
  if bool_decide (len (bytes content) > maxLength) then
    if bool_decide (maxLength - 3 < 0) then None
    else Some (str (take (Z.to_nat (maxLength - 3)) (bytes content)) +:+ "...")
  else Some content.

(** [FormatMessage] *)
Definition FormatMessage (content : string) : string :=
  let lines := strings.Split content "010"%char in
  let lines := (λ line, "> " +:+ line) <$> lines in
  strings.Join lines (String "010"%char "").

(** The loop of [RemoveDuplicates] over the rest of the slice, with the
    map [seen] and the slice [result] built so far. *)
Fixpoint RemoveDuplicates_loop (slice : list string) (seen : gmap string bool)
    (result : list string) : list string :=
  match slice with
  | [] => result
  | item :: rest =>
      if negb (default false (seen !! item))
      then RemoveDuplicates_loop rest (<[item := true]> seen) (result ++ [item])
      else RemoveDuplicates_loop rest seen result
  end.

Definition RemoveDuplicates (slice : list string) : list string :=
  RemoveDuplicates_loop slice ∅ [].

(** The loop of [ChunkSlice], from index [i] with the chunks built so
    far.  The slice expression [slice[i:end]] panics when [end] is below
    [i]; with a chunk size of 0 the index never advances and the loop
    does not end.  The loop is run for at most [fuel] iterations: [None]
    when they do not suffice, [Some (Panics _)] for the panic. *)
Fixpoint ChunkSlice_loop (fuel : nat) (slice : list string) (chunkSize i : Z)
    (chunks : list (list string)) : option (completion (list (list string))) :=
  match fuel with
  | O => None
  | S fuel =>
      if bool_decide (i < len slice) then
        let end_ := i + chunkSize in
        let end_ := if bool_decide (end_ > len slice) then len slice else end_ in
        if bool_decide (i < 0 ∨ end_ < i) then Some (Panics chunks)
        else ChunkSlice_loop fuel slice chunkSize (i + chunkSize)
               (chunks ++ [take (Z.to_nat (end_ - i)) (drop (Z.to_nat i) slice)])
      else Some (Returns chunks)
  end.

Definition ChunkSlice (fuel : nat) (slice : list string) (chunkSize : Z)
    : option (completion (list (list string))) :=
  ChunkSlice_loop fuel slice chunkSize 0 [].

(** The spam command *)
Module SpamCommand.

Record SpamOptions := mkSpamOptions {
  Amount : Z;
  Messages : list string;
  UseMax : bool;
  UseDelete : bool;
  UseRandom : bool;
  Delay : Duration;
  ChannelID : string
}.

(** The two maps of [SpamCommand]; of a cancel function only its
    presence under the channel matters here. *)
Record t := mk {
  isSpamming : gmap string bool;
  cancelFuncs : gset string
}.

(** What [ChannelMessageSend] answers: a message, or an error whose
    text holds "429" or does not. *)
Inductive sent := SendOk | SendRateLimited | SendFailed.

(** What one iteration of the loop of [executeSpam] meets: whether the
    context is cancelled at its head, the value of [rand.Intn], the
    answer to the send, and whether the context is cancelled during the
    wait that follows (after a rate limit, or for the delay). *)
Record turn := mkTurn {
  cancelledAtHead : bool;
  randIntn : nat;
  sendResult : sent;
  cancelledInWait : bool
}.

(** How [executeSpam] ends: it returns (cancelled or completed), or it
    panics on indexing [opts.Messages]. *)
Inductive ending := SpamCancelled | SpamCompleted | SpamPanicked.

(** The loop of [executeSpam] from index [i], with the calls of
    [ChannelMessageSend] made so far, as pairs of channel and content;
    [None] when the turns given do not reach its end. *)
Fixpoint executeSpam_loop (turns : list turn) (opts : SpamOptions) (i : Z)
    (sends : list (string * string)) : option (ending * list (string * string)) :=
  if bool_decide (i < Amount opts) then
    match turns with
    | [] => None
    | t :: rest =>
        if cancelledAtHead t then Some (SpamCancelled, sends)
        else
          let content :=
            if UseRandom opts && bool_decide (len (Messages opts) > 1)
            then Messages opts !! randIntn t
            else
              if decide (len (Messages opts) = 0) then None
              else Messages opts !! Z.to_nat (i mod len (Messages opts)) in
          match content with
          | None => Some (SpamPanicked, sends)
          | Some content =>
              let sends := sends ++ [(ChannelID opts, content)] in
              match sendResult t with
              | SendRateLimited =>
                  if cancelledInWait t then Some (SpamCancelled, sends)
                  else executeSpam_loop rest opts (i + 1) sends
              | SendFailed => executeSpam_loop rest opts (i + 1) sends
              | SendOk =>
                  if bool_decide (Delay opts > 0 ∧ i < Amount opts - 1)
                       && cancelledInWait t
                  then Some (SpamCancelled, sends)
                  else executeSpam_loop rest opts (i + 1) sends
              end
          end
    end
  else Some (SpamCompleted, sends).

(** [executeSpam]: the loop, then the deferred removal of the channel
    from both maps, which also runs when the loop panics. *)
Definition executeSpam (turns : list turn) (opts : SpamOptions) (c : t)
    : option (ending * list (string * string) * t) :=
  match executeSpam_loop turns opts 0 [] with
  | Some (e, sends) =>
      Some (e, sends,
            mk (delete (ChannelID opts) (isSpamming c))
               (cancelFuncs c ∖ {[ChannelID opts]}))
  | None => None
  end.

End SpamCommand.

End commands.

(** ** The restart manager *)

Module RestartManager.

(** The fields of [RestartManager] the monitor reads and writes, and the
    number of times it has called [bot.Start]. *)
Record t := mk {
  restartCount : Z;
  maxRestarts : Z;
  isRunning : bool;
  started : Z
}.

(** [NewRestartManager], and [StartWithRestart] on a manager that is
    not running: the flag is set and the monitor is started. *)
Definition NewRestartManager (maxRestarts : Z) : t := mk 0 maxRestarts false 0.

Definition StartWithRestart (rm : t) : t * bool :=
  if isRunning rm then (rm, false)
  else (mk (restartCount rm) (maxRestarts rm) true (started rm), true).

(** What the monitor meets in one pass of its loop: whether the context
    is cancelled at the head of the loop, whether the wait for the start
    ends with the cancellation rather than with the result, and the
    result of [bot.Start] ([Some] for an error or a recovered panic). *)
Record pass := mkPass {
  cancelledAtHead : bool;
  cancelledDuringStart : bool;
  startResult : option string
}.

(** How the monitor ends: it returns because the context is cancelled,
    it returns because it gives up, or, after a start that succeeded, it
    waits for the cancellation and does nothing else. *)
Inductive outcome := Cancelled | GaveUp | Serving.

(** [monitorAndRestart], pass by pass; [None] when the passes given do
    not reach its end.  A monitor that returns runs the deferred reset
    of [isRunning]. *)
Fixpoint monitorAndRestart (passes : list pass) (rm : t) : option (outcome * t) :=
  let returns (o : outcome) (rm : t) :=
    Some (o, mk (restartCount rm) (maxRestarts rm) false (started rm)) in
  if bool_decide (restartCount rm < maxRestarts rm) then
    match passes with
    | [] => None
    | p :: rest =>
        if cancelledAtHead p then returns Cancelled rm
        else
          let rm := mk (restartCount rm) (maxRestarts rm) (isRunning rm) (started rm + 1) in
          if cancelledDuringStart p then returns Cancelled rm
          else
            match startResult p with
            | Some err =>
                let rm := mk (restartCount rm + 1) (maxRestarts rm) (isRunning rm)
                            (started rm) in
                if bool_decide (restartCount rm < maxRestarts rm)
                then monitorAndRestart rest rm
                else returns GaveUp rm
            | None =>
                Some (Serving, mk 0 (maxRestarts rm) (isRunning rm) (started rm))
            end
    end
  else returns GaveUp rm.

End RestartManager.

(** ** Invariants of a run and shapes of answers *)

(** One for a processor that has not returned, zero for one that has. *)
Definition running (k : Database.kind) (d : Database.t) : Z :=
  if Database.returned (Database.proc k d) then 0 else 1.

(** What holds of every state a run of the pipeline reaches from [New]:
    the fixed settings, the bounds on channels and batches, and how the
    wait group, the context and the channels follow the processors and
    [Close]. *)
Record wf (d : Database.t) : Prop := mkWf {
  wf_cap_message : channel.cap (Database.messageBatch d) = 2000%nat;
  wf_cap_deleted : channel.cap (Database.deletedBatch d) = 1000%nat;
  wf_cap_edited : channel.cap (Database.editedBatch d) = 1000%nat;
  wf_cap_mention : channel.cap (Database.mentionBatch d) = 500%nat;
  wf_occupancy : ∀ k, (Database.occupancy k d ≤ Database.capacity k d)%nat;
  wf_batchSize : Database.batchSize d = 1000;
  wf_flushInterval : Database.flushInterval d = 5 * Second;
  wf_batch : ∀ k, len (Database.batch (Database.proc k d)) < 1000;
  wf_wg : Database.wg d
          = running Database.KMessage d + running Database.KDeleted d
            + running Database.KEdited d + running Database.KMention d;
  wf_ctx : Database.ctx_done d = true ↔ Database.closing d ≠ Database.CloseNotCalled;
  wf_returned : ∀ k, Database.returned (Database.proc k d) = true →
                     Database.ctx_done d = true;
  wf_closed : ∀ k, Database.chan_closed k d = true →
                   ∃ r, Database.closing d = Database.CloseReturned r;
  wf_finished : ∀ r, Database.closing d = Database.CloseReturned r →
                     Database.wg d = 0
                     ∧ ∀ k, Database.chan_closed k d = true;
  wf_connected : mongo.connected (Database.client d) = true ↔
                 ∀ r, Database.closing d ≠ Database.CloseReturned r
}.

(** A store without failures: reachable, and accepting every document. *)
Definition no_failures (s : mongo.Server) : Prop :=
  mongo.reachable s = true ∧ ∀ name docs x, mongo.verdict s name docs x = None.

(** The batch a processor still has to flush: nothing once it returned. *)
Definition pending_batch (k : Database.kind) (s : Database.t) : list mongo.document :=
  if Database.returned (Database.proc k s) then []
  else Database.batch (Database.proc k s).


(** Rows in descending order of their time. *)
Definition newest_first {A} (time : A → Time) (rows : list A) : Prop :=
  StronglySorted (λ a b, time b ≤ time a) rows.

(** What a reader may answer for a limit: at most [limit] rows, newest
    first, each of them decoded from a document that is in the named
    collection of the store. *)
Definition answer_ok {A} (time : A → Time) (decode : mongo.document → option A)
    (name : string) (limit : Z) (store : mongo.Server) (rows : list A) : Prop :=
  len rows ≤ limit
  ∧ newest_first time rows
  ∧ ∀ a, a ∈ rows → ∃ x, x ∈ mongo.collection name store ∧ decode x = Some a.

(** The answer of a reader of the batched database, which may panic in
    [make] when the limit is beyond the largest slice capacity. *)
Definition rows_ok {A} (time : A → Time) (decode : mongo.document → option A)
    (name : string) (limit : Z) (store : mongo.Server) (r : Database.rows A) : Prop :=
  match r with
  | Database.Rows rows _ => answer_ok time decode name limit store rows
  | Database.RowsPanic => Database.maxSliceCap < limit
  end.

(** The documents of a collection in the store behind the bot. *)
Definition stored (name : string) (b : SimpleBot.t) : list mongo.document :=
  mongo.collection name (mongo.server (SimpleDatabase.client (SimpleBot.database b))).

(** ** Sample states, events and traces *)

(** A server with empty collections that accepts every document. *)
Definition accepting_server : mongo.Server :=
  mongo.mkServer ∅ true (λ _ _ _, None).

Definition cfg0 : config.Database :=
  config.mkDatabase "mongodb://localhost:27017" "discord_bot".

(** The pipeline right after [New] on the accepting server. *)
Definition db0 : Database.t := Database.started accepting_server.

Definition message0 : MessageData.t :=
  MessageData.mk "m1" "m1" "7" "name" "hello" 100 "c1" None None false [] "42" false
    None None None [].

Definition message_bad : MessageData.t :=
  MessageData.mk "m2" "" "7" "name" "hello" 100 "c1" None None false [] "42" false
    None None None [].

Definition mention0 : MentionData.t :=
  MentionData.mk "m1" "7" "name" "hello" 100 "c1" None [] 0 false "42" None None None.

Definition deleted_at (t : Time) : DeletedMessageData.t :=
  DeletedMessageData.mk "m1" "7" None "bye" t "c1" None None false [] None None None [].

Definition simple_deleted_at (t : Time) : SimpleDeletedMessageData.t :=
  SimpleDeletedMessageData.mk "m1" "7" "" "bye" t "c1" "" "" false [] "" "".

Definition message_by (id : string) (bot : bool) : discordgo.Message :=
  discordgo.mkMessage "m1" "c1" "hello" (Some (discordgo.mkUser id "name" bot)) [] [] None.

(** A bot with an empty store whose own account is "42". *)
Definition bot0 : SimpleBot.t :=
  SimpleBot.mk (SimpleDatabase.mk (mongo.mkClient true accepting_server) [])
    None "42" 0 ∅.

(** The state a trace leads to from [db0] ([db0] itself when the trace
    cannot run). *)
Definition db_after (tr : list Database.action) : Database.t :=
  default db0 (Database.run tr db0).

(** The pipeline with 500 mentions waiting in the mention channel. *)
Definition full_db : Database.t :=
  db_after (replicate 500 (Database.AStore (mongo.DocMention mention0))).




(** A store that holds three deleted messages, and the two databases on
    it. *)
Definition query_server : mongo.Server :=
  mongo.mkServer
    {["deleted_messages" := [mongo.DocDeleted (deleted_at 10);
                             mongo.DocDeleted (deleted_at 30);
                             mongo.DocDeleted (deleted_at 20)]]}
    true (λ _ _ _, None).

Definition query_db : Database.t :=
  Database.set_client (mongo.mkClient true query_server) db0.

Definition query_simple : SimpleDatabase.t :=
  SimpleDatabase.mk (mongo.mkClient true query_server) [].

(** One message dequeued into the batch of its processor, and the ticker
    of that processor fired. *)
Definition tr_ticked : list Database.action :=
  [Database.AStore (mongo.DocMessage message0);
   Database.AIter Database.KMessage true;
   Database.ATick Database.KMessage].

(** [Close] has been called with one message in the batch of its
    processor, and three intervals of that processor's ticker have gone
    by before any processor ran again. *)
Definition tr_closing : list Database.action :=
  [Database.AStore (mongo.DocMessage message0);
   Database.AIter Database.KMessage true;
   Database.ACloseBegin;
   Database.ATick Database.KMessage;
   Database.ATick Database.KMessage;
   Database.ATick Database.KMessage].

(** The four processors each run an iteration in which they take the
    shutdown branch. *)
Definition tr_returns : list Database.action :=
  [Database.AIter Database.KMessage true;
   Database.AIter Database.KDeleted true;
   Database.AIter Database.KEdited true;
   Database.AIter Database.KMention true].

(** The four processors return, and [Close] finishes. *)
Definition tr_drain : list Database.action := tr_returns ++ [Database.ACloseEnd].


(** The date condition [buildQuery] puts under [created_at]. *)
Definition time_cond (filter : Database.QueryFilter) : option mongo.cond :=
  match Database.TimeRange_ filter with
  | Some r =>
      match Database.After r, Database.Before r with
      | None, None => None
      | a, b => Some (mongo.Range a b)
      end
  | None => None
  end.

(** What a document has to satisfy for a [QueryFilter], field by field. *)
Definition filter_accepts (filter : Database.QueryFilter) (doc : mongo.document) : Prop :=
  match Database.ExcludeUser filter with
  | Some v => mongo.field_string "user_id" doc ≠ Some v
  | None =>
      match Database.UserID filter with
      | Some v => mongo.field_string "user_id" doc = Some v
      | None => True
      end
  end
  ∧ (∀ v, Database.ChannelID filter = Some v →
          mongo.field_string "channel_id" doc = Some v)
  ∧ (∀ v, Database.GuildID filter = Some v → mongo.field_string "guild_id" doc = Some v)
  ∧ (∀ v, Database.TargetID filter = Some v →
          mongo.field_string "target_id" doc = Some v)
  ∧ (∀ c, time_cond filter = Some c → mongo.holds doc "created_at" c = true).

(** The entries of a [bson.M] filter that the wrappers for deleted and
    edited messages read: a string or a [$ne] string under [user_id], a
    string under [channel_id]. *)
Definition read_user_channel (kc : string * mongo.cond) : Prop :=
  match kc.2 with
  | mongo.Eq _ => kc.1 = "user_id" ∨ kc.1 = "channel_id"
  | mongo.Ne _ => kc.1 = "user_id"
  | mongo.Range _ _ => False
  end.

(** The entry the wrapper for mentions reads: a string under
    [target_id]. *)
Definition read_target (kc : string * mongo.cond) : Prop :=
  match kc.2 with
  | mongo.Eq _ => kc.1 = "target_id"
  | _ => False
  end.

#[global] Instance read_user_channel_dec kc : Decision (read_user_channel kc).
Proof. unfold read_user_channel. destruct kc.2; apply _. Defined.

#[global] Instance read_target_dec kc : Decision (read_target kc).
Proof. unfold read_target. destruct kc.2; apply _. Defined.


(** Every record of a kind that the pipeline holds or has persisted, in
    order: the collection, then the batch still to flush, then the
    queue. *)
Definition history (k : Database.kind) (d : Database.t) : list mongo.document :=
  mongo.collection (Database.collectionName k) (mongo.server (Database.client d))
    ++ pending_batch k d ++ Database.queued k d.

(** The record an action adds to the queue of a kind: the record of a
    [Store*] call of that kind that finds room in the queue. *)
Definition accepted (k : Database.kind) (a : Database.action) (d : Database.t)
    : list mongo.document :=
  match a with
  | Database.AStore x =>
      if decide (Database.kind_of x = k)
      then if bool_decide (Database.occupancy k d < Database.capacity k d)%nat
           then [x] else []
      else []
  | _ => []
  end.

(** The records of a kind that a trace adds to the queue, in order. *)
Fixpoint enqueued (k : Database.kind) (tr : list Database.action) (d : Database.t)
    : list mongo.document :=
  match tr with
  | [] => []
  | a :: rest =>
      match Database.step a d with
      | Some d' => accepted k a d ++ enqueued k rest d'
      | None => []
      end
  end.

(** Two messages and a deleted message are stored; the first message is
    dequeued, the ticker fires and the batch is flushed. *)
Definition tr_mixed : list Database.action :=
  [Database.AStore (mongo.DocMessage message0);
   Database.AStore (mongo.DocDeleted (deleted_at 10));
   Database.AIter Database.KMessage true;
   Database.ATick Database.KMessage;
   Database.AIter Database.KMessage true;
   Database.AStore (mongo.DocMessage message_bad)].

(** The state after [tr_ticked], with the server gone. *)
Definition unreachable_db : Database.t :=
  Database.set_client
    (mongo.mkClient true (mongo.mkServer ∅ false (λ _ _ _, None)))
    (db_after tr_ticked).

(** The processors that have not returned. *)
Definition live (d : Database.t) : list Database.kind :=
  filter (λ k, Database.returned (Database.proc k d) = false)
    [Database.KMessage; Database.KDeleted; Database.KEdited; Database.KMention].

(** What every channel description of the bot satisfies: the type is one
    of the three labels, the group flag goes with the group label, and
    only a text channel has a guild. *)
Definition info_ok (info : SimpleBot.SimpleChannelInfo) : Prop :=
  (SimpleBot.Type_ info = "text" ∨ SimpleBot.Type_ info = "DMs"
   ∨ SimpleBot.Type_ info = "group")
  ∧ (SimpleBot.IsGroup info = true ↔ SimpleBot.Type_ info = "group")
  ∧ (SimpleBot.GuildID info ≠ "" → SimpleBot.Type_ info = "text")
  ∧ (SimpleBot.GuildName info ≠ "" → SimpleBot.GuildID info ≠ "").

Definition cache_ok (b : SimpleBot.t) : Prop :=
  map_Forall (λ _ info, info_ok info) (SimpleBot.channelCache b).

(** A session that knows a guild text channel "c1" and a group DM "c2". *)
Definition session1 : discordgo.Session :=
  discordgo.mkSession
    (λ channelID,
       if decide (channelID = "c1")
       then Some (discordgo.mkChannel "general" 0 "123456789012")
       else if decide (channelID = "c2")
       then Some (discordgo.mkChannel "" 3 "")
       else None)
    (λ _ _, None).

Definition bot1 : SimpleBot.t :=
  SimpleBot.mk (SimpleDatabase.mk (mongo.mkClient true accepting_server) [])
    (Some session1) "42" 0 ∅.

(** A message in the group DM "c2" that mentions the account "42". *)
Definition message_mentioning (id : string) : discordgo.Message :=
  discordgo.mkMessage "m9" "c2" "hi <@42>" (Some (discordgo.mkUser id "name" false)) []
    [discordgo.mkUser "42" "me" false] None.

(** The message record the bot builds for a message of an author. *)
Definition message_of (m : discordgo.Message) (author : discordgo.User) (b : SimpleBot.t)
    (rec : MessageData.t) : Prop :=
  MessageData.ID rec = discordgo.MsgID m
  ∧ MessageData.MessageID rec = discordgo.MsgID m
  ∧ MessageData.UserID rec = discordgo.ID author
  ∧ MessageData.Content rec = discordgo.Content m
  ∧ MessageData.ChannelID rec = discordgo.ChannelID m
  ∧ MessageData.InstanceID rec = SimpleBot.userID b
  ∧ MessageData.IsSelf rec = bool_decide (discordgo.ID author = SimpleBot.userID b).

(** The mention record the bot builds for a message of an author: its
    target is the own account, and its channel type is the Discord code
    of a DM (1), of a group DM (3), or 0. *)
Definition mention_of (m : discordgo.Message) (author : discordgo.User) (b : SimpleBot.t)
    (rec : MentionData.t) : Prop :=
  MentionData.MessageID rec = discordgo.MsgID m
  ∧ MentionData.AuthorID rec = discordgo.ID author
  ∧ MentionData.Content rec = discordgo.Content m
  ∧ MentionData.ChannelID rec = discordgo.ChannelID m
  ∧ MentionData.TargetID rec = SimpleBot.userID b
  ∧ (MentionData.ChannelType rec = 0 ∨ MentionData.ChannelType rec = 1
     ∨ MentionData.ChannelType rec = 3)
  ∧ (cache_ok b → (MentionData.IsGroup rec = true ↔ MentionData.ChannelType rec = 3)).

(** The bytes [CleanContent] removes: backslash, backquote, bar, star. *)
Definition markup : list ascii := bytes commands.backslash ++ bytes "`|*".

(** The byte of a line feed. *)
Definition newline : ascii := "010"%char.

(** A content with the quote mark after every line feed. *)
Definition quoted (content : list ascii) : list ascii :=
  concat ((λ c, if decide (c = newline) then c :: bytes "> " else [c]) <$> content).

(** A spam of three messages that rotates between two contents, and
    turns in which every send succeeds and nothing is cancelled. *)
Definition spam_opts : commands.SpamCommand.SpamOptions :=
  commands.SpamCommand.mkSpamOptions 3 ["a"; "b"] false false false 0 "c1".

Definition calm_turns : list commands.SpamCommand.turn :=
  replicate 3 (commands.SpamCommand.mkTurn false 0 commands.SpamCommand.SendOk false).

(** * Properties *)

(** ** The event handlers of the bot *)

Lemma getChannelInfo_store channelID b name :
  stored name (SimpleBot.getChannelInfo channelID b).2 = stored name b.
Proof.
  unfold SimpleBot.getChannelInfo.
  destruct (SimpleBot.channelCache b !! channelID); [done|].
  unfold SimpleBot.fill_channelInfo.
  destruct (SimpleBot.session b) as [s|]; [|done].
  destruct (discordgo.Channel_ s channelID) as [ch|]; [|done].
  repeat case_decide; repeat case_bool_decide; done.
Qed.

Lemma getChannelInfo_userID channelID b :
  SimpleBot.userID (SimpleBot.getChannelInfo channelID b).2 = SimpleBot.userID b.
Proof.
  unfold SimpleBot.getChannelInfo.
  destruct (SimpleBot.channelCache b !! channelID); [done|].
  unfold SimpleBot.fill_channelInfo.
  destruct (SimpleBot.session b) as [s|]; [|done].
  destruct (discordgo.Channel_ s channelID) as [ch|]; [|done].
  repeat case_decide; repeat case_bool_decide; done.
Qed.

Lemma getChannelInfo_client channelID b :
  SimpleDatabase.client (SimpleBot.database (SimpleBot.getChannelInfo channelID b).2)
  = SimpleDatabase.client (SimpleBot.database b).
Proof.
  unfold SimpleBot.getChannelInfo.
  destruct (SimpleBot.channelCache b !! channelID); [done|].
  unfold SimpleBot.fill_channelInfo.
  destruct (SimpleBot.session b) as [s|]; [|done].
  destruct (discordgo.Channel_ s channelID) as [ch|]; [|done].
  repeat case_decide; repeat case_bool_decide; done.
Qed.

(** C10.  An event (new message, deletion, edit) whose author is a bot
    account is discarded before anything is built or written: each of
    the three handlers returns with the bot, and so the store, exactly
    as it was. *)
Theorem bot_author_discarded (m : discordgo.Message) (author : discordgo.User)
    (before : option discordgo.Message) (now now' : Time) (b : SimpleBot.t) :
  discordgo.Author m = Some author →
  discordgo.Bot author = true →
  SimpleBot.processMessage m now now' b = Returns b
  ∧ SimpleBot.processDeletedMessage (Some m) now b = b
  ∧ SimpleBot.processEditedMessage before (Some m) now b = b.
Proof.
  intros Ha Hb. unfold SimpleBot.processMessage, SimpleBot.processDeletedMessage,
    SimpleBot.processEditedMessage.
  rewrite Ha, Hb. destruct before; done.
Qed.

Lemma bot_author_discarded_witness :
  SimpleBot.processMessage (message_by "7" true) 100 101 bot0 = Returns bot0
  ∧ SimpleBot.processDeletedMessage (Some (message_by "7" true)) 100 bot0 = bot0
  ∧ SimpleBot.processEditedMessage (Some (message_by "7" false))
      (Some (message_by "7" true)) 100 bot0 = bot0.
Proof.
  apply (bot_author_discarded (message_by "7" true) (discordgo.mkUser "7" "name" true));
    reflexivity.
Defined.

Lemma collection_with_collection name docs c :
  mongo.collection name (mongo.server (mongo.with_collection name docs c)) = docs.
Proof. unfold mongo.collection, mongo.with_collection. simpl. by rewrite lookup_insert_eq. Qed.

Lemma collection_with_collection_ne name name' docs c :
  name ≠ name' →
  mongo.collection name' (mongo.server (mongo.with_collection name docs c))
  = mongo.collection name' (mongo.server c).
Proof.
  intros Hne. unfold mongo.collection, mongo.with_collection. simpl.
  by rewrite lookup_insert_ne.
Qed.

(** C9, as the code has it.  A deletion whose author is the own account
    is discarded: the handler returns with the bot and the store as they
    were, and no DeletedMessage record is written.  A deletion by another
    account that is not a bot is written, when the store accepts it, as
    one record that carries the author id together with the content
    snapshot, the channel id and the deletion time. *)
Theorem own_deletion_discarded (m : discordgo.Message) (author : discordgo.User)
    (now : Time) (b : SimpleBot.t) :
  discordgo.Author m = Some author →
  (discordgo.ID author = SimpleBot.userID b →
   SimpleBot.processDeletedMessage (Some m) now b = b)
  ∧ (discordgo.Bot author = false →
     SimpleBot.userID b ≠ "" →
     discordgo.ID author ≠ SimpleBot.userID b →
     mongo.connected (SimpleDatabase.client (SimpleBot.database b)) = true →
     mongo.reachable (mongo.server (SimpleDatabase.client (SimpleBot.database b))) = true →
     (∀ docs x, mongo.verdict (mongo.server (SimpleDatabase.client (SimpleBot.database b)))
                  "deleted_messages" docs x = None) →
     ∃ rec,
       stored "deleted_messages" (SimpleBot.processDeletedMessage (Some m) now b)
       = stored "deleted_messages" b ++ [mongo.DocDeleted rec]
       ∧ DeletedMessageData.UserID rec = discordgo.ID author
       ∧ DeletedMessageData.MessageID rec = discordgo.MsgID m
       ∧ DeletedMessageData.Content rec = discordgo.Content m
       ∧ DeletedMessageData.ChannelID rec = discordgo.ChannelID m
       ∧ DeletedMessageData.DeletedAt rec = now).
Proof.
  intros Ha. split.
  - intros Hown. unfold SimpleBot.processDeletedMessage. rewrite Ha.
    destruct (discordgo.Bot author); [done|].
    case_decide as Hd; [done|]. exfalso. apply Hd. by right.
  - intros Hbot Hid Hother Hconn Hreach Hacc.
    unfold SimpleBot.processDeletedMessage. rewrite Ha, Hbot.
    case_decide as Hd; [by destruct Hd|].
    unfold SimpleDatabase.StoreDeletedMessage, SimpleDatabase.store, mongo.InsertOne.
    rewrite (getChannelInfo_client (discordgo.ChannelID m) b).
    rewrite Hconn, Hreach, Hacc. simpl.
    eexists. split.
    + unfold stored. simpl. unfold mongo.collection at 1. simpl.
      rewrite lookup_insert_eq. reflexivity.
    + repeat split; reflexivity.
Qed.

Lemma own_deletion_discarded_witness :
  SimpleBot.processDeletedMessage (Some (message_by "42" false)) 100 bot0 = bot0
  ∧ ∃ rec,
      stored "deleted_messages"
        (SimpleBot.processDeletedMessage (Some (message_by "7" false)) 100 bot0)
      = stored "deleted_messages" bot0 ++ [mongo.DocDeleted rec]
      ∧ DeletedMessageData.UserID rec = "7"
      ∧ DeletedMessageData.MessageID rec = "m1"
      ∧ DeletedMessageData.Content rec = "hello"
      ∧ DeletedMessageData.ChannelID rec = "c1"
      ∧ DeletedMessageData.DeletedAt rec = 100.
Proof.
  split.
  - apply (own_deletion_discarded (message_by "42" false)
             (discordgo.mkUser "42" "name" false) 100 bot0); reflexivity.
  - apply (own_deletion_discarded (message_by "7" false)
             (discordgo.mkUser "7" "name" false) 100 bot0); try reflexivity; done.
Defined.

(** C9, as the specification words it, fails: after the deletion of a
    message of the own account no record with the content snapshot, the
    channel id and the deletion time is in the collection. *)
Lemma own_deletion_record_cex :
  ¬ ∃ rec,
      mongo.DocDeleted rec
        ∈ stored "deleted_messages"
            (SimpleBot.processDeletedMessage (Some (message_by "42" false)) 100 bot0)
      ∧ DeletedMessageData.Content rec = "hello"
      ∧ DeletedMessageData.ChannelID rec = "c1"
      ∧ DeletedMessageData.DeletedAt rec = 100.
Proof.
  intros (rec & Hin & _).
  replace (SimpleBot.processDeletedMessage (Some (message_by "42" false)) 100 bot0)
    with bot0 in Hin by reflexivity.
  unfold stored, mongo.collection in Hin. simpl in Hin.
  rewrite lookup_empty in Hin. simpl in Hin. by apply elem_of_nil in Hin.
Qed.

(** ** The batched database: frame facts *)

Lemma flushBatch_frame name batch d :
  let d' := Database.flushBatch name batch d in
  Database.messageBatch d' = Database.messageBatch d
  ∧ Database.deletedBatch d' = Database.deletedBatch d
  ∧ Database.editedBatch d' = Database.editedBatch d
  ∧ Database.mentionBatch d' = Database.mentionBatch d
  ∧ Database.batchSize d' = Database.batchSize d
  ∧ Database.flushInterval d' = Database.flushInterval d
  ∧ Database.ctx_done d' = Database.ctx_done d
  ∧ Database.wg d' = Database.wg d
  ∧ (∀ k, Database.proc k d' = Database.proc k d)
  ∧ Database.closing d' = Database.closing d.
Proof.
  unfold Database.flushBatch. destruct batch as [|x batch].
  { repeat split; done. }
  generalize (mongo.InsertMany (Database.getCollection name d) (x :: batch)
                (Database.client d)).
  intros [c [e|]]; simpl;
    [destruct e; simpl; try case_decide|]; repeat split; try done; by intros [].
Qed.

Lemma InsertMany_connected name batch c :
  mongo.connected (mongo.InsertMany name batch c).1 = mongo.connected c.
Proof.
  unfold mongo.InsertMany. destruct batch; [done|].
  destruct (mongo.connected c) eqn:Hc; simpl; [|by rewrite Hc].
  destruct (mongo.reachable (mongo.server c)); simpl; done.
Qed.

Lemma flushBatch_connected name batch d :
  mongo.connected (Database.client (Database.flushBatch name batch d))
  = mongo.connected (Database.client d).
Proof.
  unfold Database.flushBatch. destruct batch as [|x batch]; [done|].
  pose proof (InsertMany_connected (Database.getCollection name d) (x :: batch)
                (Database.client d)) as H.
  revert H.
  generalize (mongo.InsertMany (Database.getCollection name d) (x :: batch)
                (Database.client d)).
  intros [c [e|]] H; simpl in *;
    [destruct e; simpl; try case_decide|]; done.
Qed.

Lemma flushBatch_shape name batch d :
  ∃ c l,
    Database.flushBatch name batch d
    = Database.mk c (Database.messageBatch d) (Database.deletedBatch d)
        (Database.editedBatch d) (Database.mentionBatch d) (Database.batchSize d)
        (Database.flushInterval d) (Database.ctx_done d) (Database.wg d)
        (Database.procMessage d) (Database.procDeleted d) (Database.procEdited d)
        (Database.procMention d) (Database.closing d) l
    ∧ mongo.connected c = mongo.connected (Database.client d).
Proof.
  pose proof (flushBatch_connected name batch d) as Hc.
  pose proof (flushBatch_frame name batch d) as H. cbv zeta in H.
  destruct H as (H1 & H2 & H3 & H4 & H5 & H6 & H7 & H8 & H9 & H10).
  pose proof (H9 Database.KMessage) as P1. pose proof (H9 Database.KDeleted) as P2.
  pose proof (H9 Database.KEdited) as P3. pose proof (H9 Database.KMention) as P4.
  simpl in P1, P2, P3, P4.
  destruct (Database.flushBatch name batch d) as [c ? ? ? ? ? ? ? ? ? ? ? ? ? l].
  simpl in *. subst. by exists c, l.
Qed.

Ltac inst4 H :=
  pose proof (H Database.KMessage); pose proof (H Database.KDeleted);
  pose proof (H Database.KEdited); pose proof (H Database.KMention).

Ltac use_wf H :=
  let Hocc := fresh "Hocc" in
  let Hbatch := fresh "Hbatch" in
  let Hret := fresh "Hret" in
  let Hcl := fresh "Hcl" in
  let Hfin := fresh "Hfin" in
  destruct H as [? ? ? ? Hocc ? ? Hbatch ? ? Hret Hcl Hfin ?];
  inst4 Hocc; inst4 Hbatch; inst4 Hret; inst4 Hcl; clear Hocc Hbatch Hret Hcl;
  unfold running, Database.occupancy, Database.capacity, Database.chan_closed,
    Database.proc, len in *; simpl in *.

Lemma New_wf cfg srv d : Database.New cfg srv = inl d → wf d.
Proof.
  unfold Database.New. destruct (mongo.reachable srv); simpl; [|done].
  intros [= <-]. constructor; simpl; try done.
  - intros []; simpl; lia.
  - intros []; done.
  - intros []; done.
  - intros []; done.
Qed.

Lemma Store_wf x d d' : wf d → Database.Store x d = Returns d' → wf d'.
Proof.
  intros Hwf Hs.
  destruct x as [m|m|m|m]; simpl in Hs;
    unfold Database.StoreMessage, Database.StoreDeletedMessage,
      Database.StoreEditedMessage, Database.StoreMention, channel.try_send in Hs;
    (destruct (channel.closed _) eqn:Hclosed; [done|]);
    (case_bool_decide as Hlen; injection Hs as <-);
    use_wf Hwf;
    (constructor;
     unfold running, Database.occupancy, Database.capacity, Database.chan_closed,
       Database.proc, len; simpl; try done;
     try (intros []; simpl; rewrite ?length_app; simpl; try done; lia);
     try (intros r Hr; destruct (Hfin r Hr) as [Hw Hall]; inst4 Hall;
          simpl in *; split; [done|]; intros []; congruence)).
Qed.

Ltac wf_unfold :=
  unfold running, Database.occupancy, Database.capacity, Database.chan_closed,
    Database.proc, len in *; simpl in *.

Lemma Tick_wf k d :
  wf d → Database.returned (Database.proc k d) = false →
  wf (Database.set_proc k
        (Database.mkProcessor (Database.batch (Database.proc k d)) true false) d).
Proof.
  intros Hwf Hr. use_wf Hwf.
  destruct k; simpl in *; constructor; wf_unfold; try done;
    try (intros []; simpl; done);
    try (rewrite Hr in *; done).
Qed.

Lemma Iter_wf k pick d :
  wf d → Database.returned (Database.proc k d) = false →
  wf (Database.processBatch_iter (Database.collectionName k) k pick d).1.
Proof.
  intros Hwf Hr. unfold Database.processBatch_iter.
  destruct (Database.select_outer _ _ _) eqn:Hsel.
  - (* ctx.Done() *)
    assert (Database.ctx_done d = true) as Hdone.
    { unfold Database.select_outer in Hsel.
      destruct (Database.ctx_done d); [done|].
      by destruct (Database.ticker (Database.proc k d)). }
    assert (∃ c l, (if bool_decide (len (Database.batch (Database.proc k d)) > 0)
                    then Database.flushBatch (Database.collectionName k)
                           (Database.batch (Database.proc k d)) d else d)
                   = Database.mk c (Database.messageBatch d) (Database.deletedBatch d)
                       (Database.editedBatch d) (Database.mentionBatch d)
                       (Database.batchSize d) (Database.flushInterval d)
                       (Database.ctx_done d) (Database.wg d) (Database.procMessage d)
                       (Database.procDeleted d) (Database.procEdited d)
                       (Database.procMention d) (Database.closing d) l
                   ∧ mongo.connected c = mongo.connected (Database.client d))
      as (c & l & -> & Hc).
    { case_bool_decide; [apply flushBatch_shape|].
      exists (Database.client d), (Database.log d). by destruct d. }
    use_wf Hwf.
    destruct k; simpl in *; rewrite Hr in *; constructor; wf_unfold; try done;
      try (intros []; simpl; done); try lia;
      try (rewrite Hc; done);
      try (intros r Hfr; destruct (Hfin r Hfr) as [Hw _];
           repeat match goal with
                  | |- context [Database.returned ?p] => destruct (Database.returned p)
                  | H : context [Database.returned ?p] |- _ => destruct (Database.returned p)
                  end; lia).
  - (* ticker.C *)
    case_bool_decide.
    + destruct (flushBatch_shape (Database.collectionName k)
                  (Database.batch (Database.proc k d)) d) as (c & l & -> & Hc).
      use_wf Hwf.
      destruct k; simpl in *; rewrite Hr in *; constructor; wf_unfold; try done;
        try (intros []; simpl; done); try lia; try (rewrite Hc; done).
    + use_wf Hwf.
      destruct k; simpl in *; rewrite Hr in *; constructor; wf_unfold; try done;
        try (intros []; simpl; done); try lia.
  - (* default *)
    destruct (Database.receive k d) as [[msg d1]|] eqn:Hrecv; [|done].
    assert (Database.batchSize d1 = Database.batchSize d) as Hbs.
    { destruct k; simpl in Hrecv; unfold channel.recv_or_timeout in Hrecv;
        destruct (channel.buf _); by simplify_eq. }
    case_bool_decide as Hfull.
    + destruct (flushBatch_shape (Database.collectionName k)
                  (Database.batch (Database.proc k d) ++ [msg]) d1) as (c & l & -> & Hc).
      use_wf Hwf.
      destruct k; simpl in *; unfold channel.recv_or_timeout in Hrecv;
        destruct (channel.buf _) eqn:Hbuf; simplify_eq; simpl in *;
        rewrite Hr in *; constructor; wf_unfold; try done;
        try (intros []; simpl; done); try (intros []; simpl; lia); try lia;
        try (rewrite Hc; done).
    + use_wf Hwf.
      destruct k; simpl in *; unfold channel.recv_or_timeout in Hrecv;
        destruct (channel.buf _) eqn:Hbuf; simplify_eq; simpl in *;
        rewrite Hr in *; constructor; wf_unfold; try done;
        try (intros []; simpl; done);
        try (intros []; simpl; rewrite ?length_app; simpl in *;
             rewrite ?length_app in *; simpl in *; lia); try lia.
Qed.

Lemma Close_begin_wf d :
  wf d → Database.closing d = Database.CloseNotCalled → wf (Database.Close_begin d).
Proof.
  intros Hwf Hc. use_wf Hwf. unfold Database.Close_begin.
  constructor; wf_unfold; try done; try (intros []; simpl; done).
  - intros [] Hk; simpl in *;
      match goal with H : _ → ∃ r, _ |- _ => destruct (H Hk) as [r Hr]; congruence end.
  - split; [done|]. intros _. apply wf_connected0. by rewrite Hc.
Qed.

Lemma Disconnect_connected c : mongo.connected (mongo.Disconnect c).1 = false.
Proof. unfold mongo.Disconnect. by destruct (mongo.connected c) eqn:H. Qed.

Lemma Close_end_wf d d' :
  wf d → Database.closing d = Database.CloseWaiting →
  Database.Close_end d = Some (Returns d') → wf d'.
Proof.
  intros Hwf Hc He. unfold Database.Close_end, channel.close in He.
  case_decide as Hw; [|done].
  destruct (channel.closed (Database.messageBatch d)) eqn:E1; [done|].
  destruct (channel.closed (Database.deletedBatch d)) eqn:E2; [done|].
  destruct (channel.closed (Database.editedBatch d)) eqn:E3; [done|].
  destruct (channel.closed (Database.mentionBatch d)) eqn:E4; [done|].
  simplify_eq. use_wf Hwf.
  constructor; wf_unfold; try done; try (intros []; simpl; done).
  - split; [intros _; discriminate|]. intros _. apply wf_ctx0. by rewrite Hc.
  - intros _ _. eauto.
  - intros r _. split; [done|]. by intros [].
  - rewrite Disconnect_connected. split; [done|]. intros Hne. exfalso. by eapply Hne.
Qed.

Lemma step_wf a d d' : wf d → Database.step a d = Some d' → wf d'.
Proof.
  intros Hwf Hs. destruct a as [x|k|k pick| |]; simpl in Hs.
  - destruct (Database.Store x d) eqn:E; [|done]. simplify_eq. by eapply Store_wf.
  - destruct (Database.returned (Database.proc k d)) eqn:E; [done|].
    simplify_eq. by apply Tick_wf.
  - destruct (Database.returned (Database.proc k d)) eqn:E; [done|].
    simplify_eq. by apply Iter_wf.
  - destruct (Database.closing d) eqn:E; try done. simplify_eq. by apply Close_begin_wf.
  - destruct (Database.closing d) eqn:E; try done.
    destruct (Database.Close_end d) as [[d1|d1]|] eqn:E2; try done.
    simplify_eq. by eapply Close_end_wf.
Qed.

Lemma run_invariant (P : Database.t → Prop) :
  (∀ a d d', P d → Database.step a d = Some d' → P d') →
  ∀ tr d d', P d → Database.run tr d = Some d' → P d'.
Proof.
  intros Hstep tr. induction tr as [|a tr IH]; intros d d' HP Hrun; simpl in Hrun.
  - by simplify_eq.
  - destruct (Database.step a d) as [d1|] eqn:E; [|done]. eauto.
Qed.

Lemma run_wf cfg srv d0 tr d :
  Database.New cfg srv = inl d0 → Database.run tr d0 = Some d → wf d.
Proof.
  intros Hnew Hrun. eapply (run_invariant wf); [apply step_wf| |done].
  by eapply New_wf.
Qed.

Lemma run_app tr1 tr2 d :
  Database.run (tr1 ++ tr2) d
  = match Database.run tr1 d with
    | Some d1 => Database.run tr2 d1
    | None => None
    end.
Proof.
  revert d. induction tr1 as [|a tr1 IH]; intros d; simpl; [done|].
  destruct (Database.step a d); [apply IH|done].
Qed.

(** ** The ingestion queues *)


Lemma Store_cases x d :
  let k := Database.kind_of x in
  match Database.Store x d with
  | Panics d' => Database.chan_closed k d = true ∧ d' = d
  | Returns d' =>
      Database.chan_closed k d = false
      ∧ (∀ k', k' ≠ k → Database.queued k' d' = Database.queued k' d)
      ∧ if bool_decide (Database.occupancy k d < Database.capacity k d)%nat
        then Database.queued k d' = Database.queued k d ++ [x]
             ∧ Database.log d' = Database.log d
        else Database.queued k d' = Database.queued k d
             ∧ ∃ w, d' = Database.logf (LogWarn w) d
  end.
Proof.
  destruct x as [m|m|m|m]; simpl;
    unfold Database.StoreMessage, Database.StoreDeletedMessage,
      Database.StoreEditedMessage, Database.StoreMention, channel.try_send;
    (destruct (channel.closed _) eqn:Hclosed; [done|]);
    (case_bool_decide; simpl; (split; [done|]); (split; [by intros []|]));
    rewrite ?fmap_app; simpl; eauto.
Qed.

(** C4.  In every state that a run of enqueues, dequeues, ticks and
    shutdown steps reaches from [New], the four queues have their fixed
    capacities (message 2000, deleted 1000, edited 1000, mention 500) and
    none holds more records than its capacity; an enqueue on a full
    queue is rejected (the record is dropped with a warning, or the call
    panics when [Close] has already closed the queue) and leaves every
    queue as it was. *)
Theorem queue_bounded cfg srv d0 tr d :
  Database.New cfg srv = inl d0 →
  Database.run tr d0 = Some d →
  (Database.capacity Database.KMessage d = 2000
   ∧ Database.capacity Database.KDeleted d = 1000
   ∧ Database.capacity Database.KEdited d = 1000
   ∧ Database.capacity Database.KMention d = 500)%nat
  ∧ (∀ k, Database.occupancy k d ≤ Database.capacity k d)%nat
  ∧ (∀ x, Database.occupancy (Database.kind_of x) d
          = Database.capacity (Database.kind_of x) d →
          (Database.Store x d = Panics d
           ∨ ∃ w, Database.Store x d = Returns (Database.logf (LogWarn w) d))
          ∧ ∀ k, Database.queued k (final (Database.Store x d)) = Database.queued k d).
Proof.
  intros Hnew Hrun. pose proof (run_wf _ _ _ _ _ Hnew Hrun) as Hwf.
  split; [|split].
  - destruct Hwf. by repeat split.
  - by destruct Hwf.
  - intros x Hfull. pose proof (Store_cases x d) as Hc. cbv zeta in Hc.
    destruct (Database.Store x d) as [d'|d'].
    + destruct Hc as (_ & Hother & Hc).
      rewrite bool_decide_eq_false_2 in Hc by lia.
      destruct Hc as (Hq & w & ->). split; [eauto|].
      intros k. simpl. by destruct k.
    + destruct Hc as (_ & ->). split; [by left|done].
Qed.

Lemma queue_bounded_witness :
  (Database.occupancy Database.KMention full_db
   ≤ Database.capacity Database.KMention full_db)%nat
  ∧ Database.queued Database.KMention
      (final (Database.Store (mongo.DocMention mention0) full_db))
    = Database.queued Database.KMention full_db.
Proof.
  destruct (queue_bounded cfg0 accepting_server db0
              (replicate 500 (Database.AStore (mongo.DocMention mention0))) full_db)
    as (_ & Hocc & Hfull); [reflexivity | by vm_compute |].
  split; [apply Hocc|].
  apply (Hfull (mongo.DocMention mention0)). by vm_compute.
Defined.

(** C3, as the code has it.  An enqueue never waits.  While the queue is
    open the call returns: below capacity the record is appended to the
    queue, at capacity the record is dropped and a warning is logged, the
    queue staying as it was.  On a queue that [Close] has closed the call
    panics.  The call hands no value back to its caller. *)
Theorem enqueue_never_blocks (x : mongo.document) (d : Database.t) :
  let k := Database.kind_of x in
  Database.Store_results (Database.Store x d) = NoResult
  ∧ match Database.Store x d with
    | Panics d' => Database.chan_closed k d = true ∧ d' = d
    | Returns d' =>
        Database.chan_closed k d = false
        ∧ if bool_decide (Database.occupancy k d < Database.capacity k d)%nat
          then Database.queued k d' = Database.queued k d ++ [x]
               ∧ Database.log d' = Database.log d
          else Database.queued k d' = Database.queued k d
               ∧ ∃ w, d' = Database.logf (LogWarn w) d
    end.
Proof.
  intros k. split; [done|].
  pose proof (Store_cases x d) as Hc. cbv zeta in Hc. fold k in Hc.
  destruct (Database.Store x d); [|done]. by destruct Hc as (? & _ & ?).
Qed.

(** C3, as the specification words it, fails: with the mention queue at
    capacity the call drops the record, and what it returns is not the
    boolean [false]; it returns nothing, as it does when the record is
    queued. *)
Lemma enqueue_boolean_cex :
  Database.occupancy Database.KMention full_db
  = Database.capacity Database.KMention full_db
  ∧ Database.Store_results (Database.StoreMention mention0 full_db) ≠ ResBool false
  ∧ Database.Store_results (Database.StoreMention mention0 full_db)
    = Database.Store_results (Database.StoreMention mention0 db0).
Proof. split; [by vm_compute|]. split; [discriminate|reflexivity]. Qed.

(** ** The batch processors *)

Lemma flushBatch_client name batch d :
  Database.client (Database.flushBatch name batch d)
  = (mongo.InsertMany (Database.getCollection name d) batch (Database.client d)).1.
Proof.
  unfold Database.flushBatch. destruct batch as [|x batch]; [done|].
  generalize (mongo.InsertMany (Database.getCollection name d) (x :: batch)
                (Database.client d)).
  intros [c [e|]]; simpl; [destruct e; simpl; try case_decide|]; done.
Qed.

Lemma set_proc_client k p d :
  Database.client (Database.set_proc k p d) = Database.client d.
Proof. by destruct k. Qed.

Lemma proc_set_proc k p d : Database.proc k (Database.set_proc k p d) = p.
Proof. by destruct k. Qed.

Lemma proc_set_proc_ne k k' p d :
  k ≠ k' → Database.proc k' (Database.set_proc k p d) = Database.proc k' d.
Proof. by destruct k, k'. Qed.

Lemma receive_frame k d x d1 :
  Database.receive k d = Some (x, d1) →
  Database.client d1 = Database.client d
  ∧ Database.queued k d = x :: Database.queued k d1
  ∧ (∀ k', k' ≠ k → Database.queued k' d1 = Database.queued k' d)
  ∧ (∀ k', Database.proc k' d1 = Database.proc k' d)
  ∧ Database.ctx_done d1 = Database.ctx_done d
  ∧ Database.log d1 = Database.log d
  ∧ Database.kind_of x = k.
Proof.
  destruct k; simpl; unfold channel.recv_or_timeout;
    destruct (channel.buf _) eqn:Hbuf; intros; simplify_eq; simpl;
    rewrite ?Hbuf; repeat split; try done; try (by intros []).
Qed.



(** ** The persister *)



Lemma flushBatch_queued name batch d k :
  Database.queued k (Database.flushBatch name batch d) = Database.queued k d.
Proof.
  destruct (flushBatch_frame name batch d) as (H1 & H2 & H3 & H4 & _).
  destruct k; simpl; congruence.
Qed.




(** ** How a processor waits *)

Lemma idle_iteration k pick d :
  Database.ctx_done d = false →
  Database.ticker (Database.proc k d) = false →
  Database.occupancy k d = 0%nat →
  Database.processBatch_iter (Database.collectionName k) k pick d
  = (d, Database.WakeTimeout (10 * Millisecond)).
Proof.
  intros Hdone Htick Hocc. unfold Database.processBatch_iter.
  rewrite Hdone, Htick. simpl.
  destruct k; simpl in *; unfold channel.recv_or_timeout;
    destruct (channel.buf _); done.
Qed.

Lemma idle_polling k pick d n :
  Database.returned (Database.proc k d) = false →
  Database.ctx_done d = false →
  Database.ticker (Database.proc k d) = false →
  Database.occupancy k d = 0%nat →
  Database.run (replicate n (Database.AIter k pick)) d = Some d.
Proof.
  intros Hret Hdone Htick Hocc. induction n as [|n IH]; [done|].
  simpl. rewrite Hret. by rewrite idle_iteration.
Qed.

(** C7, as the code has it.  A loop iteration first looks at the
    shutdown signal and the ticker without waiting.  When neither is
    ready and the queue is empty, the iteration ends after a fixed wait
    of ten milliseconds with the state as it was, and the loop tries
    again: the processor polls.  In every other state the iteration is
    ended by the shutdown signal, by a tick, or by a record received. *)
Theorem processor_polls k pick d :
  let r := Database.processBatch_iter (Database.collectionName k) k pick d in
  if bool_decide (Database.ctx_done d = false
                  ∧ Database.ticker (Database.proc k d) = false
                  ∧ Database.occupancy k d = 0%nat)
  then r = (d, Database.WakeTimeout (10 * Millisecond))
  else r.2 = Database.WakeDone ∨ r.2 = Database.WakeTicker ∨ r.2 = Database.WakeReceive.
Proof.
  intros r. case_bool_decide as Hidle.
  - destruct Hidle as (H1 & H2 & H3). by apply idle_iteration.
  - subst r. unfold Database.processBatch_iter.
    destruct (Database.ctx_done d) eqn:Hdone, (Database.ticker (Database.proc k d)) eqn:Htick;
      simpl.
    + destruct pick; simpl; try case_bool_decide; simpl; eauto.
    + eauto.
    + case_bool_decide; simpl; eauto.
    + destruct (Database.receive k d) as [[x d1]|] eqn:Hrecv.
      * case_bool_decide; simpl; eauto.
      * exfalso. apply Hidle. repeat split.
        destruct k; simpl in *; unfold channel.recv_or_timeout in Hrecv;
          destruct (channel.buf _); done.
Qed.

(** C7, as the specification words it, fails: right after [New], with
    nothing queued, no tick and no shutdown, an iteration of the message
    processor is ended by the ten-millisecond timer and changes nothing,
    and a hundred such iterations in a row (one second) do the same. *)
Lemma processor_blocking_cex :
  Database.processBatch_iter "user_messages" Database.KMessage true db0
  = (db0, Database.WakeTimeout (10 * Millisecond))
  ∧ Database.run (replicate 100 (Database.AIter Database.KMessage true)) db0 = Some db0.
Proof.
  split.
  - by apply (idle_iteration Database.KMessage true db0).
  - by apply idle_polling.
Qed.

(** ** Shutdown *)

Lemma wg_zero_iff d :
  wf d → Database.wg d = 0 ↔ ∀ k, Database.returned (Database.proc k d) = true.
Proof.
  intros Hwf. rewrite (wf_wg _ Hwf). unfold running. split.
  - intros H k.
    destruct (Database.returned (Database.proc Database.KMessage d)) eqn:E1,
             (Database.returned (Database.proc Database.KDeleted d)) eqn:E2,
             (Database.returned (Database.proc Database.KEdited d)) eqn:E3,
             (Database.returned (Database.proc Database.KMention d)) eqn:E4;
      try lia. by destruct k.
  - intros H. by rewrite !H.
Qed.

Lemma waiting_open d k :
  wf d → Database.closing d = Database.CloseWaiting → Database.chan_closed k d = false.
Proof.
  intros Hwf Hc. destruct (Database.chan_closed k d) eqn:E; [|done].
  destruct (wf_closed _ Hwf k E) as [r Hr]. congruence.
Qed.

Lemma waiting_connected d :
  wf d → Database.closing d = Database.CloseWaiting →
  mongo.connected (Database.client d) = true.
Proof. intros Hwf Hc. apply (wf_connected _ Hwf). intros r. by rewrite Hc. Qed.

Lemma Close_end_result d :
  wf d → Database.closing d = Database.CloseWaiting → Database.wg d = 0 →
  ∃ d', Database.step Database.ACloseEnd d = Some d'
        ∧ Database.closing d' = Database.CloseReturned (ResError None)
        ∧ mongo.connected (Database.client d') = false
        ∧ mongo.server (Database.client d') = mongo.server (Database.client d)
        ∧ (∀ k, Database.chan_closed k d' = true)
        ∧ (∀ k, Database.queued k d' = Database.queued k d)
        ∧ (∀ k, Database.proc k d' = Database.proc k d).
Proof.
  intros Hwf Hc Hw. simpl. rewrite Hc. unfold Database.Close_end, channel.close.
  rewrite decide_True by done.
  pose proof (waiting_open d Database.KMessage Hwf Hc) as E1.
  pose proof (waiting_open d Database.KDeleted Hwf Hc) as E2.
  pose proof (waiting_open d Database.KEdited Hwf Hc) as E3.
  pose proof (waiting_open d Database.KMention Hwf Hc) as E4.
  simpl in E1, E2, E3, E4. rewrite E1, E2, E3, E4.
  pose proof (waiting_connected d Hwf Hc) as Hconn.
  eexists. split; [reflexivity|]. simpl. unfold mongo.Disconnect. rewrite Hconn. simpl.
  repeat split; by intros [].
Qed.

(** C6, as the code has it.  [Close] takes no timeout.  While it waits,
    the store connection is still held, and its wait ends exactly when
    the wait-group counter is zero, which is when all four processors
    have returned: before that it cannot go on, however long it has
    waited.  Once they have returned it closes the four queues, releases
    the store connection and returns the error of the disconnect, which
    is its only result (there is no report by event kind). *)
Theorem shutdown_waits_for_all cfg srv d0 tr d :
  Database.New cfg srv = inl d0 →
  Database.run tr d0 = Some d →
  Database.closing d = Database.CloseWaiting →
  (Database.wg d = 0 ↔ ∀ k, Database.returned (Database.proc k d) = true)
  ∧ mongo.connected (Database.client d) = true
  ∧ (Database.wg d ≠ 0 → Database.step Database.ACloseEnd d = None)
  ∧ (Database.wg d = 0 →
     ∃ d', Database.step Database.ACloseEnd d = Some d'
           ∧ Database.closing d' = Database.CloseReturned (ResError None)
           ∧ mongo.connected (Database.client d') = false
           ∧ ∀ k, Database.chan_closed k d' = true).
Proof.
  intros Hnew Hrun Hc. pose proof (run_wf _ _ _ _ _ Hnew Hrun) as Hwf.
  split; [by apply wg_zero_iff|]. split; [by apply waiting_connected|]. split.
  - intros Hw. simpl. rewrite Hc. unfold Database.Close_end.
    by rewrite decide_False by done.
  - intros Hw. destruct (Close_end_result d Hwf Hc Hw) as (d' & H1 & H2 & H3 & _ & H4 & _).
    eauto.
Qed.

Lemma shutdown_waits_for_all_witness :
  Database.step Database.ACloseEnd (db_after tr_closing) = None
  ∧ mongo.connected (Database.client (db_after tr_closing)) = true.
Proof.
  destruct (shutdown_waits_for_all cfg0 accepting_server db0 tr_closing
              (db_after tr_closing))
    as (_ & Hconn & Hwait & _); [reflexivity | by vm_compute | by vm_compute |].
  split; [|exact Hconn]. apply Hwait. by vm_compute.
Defined.

(** C6, as the specification words it, fails: after [Close] was called,
    three flush intervals (fifteen seconds) go by without any processor
    returning; [Close] is still waiting, cannot go on, and holds the
    store connection.  When the processors have returned and [Close]
    ends, what it returns is the (absent) error of the disconnect. *)
Lemma shutdown_timeout_cex :
  Database.closing (db_after tr_closing) = Database.CloseWaiting
  ∧ Database.returned (Database.proc Database.KMessage (db_after tr_closing)) = false
  ∧ Database.step Database.ACloseEnd (db_after tr_closing) = None
  ∧ mongo.connected (Database.client (db_after tr_closing)) = true
  ∧ Database.closing (db_after (tr_closing ++ tr_drain))
    = Database.CloseReturned (ResError None).
Proof. repeat split; by vm_compute. Qed.

Lemma insert_unordered_accept v i docs batch :
  (∀ docs x, v docs x = None) →
  mongo.insert_unordered v i docs batch = (docs ++ batch, []).
Proof.
  intros Hv. revert i docs. induction batch as [|x batch IH]; intros i docs; simpl.
  - by rewrite app_nil_r.
  - rewrite Hv, IH. by rewrite <- app_assoc.
Qed.

Lemma InsertMany_accept name batch c :
  mongo.connected c = true → no_failures (mongo.server c) → batch ≠ [] →
  mongo.InsertMany name batch c
  = (mongo.with_collection name (mongo.collection name (mongo.server c) ++ batch) c, None).
Proof.
  intros Hc [Hr Hv] Hne. unfold mongo.InsertMany.
  destruct batch as [|x batch]; [done|]. rewrite Hc, Hr. simpl negb. cbv iota.
  rewrite insert_unordered_accept by (intros; apply Hv). done.
Qed.

Lemma collectionName_inj k k' :
  Database.collectionName k = Database.collectionName k' → k = k'.
Proof. by destruct k, k'. Qed.


Lemma running_connected k s :
  wf s → Database.returned (Database.proc k s) = false →
  mongo.connected (Database.client s) = true.
Proof.
  intros Hwf Hr. apply (wf_connected _ Hwf). intros r Hcl.
  destruct (wf_finished _ Hwf r Hcl) as [Hw _].
  pose proof (proj1 (wg_zero_iff _ Hwf) Hw k). congruence.
Qed.

Lemma Store_frame x s s' :
  Database.Store x s = Returns s' →
  Database.client s' = Database.client s
  ∧ (∀ k, Database.proc k s' = Database.proc k s)
  ∧ Database.ctx_done s' = Database.ctx_done s
  ∧ ∀ k, Database.queued k s `prefix_of` Database.queued k s'.
Proof.
  destruct x as [m|m|m|m]; simpl;
    unfold Database.StoreMessage, Database.StoreDeletedMessage,
      Database.StoreEditedMessage, Database.StoreMention, channel.try_send;
    (destruct (channel.closed _); [done|]);
    (case_bool_decide; intros [= <-]; simpl);
    repeat split; try (by intros []);
    intros []; simpl; rewrite ?fmap_app; try done; by apply prefix_app_r.
Qed.




Lemma not_called_running d k :
  wf d → Database.closing d = Database.CloseNotCalled →
  Database.returned (Database.proc k d) = false.
Proof.
  intros Hwf Hc. destruct (Database.returned (Database.proc k d)) eqn:E; [|done].
  pose proof (wf_returned _ Hwf k E) as Hdone.
  by pose proof (proj1 (wf_ctx _ Hwf) Hdone).
Qed.



Lemma matches_empty x : mongo.matches ∅ x = true.
Proof. unfold mongo.matches. by rewrite map_to_list_empty. Qed.










(** ** The readers *)

#[local] Instance key_le_trans : Transitive mongo.key_le.
Proof. intros [x|] [y|] [z|]; simpl; try done; lia. Qed.

#[local] Instance desc_trans f : Transitive (mongo.desc f).
Proof. intros x y z Hxy Hyz. unfold mongo.desc in *. by etrans. Qed.

#[local] Instance desc_total f : Total (mongo.desc f).
Proof.
  intros x y. unfold mongo.desc.
  destruct (mongo.field_time f x), (mongo.field_time f y); simpl; try tauto; lia.
Qed.

Lemma StronglySorted_take {A} (R : relation A) n l :
  StronglySorted R l → StronglySorted R (take n l).
Proof.
  intros H. rewrite <- (take_drop n l) in H. by apply StronglySorted_app_1_l in H.
Qed.

Lemma Find_answer name q f limit bs c docs :
  mongo.Find name q f limit bs c = inl docs →
  0 < limit →
  len docs ≤ limit
  ∧ StronglySorted (mongo.desc f) docs
  ∧ ∀ x, x ∈ docs → x ∈ mongo.collection name (mongo.server c).
Proof.
  unfold mongo.Find, mongo.apply_limit. intros H Hpos.
  destruct (negb (mongo.connected c)); [done|].
  destruct (negb (mongo.reachable (mongo.server c))); [done|].
  destruct (from_option _ _ bs); [done|].
  rewrite decide_False in H by lia. simplify_eq. split; [|split].
  - unfold len. rewrite length_take. lia.
  - apply StronglySorted_take, StronglySorted_merge_sort; apply _.
  - intros x Hx. apply subseteq_take in Hx. rewrite merge_sort_Permutation in Hx.
    by apply list_elem_of_filter in Hx as [_ ?].
Qed.

Lemma omap_sorted {A} (decode : mongo.document → option A) (time : A → Time) f docs :
  (∀ x a, decode x = Some a → mongo.field_time f x = Some (time a)) →
  StronglySorted (mongo.desc f) docs →
  newest_first time (omap decode docs).
Proof.
  intros Hkey Hs. unfold newest_first.
  induction Hs as [|x docs Hs IH Hall]; simpl; [constructor|].
  destruct (decode x) as [a|] eqn:Ha; [|done].
  constructor; [done|]. apply Forall_forall. intros b Hb.
  apply list_elem_of_omap in Hb as (y & Hy & Hb).
  rewrite Forall_forall in Hall. specialize (Hall y Hy). unfold mongo.desc in Hall.
  rewrite (Hkey _ _ Ha), (Hkey _ _ Hb) in Hall. done.
Qed.

Lemma cursor_loop_rows {A} (decode : mongo.document → option A) what docs acc d :
  (Database.cursor_loop decode what docs acc d).1 = acc ++ omap decode docs.
Proof.
  revert acc d. induction docs as [|x docs IH]; intros acc d; simpl.
  - by rewrite app_nil_r.
  - destruct (decode x); rewrite IH; [by rewrite <- app_assoc|done].
Qed.

Lemma length_omap_le {A B} (f : A → option B) l : (length (omap f l) ≤ length l)%nat.
Proof. induction l as [|x l IH]; csimpl; [done|]. destruct (f x); csimpl; lia. Qed.

Lemma Database_find_sorted_ok {A} name field what (decode : mongo.document → option A)
    (time : A → Time) filter limit d :
  (∀ x a, decode x = Some a → mongo.field_time field x = Some (time a)) →
  0 < limit →
  rows_ok time decode name limit (mongo.server (Database.client d))
    (Database.find_sorted name field what decode filter limit d).1.
Proof.
  intros Hkey Hpos. unfold Database.find_sorted, Database.getCollection.
  destruct (mongo.Find _ _ _ _ _ _) as [docs|err] eqn:HF; simpl.
  - destruct (Find_answer _ _ _ _ _ _ _ HF Hpos) as (Hlen & Hs & Hin).
    case_bool_decide as Hcap; simpl; [lia|].
    rewrite cursor_loop_rows. simpl. split; [|split].
    + pose proof (length_omap_le decode docs). unfold len in *. lia.
    + by eapply omap_sorted.
    + intros a Ha. apply list_elem_of_omap in Ha as (x & Hx & Ha). eauto.
  - split; [unfold len; simpl; lia|]. split; [constructor|].
    intros a Ha. by apply elem_of_nil in Ha.
Qed.

Lemma Database_find_sorted_store {A} name field what (decode : mongo.document → option A)
    filter limit d d' :
  Database.client d = Database.client d' →
  (Database.find_sorted name field what decode filter limit d).1
  = (Database.find_sorted name field what decode filter limit d').1.
Proof.
  intros Hc. unfold Database.find_sorted, Database.getCollection. rewrite Hc.
  destruct (mongo.Find _ _ _ _ _ _); [|done].
  case_bool_decide; simpl; [done|]. by rewrite !cursor_loop_rows.
Qed.

Lemma Simple_find_sorted_ok {A} name field (decode : mongo.document → option A)
    (time : A → Time) filter limit s :
  (∀ x a, decode x = Some a → mongo.field_time field x = Some (time a)) →
  0 < limit →
  answer_ok time decode name limit (mongo.server (SimpleDatabase.client s))
    (SimpleDatabase.find_sorted name field decode filter limit s).1.
Proof.
  intros Hkey Hpos. unfold SimpleDatabase.find_sorted.
  assert (answer_ok time decode name limit (mongo.server (SimpleDatabase.client s)) [])
    as Hnil.
  { split; [unfold len; simpl; lia|]. split; [constructor|].
    intros a Ha. by apply elem_of_nil in Ha. }
  destruct (mongo.Find _ _ _ _ _ _) as [docs|err] eqn:HF; simpl; [|done].
  destruct (Find_answer _ _ _ _ _ _ _ HF Hpos) as (Hlen & Hs & Hin).
  destruct (mapM decode docs) as [rows|] eqn:HM; simpl; [|done].
  apply mapM_Some in HM.
  assert (rows = omap decode docs) as ->.
  { clear -HM. induction HM as [|x a docs rows Hxa _ IH]; simpl; [done|].
    by rewrite Hxa, IH. }
  split; [|split].
  - pose proof (length_omap_le decode docs). unfold len in *. lia.
  - by eapply omap_sorted.
  - intros a Ha. apply list_elem_of_omap in Ha as (x & Hx & Ha). eauto.
Qed.

(** C8, as the code has it.  For every positive limit, every filter and
    each of the three readers of both databases: the rows returned are
    at most [limit], in descending order of the time field of the kind
    (deleted-at, edited-at, created-at), and each is decoded from a
    document in the store's collection; the answer depends on the store
    alone, not on what is queued or batched.  A reader of the batched
    database returns no rows only by panicking, and only when the limit
    is beyond the largest slice capacity. *)
Theorem query_sorted_limited (limit : Z) :
  0 < limit →
  (∀ filter d,
     rows_ok DeletedMessageData.DeletedAt Database.decodeDeleted "deleted_messages"
       limit (mongo.server (Database.client d))
       (Database.GetDeletedMessages filter limit d).1)
  ∧ (∀ filter d,
       rows_ok EditedMessageData.EditedAt Database.decodeEdited "edited_messages"
         limit (mongo.server (Database.client d))
         (Database.GetEditedMessages filter limit d).1)
  ∧ (∀ filter d,
       rows_ok MentionData.CreatedAt Database.decodeMention "mentions"
         limit (mongo.server (Database.client d))
         (Database.GetMentions filter limit d).1)
  ∧ (∀ filter d d',
       Database.client d = Database.client d' →
       (Database.GetDeletedMessages filter limit d).1
       = (Database.GetDeletedMessages filter limit d').1
       ∧ (Database.GetEditedMessages filter limit d).1
         = (Database.GetEditedMessages filter limit d').1
       ∧ (Database.GetMentions filter limit d).1
         = (Database.GetMentions filter limit d').1)
  ∧ (∀ filter s,
       answer_ok SimpleDeletedMessageData.DeletedAt SimpleDatabase.decodeDeleted
         "deleted_messages" limit (mongo.server (SimpleDatabase.client s))
         (SimpleDatabase.GetDeletedMessages filter limit s).1)
  ∧ (∀ filter s,
       answer_ok SimpleEditedMessageData.EditedAt SimpleDatabase.decodeEdited
         "edited_messages" limit (mongo.server (SimpleDatabase.client s))
         (SimpleDatabase.GetEditedMessages filter limit s).1)
  ∧ (∀ filter s,
       answer_ok SimpleMentionData.CreatedAt SimpleDatabase.decodeMention
         "mentions" limit (mongo.server (SimpleDatabase.client s))
         (SimpleDatabase.GetMentions filter limit s).1).
Proof.
  intros Hpos.
  assert (∀ x a, Database.decodeDeleted x = Some a →
                 mongo.field_time "deleted_at" x = Some (DeletedMessageData.DeletedAt a))
    as K1 by (intros [] a; simpl; intros; by simplify_eq).
  assert (∀ x a, Database.decodeEdited x = Some a →
                 mongo.field_time "edited_at" x = Some (EditedMessageData.EditedAt a))
    as K2 by (intros [] a; simpl; intros; by simplify_eq).
  assert (∀ x a, Database.decodeMention x = Some a →
                 mongo.field_time "created_at" x = Some (MentionData.CreatedAt a))
    as K3 by (intros [] a; simpl; intros; by simplify_eq).
  assert (∀ x a, SimpleDatabase.decodeDeleted x = Some a →
                 mongo.field_time "deleted_at" x
                 = Some (SimpleDeletedMessageData.DeletedAt a))
    as K4 by (intros [] a; simpl; intros; by simplify_eq).
  assert (∀ x a, SimpleDatabase.decodeEdited x = Some a →
                 mongo.field_time "edited_at" x
                 = Some (SimpleEditedMessageData.EditedAt a))
    as K5 by (intros [] a; simpl; intros; by simplify_eq).
  assert (∀ x a, SimpleDatabase.decodeMention x = Some a →
                 mongo.field_time "created_at" x
                 = Some (SimpleMentionData.CreatedAt a))
    as K6 by (intros [] a; simpl; intros; by simplify_eq).
  split; [intros; by apply Database_find_sorted_ok|].
  split; [intros; by apply Database_find_sorted_ok|].
  split; [intros; by apply Database_find_sorted_ok|].
  split; [intros filter d d' Hc; repeat split; by apply Database_find_sorted_store|].
  split; [intros; by apply Simple_find_sorted_ok|].
  split; [intros; by apply Simple_find_sorted_ok|].
  intros; by apply Simple_find_sorted_ok.
Qed.

Lemma query_sorted_limited_witness :
  rows_ok DeletedMessageData.DeletedAt Database.decodeDeleted "deleted_messages"
    2 query_server (Database.GetDeletedMessages None 2 query_db).1
  ∧ answer_ok SimpleDeletedMessageData.DeletedAt SimpleDatabase.decodeDeleted
      "deleted_messages" 2 query_server
      (SimpleDatabase.GetDeletedMessages ∅ 2 query_simple).1.
Proof.
  destruct (query_sorted_limited 2) as (H1 & _ & _ & _ & H2 & _); [lia|].
  split; [apply (H1 None query_db)|apply (H2 ∅ query_simple)].
Defined.

(** C8, as the specification words it, fails for the limit 0, which the
    store reads as no limit: on a store with three deleted messages
    both readers return all three, newest first. *)
Lemma query_limit_zero_cex :
  (Database.GetDeletedMessages None 0 query_db).1
  = Database.Rows [deleted_at 30; deleted_at 20; deleted_at 10] None
  ∧ (SimpleDatabase.GetDeletedMessages ∅ 0 query_simple).1
    = [simple_deleted_at 30; simple_deleted_at 20; simple_deleted_at 10]
  ∧ ¬ rows_ok DeletedMessageData.DeletedAt Database.decodeDeleted "deleted_messages"
        0 query_server (Database.GetDeletedMessages None 0 query_db).1
  ∧ ¬ answer_ok SimpleDeletedMessageData.DeletedAt SimpleDatabase.decodeDeleted
        "deleted_messages" 0 query_server
        (SimpleDatabase.GetDeletedMessages ∅ 0 query_simple).1.
Proof.
  assert ((Database.GetDeletedMessages None 0 query_db).1
          = Database.Rows [deleted_at 30; deleted_at 20; deleted_at 10] None) as H1
    by (by vm_compute).
  assert ((SimpleDatabase.GetDeletedMessages ∅ 0 query_simple).1
          = [simple_deleted_at 30; simple_deleted_at 20; simple_deleted_at 10]) as H2
    by (by vm_compute).
  split; [exact H1|]. split; [exact H2|]. split.
  - rewrite H1. intros [Hlen _]. by vm_compute in Hlen.
  - rewrite H2. intros [Hlen _]. by vm_compute in Hlen.
Qed.

(** * Further properties of the code *)

(** ** Queries of the batched database *)

Lemma matches_spec q doc :
  mongo.matches q doc = true ↔ ∀ k c, q !! k = Some c → mongo.holds doc k c = true.
Proof.
  unfold mongo.matches. rewrite forallb_forall. split.
  - intros H k c Hl. apply (H (k, c)). apply list_elem_of_In.
    by apply elem_of_map_to_list.
  - intros H [k c] Hin. apply list_elem_of_In, elem_of_map_to_list in Hin. by apply H.
Qed.

Lemma lookup_put_if key v (q : mongo.M) k :
  Database.put_if key v q !! k
  = if decide (key = k) then (match v with Some c => Some c | None => q !! k end)
    else q !! k.
Proof.
  unfold Database.put_if. destruct v as [c|]; case_decide; subst;
    by rewrite ?lookup_insert_eq, ?lookup_insert_ne by done.
Qed.

Lemma buildQuery_lookup filter k :
  Database.buildQuery (Some filter) !! k
  = if decide (k = "created_at") then time_cond filter
    else if decide (k = "user_id")
         then match Database.ExcludeUser filter with
              | Some v => Some (mongo.Ne v)
              | None => mongo.Eq <$> Database.UserID filter
              end
    else if decide (k = "target_id") then mongo.Eq <$> Database.TargetID filter
    else if decide (k = "guild_id") then mongo.Eq <$> Database.GuildID filter
    else if decide (k = "channel_id") then mongo.Eq <$> Database.ChannelID filter
    else None.
Proof.
  unfold Database.buildQuery, time_cond.
  set (q := Database.put_if "user_id" _ (Database.put_if "target_id" _ _)).
  assert (∀ k, q !! k
               = if decide (k = "user_id")
                 then match Database.ExcludeUser filter with
                      | Some v => Some (mongo.Ne v)
                      | None => mongo.Eq <$> Database.UserID filter
                      end
                 else if decide (k = "target_id")
                      then mongo.Eq <$> Database.TargetID filter
                 else if decide (k = "guild_id") then mongo.Eq <$> Database.GuildID filter
                 else if decide (k = "channel_id")
                      then mongo.Eq <$> Database.ChannelID filter
                 else None) as Hq.
  { intros k'. subst q. rewrite !lookup_put_if, lookup_empty.
    destruct (decide (k' = "user_id")) as [->|?].
    { rewrite !decide_True by done. rewrite !decide_False by done.
      by destruct (Database.ExcludeUser filter), (Database.UserID filter). }
    rewrite (decide_False (P := "user_id" = k')) by done.
    destruct (decide (k' = "target_id")) as [->|?].
    { rewrite decide_True by done. rewrite !decide_False by done.
      by destruct (Database.TargetID filter). }
    rewrite (decide_False (P := "target_id" = k')) by done.
    destruct (decide (k' = "guild_id")) as [->|?].
    { rewrite decide_True by done. rewrite !decide_False by done.
      by destruct (Database.GuildID filter). }
    rewrite (decide_False (P := "guild_id" = k')) by done.
    destruct (decide (k' = "channel_id")) as [->|?].
    { rewrite decide_True by done. rewrite !decide_False by done.
      by destruct (Database.ChannelID filter). }
    rewrite !decide_False by done. done. }
  assert (q !! "created_at" = None) as Hc by (by rewrite Hq).
  destruct (Database.TimeRange_ filter) as [r|].
  - destruct (Database.After r), (Database.Before r);
      (destruct (decide (k = "created_at")) as [->|Hk];
       [by rewrite ?lookup_insert_eq
       |by rewrite ?lookup_insert_ne, ?Hq by done]).
  - destruct (decide (k = "created_at")) as [->|Hk]; [done|by rewrite Hq].
Qed.

(** X1.  What a [QueryFilter] means once [buildQuery] has turned it into
    a query: a document matches exactly when it satisfies the filter
    field by field, where [ExcludeUser], when set, replaces the [UserID]
    condition (both are written under [user_id], the exclusion last) and
    a time range always constrains [created_at], whatever the
    collection.  The nil filter gives the empty query, which every
    document matches. *)
Theorem buildQuery_meaning (filter : Database.QueryFilter) (doc : mongo.document) :
  (mongo.matches (Database.buildQuery (Some filter)) doc = true
   ↔ filter_accepts filter doc)
  ∧ Database.buildQuery None = ∅
  ∧ mongo.matches (Database.buildQuery None) doc = true.
Proof.
  split; [|split; [done|apply matches_empty]].
  rewrite matches_spec. unfold filter_accepts. split.
  - intros H. repeat split.
    + pose proof (H "user_id") as Hu. rewrite buildQuery_lookup in Hu. simpl in Hu.
      destruct (Database.ExcludeUser filter) as [v|].
      * specialize (Hu _ eq_refl). simpl in Hu. by apply bool_decide_eq_true in Hu.
      * destruct (Database.UserID filter) as [v|]; [|done].
        specialize (Hu _ eq_refl). simpl in Hu. by apply bool_decide_eq_true in Hu.
    + intros v Hv. pose proof (H "channel_id") as Hu. rewrite buildQuery_lookup in Hu.
      simpl in Hu. rewrite Hv in Hu. specialize (Hu _ eq_refl). simpl in Hu.
      by apply bool_decide_eq_true in Hu.
    + intros v Hv. pose proof (H "guild_id") as Hu. rewrite buildQuery_lookup in Hu.
      simpl in Hu. rewrite Hv in Hu. specialize (Hu _ eq_refl). simpl in Hu.
      by apply bool_decide_eq_true in Hu.
    + intros v Hv. pose proof (H "target_id") as Hu. rewrite buildQuery_lookup in Hu.
      simpl in Hu. rewrite Hv in Hu. specialize (Hu _ eq_refl). simpl in Hu.
      by apply bool_decide_eq_true in Hu.
    + intros c Hc. apply (H "created_at"). rewrite buildQuery_lookup. by simpl.
  - intros (Hu & Hch & Hg & Ht & Htime) k c Hl. rewrite buildQuery_lookup in Hl.
    repeat case_decide; subst; try done.
    + by apply Htime.
    + destruct (Database.ExcludeUser filter) as [v|].
      * simplify_eq. simpl. by apply bool_decide_eq_true.
      * destruct (Database.UserID filter) as [v|]; simpl in Hl; simplify_eq. simpl.
        by apply bool_decide_eq_true.
    + destruct (Database.TargetID filter) as [v|] eqn:E; simpl in Hl; simplify_eq. simpl.
      apply bool_decide_eq_true. by apply Ht.
    + destruct (Database.GuildID filter) as [v|] eqn:E; simpl in Hl; simplify_eq. simpl.
      apply bool_decide_eq_true. by apply Hg.
    + destruct (Database.ChannelID filter) as [v|] eqn:E; simpl in Hl; simplify_eq. simpl.
      apply bool_decide_eq_true. by apply Hch.
Qed.






(** X3.  The [Interface] wrappers pass on only part of a [bson.M]
    filter.  For deleted and edited messages the query sent to the store
    keeps the string or [$ne] condition under [user_id] and the string
    under [channel_id] and nothing else; for mentions it keeps only the
    string under [target_id].  So a filter made of such entries reaches
    the store unchanged, every other entry is silently dropped, and a
    nil filter or one of another type queries without conditions. *)
Theorem interface_filter_forwarded (m : mongo.M) :
  Database.buildQuery (Database.queryFilterOf Database.convertUserChannel (Database.FilterM m))
  = filter read_user_channel m
  ∧ Database.buildQuery (Database.queryFilterOf Database.convertTarget (Database.FilterM m))
    = filter read_target m
  ∧ ((∀ k c, m !! k = Some c → read_user_channel (k, c)) →
     Database.buildQuery (Some (Database.convertUserChannel m)) = m)
  ∧ ((∀ k c, m !! k = Some c → read_target (k, c)) →
     Database.buildQuery (Some (Database.convertTarget m)) = m)
  ∧ ∀ convert,
      Database.buildQuery (Database.queryFilterOf convert Database.FilterNil) = ∅
      ∧ Database.buildQuery (Database.queryFilterOf convert Database.FilterOther) = ∅.
Proof.
  assert (Database.buildQuery (Some (Database.convertUserChannel m))
          = filter read_user_channel m) as H1.
  { apply map_eq. intros k. apply option_eq. intros c.
    rewrite map_lookup_filter_Some, buildQuery_lookup.
    unfold Database.convertUserChannel, time_cond, read_user_channel. simpl.
    repeat case_decide; subst;
      destruct (m !! "user_id") as [[]|] eqn:Eu, (m !! "channel_id") as [[]|] eqn:Ec;
      simpl; split; try (intros [? ?]); intros; simplify_eq; simpl in *;
      try done; try (split; [done|]; auto); destruct c; intuition congruence. }
  assert (Database.buildQuery (Some (Database.convertTarget m)) = filter read_target m)
    as H2.
  { apply map_eq. intros k. apply option_eq. intros c.
    rewrite map_lookup_filter_Some, buildQuery_lookup.
    unfold Database.convertTarget, time_cond, read_target. simpl.
    repeat case_decide; subst;
      destruct (m !! "target_id") as [[]|] eqn:Et;
      simpl; split; try (intros [? ?]); intros; simplify_eq; simpl in *;
      try done; try (split; [done|]; auto); destruct c; intuition congruence. }
  split; [exact H1|]. split; [exact H2|]. split; [|split; [|done]].
  - intros Hall. rewrite H1. apply map_filter_id. intros k c Hl. by apply Hall.
  - intros Hall. rewrite H2. apply map_filter_id. intros k c Hl. by apply Hall.
Qed.

(** ** What one loop iteration does to the records *)

Lemma InsertMany_other name name' batch c :
  name ≠ name' →
  mongo.collection name' (mongo.server (mongo.InsertMany name batch c).1)
  = mongo.collection name' (mongo.server c).
Proof.
  intros Hne. unfold mongo.InsertMany. destruct batch as [|x batch]; [done|].
  destruct (negb (mongo.connected c)); [done|].
  destruct (negb (mongo.reachable (mongo.server c))); [done|].
  simpl. unfold mongo.collection at 1. simpl. by rewrite lookup_insert_ne.
Qed.

Lemma queued_set_proc k k' p d :
  Database.queued k' (Database.set_proc k p d) = Database.queued k' d.
Proof. by destruct k, k'. Qed.

Lemma pending_batch_not_returned k s :
  Database.returned (Database.proc k s) = false →
  pending_batch k s = Database.batch (Database.proc k s).
Proof. intros H. unfold pending_batch. by rewrite H. Qed.

Lemma len_pos_iff {A} (l : list A) : len l > 0 ↔ l ≠ [].
Proof. unfold len. destruct l; simpl; split; intros; try done; lia. Qed.

Lemma client_set_wg w d : Database.client (Database.set_wg w d) = Database.client d.
Proof. done. Qed.

Lemma proc_set_wg k w d : Database.proc k (Database.set_wg w d) = Database.proc k d.
Proof. by destruct k. Qed.

Lemma queued_set_wg k w d : Database.queued k (Database.set_wg w d) = Database.queued k d.
Proof. by destruct k. Qed.

Lemma flushBatch_proc name batch d k :
  Database.proc k (Database.flushBatch name batch d) = Database.proc k d.
Proof.
  destruct (flushBatch_frame name batch d) as (_ & _ & _ & _ & _ & _ & _ & _ & F9 & _).
  apply F9.
Qed.

Lemma InsertMany_nil name c : mongo.InsertMany name [] c = (c, Some mongo.ErrEmptySlice).
Proof. done. Qed.

Lemma Iter_effect k0 pick s :
  Database.returned (Database.proc k0 s) = false →
  ∃ flushed : list mongo.document,
    let s' := (Database.processBatch_iter (Database.collectionName k0) k0 pick s).1 in
    Database.client s'
    = (mongo.InsertMany (Database.collectionName k0) flushed (Database.client s)).1
    ∧ (∀ k, k ≠ k0 → Database.proc k s' = Database.proc k s
                      ∧ Database.queued k s' = Database.queued k s)
    ∧ flushed ++ pending_batch k0 s' ++ Database.queued k0 s'
      = pending_batch k0 s ++ Database.queued k0 s.
Proof.
  intros Hret. rewrite (pending_batch_not_returned k0 s Hret).
  unfold Database.processBatch_iter.
  set (p := Database.proc k0 s).
  set (name := Database.collectionName k0).
  destruct (Database.select_outer _ _ _).
  - exists (Database.batch p). cbv zeta. unfold fst.
    rewrite client_set_wg, set_proc_client.
    unfold pending_batch. rewrite proc_set_wg, proc_set_proc, queued_set_wg, queued_set_proc.
    cbn [Database.returned].
    assert (∀ k, k ≠ k0 →
              Database.proc k (Database.set_wg
                (Database.wg (if bool_decide (len (Database.batch p) > 0)
                              then Database.flushBatch name (Database.batch p) s else s) - 1)
                (Database.set_proc k0
                   (Database.mkProcessor (Database.batch p) (Database.ticker p) true)
                   (if bool_decide (len (Database.batch p) > 0)
                    then Database.flushBatch name (Database.batch p) s else s)))
              = Database.proc k (if bool_decide (len (Database.batch p) > 0)
                    then Database.flushBatch name (Database.batch p) s else s)) as Hpr.
    { intros k Hk. by rewrite proc_set_wg, proc_set_proc_ne. }
    case_bool_decide as Hlen.
    + rewrite flushBatch_client. split; [done|]. split.
      * intros k Hk. rewrite Hpr by done.
        by rewrite queued_set_wg, queued_set_proc, flushBatch_proc, flushBatch_queued.
      * by rewrite flushBatch_queued.
    + assert (Database.batch p = []) as Hb.
      { destruct (Database.batch p) eqn:E; [done|]. exfalso. apply Hlen.
        by apply len_pos_iff. }
      rewrite Hb, InsertMany_nil. split; [done|]. split; [|done].
      intros k Hk. rewrite <- Hb, Hpr by done.
      by rewrite queued_set_wg, queued_set_proc.
  - case_bool_decide as Hlen; unfold fst.
    + exists (Database.batch p). rewrite set_proc_client, flushBatch_client.
      split; [done|]. split.
      * intros k Hk. rewrite proc_set_proc_ne, queued_set_proc by done.
        by rewrite flushBatch_proc, flushBatch_queued.
      * unfold pending_batch. rewrite proc_set_proc, queued_set_proc, flushBatch_queued.
        done.
    + exists []. rewrite set_proc_client, InsertMany_nil. split; [done|]. split.
      * intros k Hk. by rewrite proc_set_proc_ne, queued_set_proc.
      * unfold pending_batch. rewrite proc_set_proc, queued_set_proc. done.
  - destruct (Database.receive k0 s) as [[x d1]|] eqn:Hrecv.
    + destruct (receive_frame _ _ _ _ Hrecv) as (R1 & R2 & R3 & R4 & _).
      case_bool_decide as Hfull; unfold fst.
      * exists (Database.batch p ++ [x]). rewrite set_proc_client, flushBatch_client, R1.
        split; [done|]. split.
        -- intros k Hk. rewrite proc_set_proc_ne, queued_set_proc by done.
           by rewrite flushBatch_proc, flushBatch_queued, R4, R3.
        -- unfold pending_batch.
           rewrite proc_set_proc, queued_set_proc, flushBatch_queued, R2.
           cbn [Database.returned Database.batch]. simpl. by rewrite <- app_assoc.
      * exists []. rewrite set_proc_client, R1, InsertMany_nil. split; [done|]. split.
        -- intros k Hk. rewrite proc_set_proc_ne, queued_set_proc by done.
           by rewrite R4, R3.
        -- unfold pending_batch. rewrite proc_set_proc, queued_set_proc, R2.
           cbn [Database.returned Database.batch]. simpl. by rewrite <- app_assoc.
    + exists []. unfold fst. rewrite InsertMany_nil. split; [done|]. split; [done|].
      by rewrite (pending_batch_not_returned k0 s Hret).
Qed.

Lemma InsertMany_history k batch c :
  mongo.connected c = true → no_failures (mongo.server c) →
  let c' := (mongo.InsertMany (Database.collectionName k) batch c).1 in
  no_failures (mongo.server c')
  ∧ ∀ k', mongo.collection (Database.collectionName k') (mongo.server c')
          = mongo.collection (Database.collectionName k') (mongo.server c)
            ++ (if decide (k' = k) then batch else []).
Proof.
  intros Hc Hnf. destruct batch as [|x batch].
  - rewrite InsertMany_nil. split; [done|]. intros k'. case_decide; by rewrite app_nil_r.
  - rewrite InsertMany_accept by done. cbv zeta. unfold fst. split; [done|].
    intros k'. case_decide as Hk.
    + subst k'. by rewrite collection_with_collection.
    + rewrite app_nil_r. apply collection_with_collection_ne.
      intros Heq. apply Hk. symmetry. by apply collectionName_inj.
Qed.

Lemma step_history a s s' :
  wf s → no_failures (mongo.server (Database.client s)) →
  Database.step a s = Some s' →
  no_failures (mongo.server (Database.client s'))
  ∧ ∀ k, history k s' = history k s ++ accepted k a s.
Proof.
  intros Hwf Hnf Hs. destruct a as [x|k0|k0 pick| |]; simpl in Hs.
  - destruct (Database.Store x s) as [s1|] eqn:E; [|done]. simplify_eq.
    destruct (Store_frame _ _ _ E) as (F1 & F2 & _).
    pose proof (Store_cases x s) as Hc. rewrite E in Hc. cbv zeta in Hc.
    destruct Hc as (_ & Hother & Hk).
    split; [by rewrite F1|]. intros k. unfold history, pending_batch, accepted.
    rewrite F1, F2. destruct (decide (Database.kind_of x = k)) as [<-|Hkind].
    + case_bool_decide.
      * destruct Hk as [-> _]. by rewrite !app_assoc.
      * destruct Hk as [-> _]. by rewrite app_nil_r.
    + rewrite Hother by done. by rewrite app_nil_r.
  - destruct (Database.returned (Database.proc k0 s)) eqn:E; [done|]. simplify_eq.
    rewrite set_proc_client. split; [done|]. intros k.
    unfold history, accepted, pending_batch. rewrite set_proc_client, queued_set_proc.
    rewrite app_nil_r. do 2 f_equal. destruct (decide (k0 = k)) as [->|Hne].
    + rewrite proc_set_proc. simpl. by rewrite E.
    + by rewrite proc_set_proc_ne.
  - destruct (Database.returned (Database.proc k0 s)) eqn:E; [done|]. simplify_eq.
    destruct (Iter_effect k0 pick s E) as (flushed & Hcl & Hfr & Heq).
    cbv zeta in Hcl, Hfr, Heq.
    destruct (InsertMany_history k0 flushed (Database.client s)
                (running_connected k0 s Hwf E) Hnf) as (A1 & A2).
    cbv zeta in A1, A2. rewrite <- Hcl in A1, A2.
    split; [done|]. intros k. unfold history, accepted. rewrite app_nil_r, A2.
    destruct (decide (k = k0)) as [->|Hk].
    + by rewrite <- app_assoc, Heq.
    + destruct (Hfr k Hk) as [Hp ->]. unfold pending_batch. by rewrite Hp, app_nil_r.
  - destruct (Database.closing s) eqn:E; try done. simplify_eq.
    split; [done|]. intros k. unfold history, accepted, pending_batch.
    rewrite app_nil_r. by destruct k.
  - destruct (Database.closing s) eqn:E; try done.
    destruct (Database.Close_end s) as [[s1|s1]|] eqn:E2; try done. simplify_eq.
    assert (Database.wg s = 0) as Hw.
    { unfold Database.Close_end in E2. by case_decide. }
    destruct (Close_end_result s Hwf E Hw) as (s2 & H1 & _ & _ & H4 & _ & H6 & H7).
    simpl in H1. rewrite E, E2 in H1. simplify_eq.
    rewrite H4. split; [done|]. intros k. unfold history, accepted, pending_batch.
    by rewrite H4, H6, H7, app_nil_r.
Qed.

Lemma run_history tr : ∀ s s',
  wf s → no_failures (mongo.server (Database.client s)) →
  Database.run tr s = Some s' →
  no_failures (mongo.server (Database.client s'))
  ∧ ∀ k, history k s' = history k s ++ enqueued k tr s.
Proof.
  induction tr as [|a tr IH]; intros s s' Hwf Hnf Hr; simpl in Hr.
  - simplify_eq. split; [done|]. intros k. simpl. by rewrite app_nil_r.
  - destruct (Database.step a s) as [s1|] eqn:E; [|done].
    destruct (step_history a s s1 Hwf Hnf E) as (N1 & H1).
    destruct (IH s1 s' (step_wf _ _ _ Hwf E) N1 Hr) as (N2 & H2).
    split; [done|]. intros k. simpl. by rewrite E, H2, H1, app_assoc.
Qed.

(** X4. On a store that accepts every write, the pipeline neither loses,
    duplicates nor reorders a record it took: after any run from [New],
    for each kind the collection, followed by the batch still to flush,
    followed by the queue, is the collection at the start followed by the
    records the [Store*] calls put in the queue, in the order of the
    calls. *)
Theorem records_kept_in_order cfg srv d0 tr d k :
  Database.New cfg srv = inl d0 →
  no_failures srv →
  Database.run tr d0 = Some d →
  mongo.collection (Database.collectionName k) (mongo.server (Database.client d))
    ++ pending_batch k d ++ Database.queued k d
  = mongo.collection (Database.collectionName k) srv ++ enqueued k tr d0.
Proof.
  intros Hnew Hnf Hr.
  assert (wf d0) as Hwf by (by eapply New_wf).
  assert (mongo.server (Database.client d0) = srv
          ∧ ∀ k, pending_batch k d0 = [] ∧ Database.queued k d0 = []) as [Hsrv H0].
  { unfold Database.New in Hnew. repeat case_match; simplify_eq.
    split; [done|]. by intros []. }
  destruct (run_history tr d0 d Hwf) as (_ & H); [by rewrite Hsrv|done|].
  specialize (H k). unfold history in H. rewrite H, Hsrv.
  destruct (H0 k) as [-> ->]. by rewrite !app_nil_r.
Qed.

Lemma records_kept_in_order_witness :
  mongo.collection (Database.collectionName Database.KMessage)
    (mongo.server (Database.client (db_after tr_mixed)))
    ++ pending_batch Database.KMessage (db_after tr_mixed)
    ++ Database.queued Database.KMessage (db_after tr_mixed)
  = mongo.collection (Database.collectionName Database.KMessage) accepting_server
    ++ enqueued Database.KMessage tr_mixed db0.
Proof.
  apply (records_kept_in_order cfg0 accepting_server db0 tr_mixed (db_after tr_mixed)
           Database.KMessage); [reflexivity | by split | by vm_compute].
Defined.

(** ** A flush that fails *)

Lemma flushBatch_unreachable name batch d :
  mongo.reachable (mongo.server (Database.client d)) = false → batch ≠ [] →
  Database.client (Database.flushBatch name batch d) = Database.client d
  ∧ Database.log (Database.flushBatch name batch d)
    = Database.log d
      ++ [LogErrorInsertBatch name
            (if mongo.connected (Database.client d)
             then mongo.ErrServerSelection else mongo.ErrClientDisconnected)].
Proof.
  intros Hr Hne. destruct batch as [|x batch]; [done|].
  unfold Database.flushBatch, mongo.InsertMany. rewrite Hr.
  by destruct (mongo.connected (Database.client d)).
Qed.

(** X5. A batch the store cannot take is not kept for another attempt.
    When the server cannot be reached and a processor flushes on its
    ticker or on shutdown, the error is logged once, nothing is written,
    and the records of the batch are afterwards neither in the batch nor
    back in the queue. *)
Theorem failed_flush_drops_batch k pick s :
  Database.returned (Database.proc k s) = false →
  mongo.reachable (mongo.server (Database.client s)) = false →
  Database.ticker (Database.proc k s) = true ∨ Database.ctx_done s = true →
  Database.batch (Database.proc k s) ≠ [] →
  let s' := (Database.processBatch_iter (Database.collectionName k) k pick s).1 in
  Database.client s' = Database.client s
  ∧ pending_batch k s' = []
  ∧ Database.queued k s' = Database.queued k s
  ∧ Database.log s'
    = Database.log s
      ++ [LogErrorInsertBatch (Database.collectionName k)
            (if mongo.connected (Database.client s)
             then mongo.ErrServerSelection else mongo.ErrClientDisconnected)].
Proof.
  intros Hret Hr Htrig Hne.
  destruct (flushBatch_unreachable (Database.collectionName k)
              (Database.batch (Database.proc k s)) s Hr Hne) as (Hc & Hl).
  assert (len (Database.batch (Database.proc k s)) > 0) as Hpos by (by apply len_pos_iff).
  pose proof (flushBatch_queued (Database.collectionName k)
                (Database.batch (Database.proc k s)) s k) as Hq.
  unfold Database.processBatch_iter.
  assert (Database.select_outer (Database.ctx_done s)
            (Database.ticker (Database.proc k s)) pick ≠ Database.CaseDefault) as Hsel.
  { destruct Htrig as [-> | ->]; [destruct (Database.ctx_done s)|
                                   destruct (Database.ticker (Database.proc k s))];
      by destruct pick. }
  destruct (Database.select_outer _ _ _); [| |done].
  - rewrite bool_decide_eq_true_2 by done. cbv zeta. unfold fst.
    rewrite client_set_wg, set_proc_client, queued_set_wg, queued_set_proc.
    unfold pending_batch. rewrite proc_set_wg, proc_set_proc. simpl.
    split; [done|]. split; [done|]. split; [done|].
    etrans; [|exact Hl]. by destruct k.
  - rewrite bool_decide_eq_true_2 by done. unfold fst.
    rewrite set_proc_client, queued_set_proc. unfold pending_batch.
    rewrite proc_set_proc. simpl.
    split; [done|]. split; [done|]. split; [done|].
    etrans; [|exact Hl]. by destruct k.
Qed.

Lemma failed_flush_drops_batch_witness :
  Database.batch (Database.proc Database.KMessage unreachable_db)
  = [mongo.DocMessage message0]
  ∧ pending_batch Database.KMessage
      (Database.processBatch_iter "user_messages" Database.KMessage true
         unreachable_db).1 = []
  ∧ Database.queued Database.KMessage
      (Database.processBatch_iter "user_messages" Database.KMessage true
         unreachable_db).1 = [].
Proof.
  split; [by vm_compute|].
  destruct (failed_flush_drops_batch Database.KMessage true unreachable_db)
    as (_ & Hb & Hq & _); [reflexivity | reflexivity | by left | by vm_compute |].
  split; [exact Hb|]. etrans; [exact Hq|]. by vm_compute.
Defined.

(** ** After [Close] has returned *)

Lemma Find_disconnected name q f limit bs c :
  mongo.connected c = false → mongo.Find name q f limit bs c = inr mongo.ErrClientDisconnected.
Proof. intros H. unfold mongo.Find. by rewrite H. Qed.

(** X6. Once [Close] has returned, in any run from [New], the database
    cannot be used again: every [Store*] call panics on its closed
    channel, each of the three readers returns the driver's
    client-disconnected error without rows, and a second [Close] panics
    on closing a closed channel. *)
Theorem use_after_close cfg srv d0 tr d r :
  Database.New cfg srv = inl d0 →
  Database.run tr d0 = Some d →
  Database.closing d = Database.CloseReturned r →
  (∀ x, Database.Store x d = Panics d)
  ∧ (∀ filter limit,
       Database.GetDeletedMessages filter limit d
       = (Database.Rows [] (Some mongo.ErrClientDisconnected), d)
       ∧ Database.GetEditedMessages filter limit d
         = (Database.Rows [] (Some mongo.ErrClientDisconnected), d)
       ∧ Database.GetMentions filter limit d
         = (Database.Rows [] (Some mongo.ErrClientDisconnected), d))
  ∧ Database.Close_end (Database.Close_begin d) = Some (Panics (Database.Close_begin d)).
Proof.
  intros Hnew Hrun Hcl.
  pose proof (run_wf _ _ _ _ _ Hnew Hrun) as Hwf.
  destruct (wf_finished _ Hwf r Hcl) as (Hwg & Hclosed).
  assert (mongo.connected (Database.client d) = false) as Hconn.
  { destruct (mongo.connected (Database.client d)) eqn:E; [|done].
    by destruct (proj1 (wf_connected _ Hwf) E r). }
  split; [|split].
  - intros x. pose proof (Store_cases x d) as Hc. cbv zeta in Hc.
    destruct (Database.Store x d) as [d'|d'].
    + destruct Hc as (Hopen & _). by rewrite Hclosed in Hopen.
    + by destruct Hc as (_ & ->).
  - intros filter limit.
    unfold Database.GetDeletedMessages, Database.GetEditedMessages, Database.GetMentions,
      Database.find_sorted.
    by rewrite !Find_disconnected.
  - unfold Database.Close_end.
    replace (Database.wg (Database.Close_begin d)) with (Database.wg d) by done.
    rewrite decide_True by done.
    pose proof (Hclosed Database.KMessage) as H1. simpl in H1.
    unfold channel.close. simpl. by rewrite H1.
Qed.

Lemma use_after_close_witness :
  Database.Store (mongo.DocMessage message0) (db_after (Database.ACloseBegin :: tr_drain))
  = Panics (db_after (Database.ACloseBegin :: tr_drain)).
Proof.
  destruct (use_after_close cfg0 accepting_server db0 (Database.ACloseBegin :: tr_drain)
              (db_after (Database.ACloseBegin :: tr_drain)) (ResError None))
    as (Hs & _); [reflexivity | by vm_compute | by vm_compute |].
  apply Hs.
Defined.

(** ** The wait group *)

(** X7. In every state of a run from [New] the wait-group counter is the
    number of processors that have not returned: it lies between 0 and
    4, so no [wg.Done()] ever brings it below zero; it is 4 as long as
    [Close] has not been called, since no processor returns before; and
    it is 0 once [Close] has returned. *)
Theorem wait_group_counts_processors cfg srv d0 tr d :
  Database.New cfg srv = inl d0 →
  Database.run tr d0 = Some d →
  Database.wg d = Z.of_nat (length (live d))
  ∧ 0 ≤ Database.wg d ≤ 4
  ∧ (Database.closing d = Database.CloseNotCalled
     → Database.wg d = 4 ∧ ∀ k, Database.returned (Database.proc k d) = false)
  ∧ (∀ r, Database.closing d = Database.CloseReturned r
          → Database.wg d = 0 ∧ ∀ k, Database.returned (Database.proc k d) = true).
Proof.
  intros Hnew Hrun.
  pose proof (run_wf _ _ _ _ _ Hnew Hrun) as Hwf.
  pose proof (wf_wg _ Hwf) as Hwg.
  assert (Database.wg d = Z.of_nat (length (live d))) as Hlive.
  { rewrite Hwg. unfold live, running. rewrite !filter_cons, filter_nil.
    destruct (Database.returned (Database.proc Database.KMessage d)),
             (Database.returned (Database.proc Database.KDeleted d)),
             (Database.returned (Database.proc Database.KEdited d)),
             (Database.returned (Database.proc Database.KMention d));
      repeat case_decide; try done. }
  split; [done|]. split; [|split].
  - rewrite Hwg. unfold running.
    destruct (Database.returned (Database.proc Database.KMessage d)),
             (Database.returned (Database.proc Database.KDeleted d)),
             (Database.returned (Database.proc Database.KEdited d)),
             (Database.returned (Database.proc Database.KMention d)); lia.
  - intros Hc.
    assert (∀ k, Database.returned (Database.proc k d) = false) as Hall
      by (intros k; by apply not_called_running).
    split; [|done]. rewrite Hwg. unfold running. by rewrite !Hall.
  - intros r Hc. destruct (wf_finished _ Hwf r Hc) as (H0 & _). split; [done|].
    rewrite Hwg in H0. unfold running in H0. intros k.
    destruct (Database.returned (Database.proc Database.KMessage d)) eqn:E1,
             (Database.returned (Database.proc Database.KDeleted d)) eqn:E2,
             (Database.returned (Database.proc Database.KEdited d)) eqn:E3,
             (Database.returned (Database.proc Database.KMention d)) eqn:E4;
      try lia. by destruct k.
Qed.

Lemma wait_group_counts_processors_witness :
  Database.wg (db_after (tr_closing ++ [Database.AIter Database.KMessage true]))
  = Z.of_nat (length (live (db_after (tr_closing ++ [Database.AIter Database.KMessage true])))).
Proof.
  destruct (wait_group_counts_processors cfg0 accepting_server db0
              (tr_closing ++ [Database.AIter Database.KMessage true])
              (db_after (tr_closing ++ [Database.AIter Database.KMessage true])))
    as (H & _); [reflexivity | by vm_compute | exact H].
Defined.

(** ** Each processor keeps to its own kind *)

(** X8. Whatever the store answers, a loop iteration of the processor of
    one kind changes neither the queue, nor the batch and ticker, nor
    the collection of another kind. *)
Theorem processor_isolated k0 pick s k :
  Database.returned (Database.proc k0 s) = false →
  k ≠ k0 →
  let s' := (Database.processBatch_iter (Database.collectionName k0) k0 pick s).1 in
  Database.queued k s' = Database.queued k s
  ∧ Database.proc k s' = Database.proc k s
  ∧ mongo.collection (Database.collectionName k) (mongo.server (Database.client s'))
    = mongo.collection (Database.collectionName k) (mongo.server (Database.client s)).
Proof.
  intros Hret Hk. destruct (Iter_effect k0 pick s Hret) as (flushed & Hcl & Hfr & _).
  cbv zeta in *. destruct (Hfr k Hk) as [Hp Hq]. split; [done|]. split; [done|].
  rewrite Hcl. apply InsertMany_other. intros Heq. apply Hk. symmetry.
  by apply collectionName_inj.
Qed.

Lemma processor_isolated_witness :
  Database.queued Database.KDeleted
    (Database.processBatch_iter "user_messages" Database.KMessage true
       (db_after (take 2 tr_mixed))).1
  = [mongo.DocDeleted (deleted_at 10)].
Proof.
  destruct (processor_isolated Database.KMessage true (db_after (take 2 tr_mixed))
              Database.KDeleted) as (H & _); [reflexivity | done |].
  etrans; [exact H|]. by vm_compute.
Defined.

(** ** The simple database after [Close] *)

Lemma InsertOne_disconnected name x c :
  mongo.connected c = false →
  mongo.InsertOne name x c = (c, Some mongo.ErrClientDisconnected).
Proof. intros H. unfold mongo.InsertOne. by rewrite H. Qed.

Lemma simple_store_disconnected name what x d :
  mongo.connected (SimpleDatabase.client d) = false →
  SimpleDatabase.store name what x d
  = (SimpleDatabase.logf (LogErrorStore what mongo.ErrClientDisconnected) d,
     Some mongo.ErrClientDisconnected).
Proof.
  intros H. unfold SimpleDatabase.store. rewrite InsertOne_disconnected by done.
  by destruct d.
Qed.

(** X9. [Close] of the simple database on a live connection returns no
    error and leaves the store as it is.  Afterwards each of the four
    [Store*] methods logs and returns the driver's client-disconnected
    error, each of the three readers returns it without rows, and a
    second [Close] returns it as well; none of them changes the store. *)
Theorem simple_use_after_close (d : SimpleDatabase.t) :
  mongo.connected (SimpleDatabase.client d) = true →
  let d' := (SimpleDatabase.Close d).1 in
  let gone := mongo.ErrClientDisconnected in
  (SimpleDatabase.Close d).2 = None
  ∧ mongo.server (SimpleDatabase.client d') = mongo.server (SimpleDatabase.client d)
  ∧ (∀ msg, SimpleDatabase.StoreMessage msg d'
            = (SimpleDatabase.logf (LogErrorStore "message" gone) d', Some gone))
  ∧ (∀ msg, SimpleDatabase.StoreDeletedMessage msg d'
            = (SimpleDatabase.logf (LogErrorStore "deleted message" gone) d', Some gone))
  ∧ (∀ msg, SimpleDatabase.StoreEditedMessage msg d'
            = (SimpleDatabase.logf (LogErrorStore "edited message" gone) d', Some gone))
  ∧ (∀ mention, SimpleDatabase.StoreMention mention d'
                = (SimpleDatabase.logf (LogErrorStore "mention" gone) d', Some gone))
  ∧ (∀ filter limit,
       SimpleDatabase.GetDeletedMessages filter limit d' = ([], Some gone)
       ∧ SimpleDatabase.GetEditedMessages filter limit d' = ([], Some gone)
       ∧ SimpleDatabase.GetMentions filter limit d' = ([], Some gone))
  ∧ SimpleDatabase.Close d' = (d', Some gone).
Proof.
  intros Hconn d' gone.
  assert (mongo.connected (SimpleDatabase.client d') = false) as Hoff.
  { subst d'. unfold SimpleDatabase.Close, mongo.Disconnect. by rewrite Hconn. }
  split; [unfold SimpleDatabase.Close, mongo.Disconnect; by rewrite Hconn|].
  split; [subst d'; unfold SimpleDatabase.Close, mongo.Disconnect; by rewrite Hconn|].
  split; [intros; by apply simple_store_disconnected|].
  split; [intros; by apply simple_store_disconnected|].
  split; [intros; by apply simple_store_disconnected|].
  split; [intros; by apply simple_store_disconnected|].
  split.
  - intros filter limit.
    unfold SimpleDatabase.GetDeletedMessages, SimpleDatabase.GetEditedMessages,
      SimpleDatabase.GetMentions, SimpleDatabase.find_sorted.
    by rewrite !Find_disconnected.
  - unfold SimpleDatabase.Close at 1, mongo.Disconnect. rewrite Hoff. by destruct d'.
Qed.

Lemma simple_use_after_close_witness :
  SimpleDatabase.GetDeletedMessages ∅ 5 (SimpleDatabase.Close query_simple).1
  = ([], Some mongo.ErrClientDisconnected).
Proof.
  destruct (simple_use_after_close query_simple) as (_ & _ & _ & _ & _ & _ & H & _);
    [reflexivity|].
  apply (H ∅ 5).
Defined.

(** ** The channel descriptions of the bot *)

Lemma fill_channelInfo_ok channelID b :
  info_ok (SimpleBot.fill_channelInfo channelID
             (SimpleBot.mkChannelInfo "Unknown Channel" "text" false "" "") b).1.
Proof.
  unfold SimpleBot.fill_channelInfo, info_ok.
  destruct (SimpleBot.session b) as [s|]; [|simpl; intuition (eauto; done)].
  destruct (discordgo.Channel_ s channelID) as [ch|]; [|simpl; intuition (eauto; done)].
  repeat case_decide; repeat case_bool_decide; simpl; intuition (eauto; try done).
  all: exfalso; unfold discordgo.ChannelTypeDM, discordgo.ChannelTypeGroupDM in *; lia.
Qed.

Lemma fill_channelInfo_cache channelID info b :
  SimpleBot.channelCache (SimpleBot.fill_channelInfo channelID info b).2
  = SimpleBot.channelCache b.
Proof.
  unfold SimpleBot.fill_channelInfo.
  destruct (SimpleBot.session b) as [s|]; [|done].
  destruct (discordgo.Channel_ s channelID) as [ch|]; [|done].
  repeat case_decide; repeat case_bool_decide; done.
Qed.

(** X10. Every channel description [getChannelInfo] hands out, from a
    cache whose entries are well formed, is well formed: its type is
    "text", "DMs" or "group", it is flagged as a group exactly when the
    type is "group", and it names a guild only for a text channel.  The
    description is in the cache afterwards, the cache stays well formed,
    and asking again returns the cached description without another
    lookup of the channel or any change of the bot (the placeholder
    guild name is all the background lookup may replace later). *)
Theorem channel_info_shape (channelID : string) (b : SimpleBot.t) :
  cache_ok b →
  let r := SimpleBot.getChannelInfo channelID b in
  info_ok r.1
  ∧ cache_ok r.2
  ∧ SimpleBot.channelCache r.2 !! channelID = Some r.1
  ∧ SimpleBot.getChannelInfo channelID r.2 = r.
Proof.
  intros Hok. unfold SimpleBot.getChannelInfo.
  destruct (SimpleBot.channelCache b !! channelID) as [info|] eqn:Hc; cbv zeta.
  - simpl. split; [by apply (Hok channelID)|]. split; [done|]. split; [done|].
    by rewrite Hc.
  - set (r := SimpleBot.fill_channelInfo channelID _ b). simpl.
    pose proof (fill_channelInfo_ok channelID b) as Hinfo. fold r in Hinfo.
    split; [done|]. split; [|split].
    + unfold cache_ok. simpl. apply map_Forall_insert_2; [done|].
      subst r. by rewrite fill_channelInfo_cache.
    + by rewrite lookup_insert_eq.
    + by rewrite lookup_insert_eq.
Qed.

Lemma channel_info_shape_witness :
  info_ok (SimpleBot.getChannelInfo "c1" bot1).1
  ∧ SimpleBot.Type_ (SimpleBot.getChannelInfo "c2" bot1).1 = "group".
Proof.
  split; [|reflexivity].
  destruct (channel_info_shape "c1" bot1) as (H & _); [|exact H].
  apply map_Forall_empty.
Defined.

(** ** What the handlers of the bot write *)

Lemma InsertOne_effect name x c :
  ∃ recs, (recs = [] ∨ recs = [x])
    ∧ ∀ name', mongo.collection name' (mongo.server (mongo.InsertOne name x c).1)
               = mongo.collection name' (mongo.server c)
                 ++ (if decide (name' = name) then recs else []).
Proof.
  unfold mongo.InsertOne.
  destruct (negb (mongo.connected c));
    [exists []; split; [by left|]; intros; case_decide; by rewrite app_nil_r|].
  destruct (negb (mongo.reachable (mongo.server c)));
    [exists []; split; [by left|]; intros; case_decide; by rewrite app_nil_r|].
  destruct (mongo.verdict _ _ _ _);
    [exists []; split; [by left|]; intros; case_decide; by rewrite app_nil_r|].
  exists [x]. split; [by right|]. intros name'. cbn [fst]. case_decide as Hn.
  - subst. by rewrite collection_with_collection.
  - rewrite app_nil_r. by apply collection_with_collection_ne.
Qed.

Lemma simple_store_client name what x d :
  SimpleDatabase.client (SimpleDatabase.store name what x d).1
  = (mongo.InsertOne name x (SimpleDatabase.client d)).1.
Proof.
  unfold SimpleDatabase.store.
  generalize (mongo.InsertOne name x (SimpleDatabase.client d)).
  intros [c [e|]]; simpl; [|done]. by destruct (negb (SimpleDatabase.isDuplicateError e)).
Qed.

(** The state a handler is left in after a [Store*] call: the error, if
    any, is logged. *)
Lemma stored_after_store name what (s : SimpleDatabase.t * option mongo.error) b :
  stored name (match s.2 with
               | Some err => SimpleBot.logf (LogErrorStore what err)
                               (SimpleBot.set_database s.1 b)
               | None => SimpleBot.set_database s.1 b
               end)
  = mongo.collection name (mongo.server (SimpleDatabase.client s.1)).
Proof. by destruct s as [d [e|]]. Qed.

Lemma userID_after_store what (s : SimpleDatabase.t * option mongo.error) b :
  SimpleBot.userID (match s.2 with
                    | Some err => SimpleBot.logf (LogErrorStore what err)
                                    (SimpleBot.set_database s.1 b)
                    | None => SimpleBot.set_database s.1 b
                    end)
  = SimpleBot.userID b.
Proof. by destruct s as [d [e|]]. Qed.

Lemma handler_store_effect name what x info_b what' :
  ∃ recs, (recs = [] ∨ recs = [x])
    ∧ ∀ name',
        stored name'
          (match (SimpleDatabase.store name what x (SimpleBot.database info_b)).2 with
           | Some err => SimpleBot.logf (LogErrorStore what' err)
                           (SimpleBot.set_database
                              (SimpleDatabase.store name what x (SimpleBot.database info_b)).1
                              info_b)
           | None => SimpleBot.set_database
                       (SimpleDatabase.store name what x (SimpleBot.database info_b)).1 info_b
           end)
        = stored name' info_b ++ (if decide (name' = name) then recs else []).
Proof.
  destruct (InsertOne_effect name x (SimpleDatabase.client (SimpleBot.database info_b)))
    as (recs & Hrecs & Heff).
  exists recs. split; [done|]. intros name'.
  by rewrite stored_after_store, simple_store_client, Heff.
Qed.

Lemma no_effect (name : string) (b : SimpleBot.t) :
  ∃ recs : list mongo.document, (length recs ≤ 1)%nat
    ∧ ∀ name', stored name' b
               = stored name' b ++ (if decide (name' = name) then recs else []).
Proof.
  exists []. split; [simpl; lia|]. intros. case_decide; by rewrite app_nil_r.
Qed.

Lemma at_most_one {A} (x : A) recs : recs = [] ∨ recs = [x] → (length recs ≤ 1)%nat.
Proof. intros [-> | ->]; simpl; lia. Qed.

Lemma getChannelInfo_ok channelID b :
  cache_ok b →
  info_ok (SimpleBot.getChannelInfo channelID b).1
  ∧ cache_ok (SimpleBot.getChannelInfo channelID b).2.
Proof.
  intros Hok. unfold SimpleBot.getChannelInfo.
  destruct (SimpleBot.channelCache b !! channelID) as [info|] eqn:Hc; cbv zeta.
  - split; [by apply (Hok channelID)|done].
  - pose proof (fill_channelInfo_ok channelID b) as Hinfo. cbn [fst snd].
    split; [done|]. unfold cache_ok. simpl. apply map_Forall_insert_2; [done|].
    by rewrite fill_channelInfo_cache.
Qed.

Lemma processMention_effect m author now b :
  ∃ recs, (length recs ≤ 1)%nat
    ∧ (∀ name, stored name (SimpleBot.processMention m author now b)
               = stored name b ++ (if decide (name = "mentions") then recs else []))
    ∧ ∀ x, x ∈ recs → ∃ rec, x = mongo.DocMention rec ∧ mention_of m author b rec.
Proof.
  unfold SimpleBot.processMention.
  case_decide.
  { exists []. split; [simpl; lia|]. split; [|by intros x Hx%elem_of_nil].
    intros. case_decide; by rewrite app_nil_r. }
  cbv zeta. unfold SimpleDatabase.StoreMention.
  match goal with
  | |- context [SimpleDatabase.store _ _ ?x _] =>
      destruct (handler_store_effect "mentions" "mention" x
                  (SimpleBot.getChannelInfo (discordgo.ChannelID m) b).2 "bot: mention")
        as (recs & Hrecs & Heff)
  end.
  exists recs. split; [by eapply at_most_one|]. split.
  { intros name. by rewrite Heff, getChannelInfo_store. }
  intros x Hx. destruct Hrecs as [-> | ->]; [by apply elem_of_nil in Hx|].
  apply list_elem_of_singleton in Hx. subst x. eexists. split; [reflexivity|].
  unfold mention_of. simpl. split; [done|]. split; [done|]. split; [done|].
  split; [done|]. split; [done|]. split.
  - repeat case_decide; auto.
  - intros Hok. destruct (getChannelInfo_ok (discordgo.ChannelID m) b Hok)
      as ((_ & Hg & _) & _).
    rewrite Hg. repeat case_decide; split; intros; try done; congruence.
Qed.

Lemma processDeletedMessage_effect m now b :
  ∃ recs, (length recs ≤ 1)%nat
    ∧ ∀ name, stored name (SimpleBot.processDeletedMessage m now b)
              = stored name b ++ (if decide (name = "deleted_messages") then recs else []).
Proof.
  unfold SimpleBot.processDeletedMessage.
  destruct m as [m|]; [|apply no_effect].
  destruct (discordgo.Author m) as [author|]; [|apply no_effect].
  destruct (discordgo.Bot author); [apply no_effect|].
  case_decide; [apply no_effect|]. cbv zeta.
  unfold SimpleDatabase.StoreDeletedMessage.
  match goal with
  | |- context [SimpleDatabase.store _ _ ?x _] =>
      destruct (handler_store_effect "deleted_messages" "deleted message" x
                  (SimpleBot.getChannelInfo (discordgo.ChannelID m) b).2
                  "bot: deleted message")
        as (recs & Hrecs & Heff)
  end.
  exists recs. split; [by eapply at_most_one|]. intros name.
  by rewrite Heff, getChannelInfo_store.
Qed.

Lemma processEditedMessage_effect before after now b :
  ∃ recs, (length recs ≤ 1)%nat
    ∧ ∀ name, stored name (SimpleBot.processEditedMessage before after now b)
              = stored name b ++ (if decide (name = "edited_messages") then recs else []).
Proof.
  unfold SimpleBot.processEditedMessage.
  destruct before as [bm|]; [|apply no_effect].
  destruct after as [am|]; [|apply no_effect].
  destruct (discordgo.Author am) as [author|]; [|apply no_effect].
  destruct (discordgo.Bot author); [apply no_effect|].
  case_decide; [apply no_effect|].
  case_decide; [apply no_effect|]. cbv zeta.
  unfold SimpleDatabase.StoreEditedMessage.
  match goal with
  | |- context [SimpleDatabase.store _ _ ?x _] =>
      destruct (handler_store_effect "edited_messages" "edited message" x
                  (SimpleBot.getChannelInfo (discordgo.ChannelID am) b).2
                  "bot: edited message")
        as (recs & Hrecs & Heff)
  end.
  exists recs. split; [by eapply at_most_one|]. intros name.
  by rewrite Heff, getChannelInfo_store.
Qed.

Lemma processMessage_effect m now now' b :
  ∃ recs1 recs2, (length recs1 ≤ 1)%nat ∧ (length recs2 ≤ 1)%nat
    ∧ (∀ name, stored name (final (SimpleBot.processMessage m now now' b))
               = stored name b
                 ++ (if decide (name = "user_messages") then recs1 else [])
                 ++ (if decide (name = "mentions") then recs2 else []))
    ∧ (∀ x, x ∈ recs1 →
         ∃ author rec, discordgo.Author m = Some author ∧ x = mongo.DocMessage rec
                       ∧ message_of m author b rec)
    ∧ (∀ x, x ∈ recs2 →
         ∃ author rec, discordgo.Author m = Some author ∧ x = mongo.DocMention rec
                       ∧ discordgo.ID author ≠ SimpleBot.userID b
                       ∧ mention_of m author b rec).
Proof.
  assert (∀ b0 : SimpleBot.t,
            ∃ recs1 recs2 : list mongo.document,
              (length recs1 ≤ 1)%nat ∧ (length recs2 ≤ 1)%nat
              ∧ (∀ name, stored name b0
                         = stored name b0
                           ++ (if decide (name = "user_messages") then recs1 else [])
                           ++ (if decide (name = "mentions") then recs2 else []))
              ∧ (∀ x, x ∈ recs1 →
                   ∃ author rec, discordgo.Author m = Some author
                                 ∧ x = mongo.DocMessage rec ∧ message_of m author b rec)
              ∧ (∀ x, x ∈ recs2 →
                   ∃ author rec, discordgo.Author m = Some author
                                 ∧ x = mongo.DocMention rec
                                 ∧ discordgo.ID author ≠ SimpleBot.userID b
                                 ∧ mention_of m author b rec)) as Hnone.
  { intros b0. exists [], []. split; [simpl; lia|]. split; [simpl; lia|].
    split; [|split; by intros x Hx%elem_of_nil].
    intros. repeat case_decide; by rewrite !app_nil_r. }
  unfold SimpleBot.processMessage.
  destruct (discordgo.Author m) as [author|]; [|apply Hnone].
  destruct (discordgo.Bot author); [apply Hnone|].
  case_decide; [apply Hnone|]. clear Hnone. cbv zeta.
  unfold SimpleDatabase.StoreMessage.
  match goal with
  | |- context [SimpleDatabase.store _ _ ?x _] =>
      destruct (handler_store_effect "user_messages" "message" x
                  (SimpleBot.getChannelInfo (discordgo.ChannelID m) b).2 "bot: message")
        as (recs1 & Hrecs1 & Heff1);
      assert (∀ y, y ∈ recs1 →
                ∃ author0 rec, Some author = Some author0 ∧ y = mongo.DocMessage rec
                               ∧ message_of m author0 b rec) as Hrec1
  end.
  { intros y Hy. destruct Hrecs1 as [-> | ->]; [by apply elem_of_nil in Hy|].
    apply list_elem_of_singleton in Hy. subst y. eexists author, _.
    split; [done|]. split; [reflexivity|]. by repeat split. }
  match goal with
  | |- context [SimpleBot.isUserMentioned m ?b'] => set (b1 := b') in *
  end.
  assert (∀ name, stored name b1
                  = stored name b ++ (if decide (name = "user_messages") then recs1 else []))
    as Hb1.
  { intros name. subst b1. by rewrite Heff1, getChannelInfo_store. }
  assert (SimpleBot.userID b1 = SimpleBot.userID b) as Hu.
  { subst b1. by rewrite userID_after_store, getChannelInfo_userID. }
  assert (cache_ok b → cache_ok b1) as Hcache.
  { intros Hok. destruct (getChannelInfo_ok (discordgo.ChannelID m) b Hok) as (_ & Hok').
    subst b1. clear -Hok'. unfold cache_ok in *.
    by destruct (SimpleDatabase.store _ _ _ _) as [d [e|]]. }
  destruct (SimpleBot.isUserMentioned m b1) as [mentioned|].
  - destruct (mentioned && bool_decide (discordgo.ID author ≠ SimpleBot.userID b1)) eqn:Hm.
    + destruct (processMention_effect m author now' b1) as (recs2 & Hlen2 & Heff2 & Hrec2).
      exists recs1, recs2. split; [by eapply at_most_one|]. split; [done|].
      split; [|split; [done|]].
      * intros name. simpl. by rewrite Heff2, Hb1, app_assoc.
      * intros y Hy. destruct (Hrec2 y Hy) as (rec & -> & Hmen).
        exists author, rec. split; [done|]. split; [done|].
        apply andb_true_iff in Hm as [_ Hne%bool_decide_eq_true]. rewrite Hu in Hne.
        split; [done|]. unfold mention_of in *. rewrite Hu in Hmen.
        destruct Hmen as (M1 & M2 & M3 & M4 & M5 & M6 & M7).
        repeat (split; [done|]). intros Hok. by apply M7, Hcache.
    + exists recs1, []. split; [by eapply at_most_one|]. split; [simpl; lia|].
      split; [|split; [done|by intros x Hx%elem_of_nil]].
      intros name. simpl. rewrite Hb1. f_equal.
      destruct (decide (name = "mentions")); by rewrite app_nil_r.
  - exists recs1, []. split; [by eapply at_most_one|]. split; [simpl; lia|].
    split; [|split; [done|by intros x Hx%elem_of_nil]].
    intros name. simpl. rewrite Hb1. f_equal.
    destruct (decide (name = "mentions")); by rewrite app_nil_r.
Qed.

(** X11. Whatever the store answers, each handler of the bot writes to
    its own collections only and at most one document to each: the
    deletion handler to the deleted messages, the edit handler to the
    edited messages, the message handler to the messages and to the
    mentions.  Every other collection is afterwards as it was, and
    nothing already stored is changed or removed. *)
Theorem handlers_keep_to_their_collections (deleted before after : option discordgo.Message)
    (m : discordgo.Message) (now now' : Time) (b : SimpleBot.t) :
  (∃ recs, (length recs ≤ 1)%nat
     ∧ ∀ name, stored name (SimpleBot.processDeletedMessage deleted now b)
               = stored name b
                 ++ (if decide (name = "deleted_messages") then recs else []))
  ∧ (∃ recs, (length recs ≤ 1)%nat
       ∧ ∀ name, stored name (SimpleBot.processEditedMessage before after now b)
                 = stored name b
                   ++ (if decide (name = "edited_messages") then recs else []))
  ∧ (∃ recs1 recs2, (length recs1 ≤ 1)%nat ∧ (length recs2 ≤ 1)%nat
       ∧ ∀ name, stored name (final (SimpleBot.processMessage m now now' b))
                 = stored name b
                   ++ (if decide (name = "user_messages") then recs1 else [])
                   ++ (if decide (name = "mentions") then recs2 else [])).
Proof.
  split; [apply processDeletedMessage_effect|].
  split; [apply processEditedMessage_effect|].
  destruct (processMessage_effect m now now' b) as (recs1 & recs2 & H1 & H2 & H3 & _).
  by exists recs1, recs2.
Qed.

(** X12. What the message handler writes.  A document that is among the
    messages after the handler ran was there before or is the record of
    this message: it carries the message id, the author, the content and
    the channel, the own account as instance, and is flagged as the own
    account's exactly when the author is the own account.  A document
    that is among the mentions afterwards was there before or is the
    mention record of this message: its author is not the own account,
    its target is the own account, and its channel type is 0, 1 or 3,
    the 3 going with the group flag when the cache is well formed.  A
    message of the own account never adds a mention. *)
Theorem message_handler_records (m : discordgo.Message) (now now' : Time)
    (b : SimpleBot.t) :
  let b' := final (SimpleBot.processMessage m now now' b) in
  (∀ x, x ∈ stored "user_messages" b' →
     x ∈ stored "user_messages" b
     ∨ ∃ author rec, discordgo.Author m = Some author ∧ x = mongo.DocMessage rec
                     ∧ message_of m author b rec)
  ∧ (∀ x, x ∈ stored "mentions" b' →
       x ∈ stored "mentions" b
       ∨ ∃ author rec, discordgo.Author m = Some author ∧ x = mongo.DocMention rec
                       ∧ discordgo.ID author ≠ SimpleBot.userID b
                       ∧ mention_of m author b rec)
  ∧ (∀ author, discordgo.Author m = Some author →
               discordgo.ID author = SimpleBot.userID b →
               stored "mentions" b' = stored "mentions" b).
Proof.
  intros b'. subst b'.
  destruct (processMessage_effect m now now' b)
    as (recs1 & recs2 & _ & _ & Heff & Hrec1 & Hrec2).
  split; [|split].
  - intros x Hx. rewrite Heff in Hx. simpl in Hx. rewrite app_nil_r in Hx.
    apply elem_of_app in Hx as [Hx|Hx]; [by left|right; by apply Hrec1].
  - intros x Hx. rewrite Heff in Hx. simpl in Hx.
    apply elem_of_app in Hx as [Hx|Hx]; [by left|right; by apply Hrec2].
  - intros author Ha Hown. rewrite Heff. simpl.
    destruct recs2 as [|y recs2]; [by rewrite app_nil_r|].
    destruct (Hrec2 y) as (author' & rec & Ha' & _ & Hne & _); [by left|].
    congruence.
Qed.

Lemma InsertOne_accept name x c :
  mongo.connected c = true → no_failures (mongo.server c) →
  mongo.InsertOne name x c
  = (mongo.with_collection name (mongo.collection name (mongo.server c) ++ [x]) c, None).
Proof.
  intros Hc [Hr Hv]. unfold mongo.InsertOne. by rewrite Hc, Hr, Hv.
Qed.

Lemma simple_store_accept name what x d :
  mongo.connected (SimpleDatabase.client d) = true →
  no_failures (mongo.server (SimpleDatabase.client d)) →
  SimpleDatabase.store name what x d
  = (SimpleDatabase.mk
       (mongo.with_collection name
          (mongo.collection name (mongo.server (SimpleDatabase.client d)) ++ [x])
          (SimpleDatabase.client d))
       (SimpleDatabase.log d), None).
Proof.
  intros Hc Hnf. unfold SimpleDatabase.store. by rewrite InsertOne_accept.
Qed.

Lemma isUserMentioned_direct m b :
  SimpleBot.userID b ≠ "" →
  (∃ user, user ∈ discordgo.Mentions m ∧ discordgo.ID user = SimpleBot.userID b) →
  SimpleBot.isUserMentioned m b = Some true.
Proof.
  intros Hid (user & Hin & Hu). unfold SimpleBot.isUserMentioned.
  rewrite decide_False by done.
  assert (existsb (λ user, bool_decide (discordgo.ID user = SimpleBot.userID b))
            (discordgo.Mentions m) = true) as ->; [|done].
  apply existsb_exists. exists user. split; [by apply list_elem_of_In|].
  by apply bool_decide_eq_true.
Qed.

Lemma handler_store_accept name what x b0 what' :
  mongo.connected (SimpleDatabase.client (SimpleBot.database b0)) = true →
  no_failures (mongo.server (SimpleDatabase.client (SimpleBot.database b0))) →
  let s := SimpleDatabase.store name what x (SimpleBot.database b0) in
  let b' := match s.2 with
            | Some err => SimpleBot.logf (LogErrorStore what' err)
                            (SimpleBot.set_database s.1 b0)
            | None => SimpleBot.set_database s.1 b0
            end in
  (∀ name', stored name' b' = stored name' b0 ++ (if decide (name' = name) then [x] else []))
  ∧ mongo.connected (SimpleDatabase.client (SimpleBot.database b')) = true
  ∧ no_failures (mongo.server (SimpleDatabase.client (SimpleBot.database b')))
  ∧ SimpleBot.userID b' = SimpleBot.userID b0
  ∧ SimpleBot.channelCache b' = SimpleBot.channelCache b0.
Proof.
  intros Hc Hnf. rewrite simple_store_accept by done. cbn [fst snd].
  split; [|by destruct Hnf].
  intros name'. unfold stored. simpl SimpleBot.database. simpl SimpleDatabase.client.
  case_decide as Hn.
  - subst. by rewrite collection_with_collection.
  - rewrite app_nil_r. by apply collection_with_collection_ne.
Qed.

Lemma processMention_accept m author now b :
  SimpleBot.userID b ≠ "" →
  mongo.connected (SimpleDatabase.client (SimpleBot.database b)) = true →
  no_failures (mongo.server (SimpleDatabase.client (SimpleBot.database b))) →
  ∃ x, ∀ name, stored name (SimpleBot.processMention m author now b)
               = stored name b ++ (if decide (name = "mentions") then [x] else []).
Proof.
  intros Hid Hc Hnf. unfold SimpleBot.processMention. rewrite decide_False by done.
  cbv zeta. unfold SimpleDatabase.StoreMention.
  match goal with
  | |- context [SimpleDatabase.store _ _ ?x _] =>
      destruct (handler_store_accept "mentions" "mention" x
                  (SimpleBot.getChannelInfo (discordgo.ChannelID m) b).2 "bot: mention")
        as (Heff & _); [by rewrite getChannelInfo_client..|]; exists x
  end.
  intros name. cbv zeta in Heff. by rewrite Heff, getChannelInfo_store.
Qed.

(** X13. A mention is recorded.  When another account that is not a bot
    sends a message that mentions the own account, and the store takes
    every write, the message handler returns after adding exactly one
    document to the messages and one to the mentions: the message
    record, not flagged as the own account's, and the mention record of
    this message, whose target is the own account. *)
Theorem mention_recorded (m : discordgo.Message) (author : discordgo.User)
    (now now' : Time) (b : SimpleBot.t) :
  discordgo.Author m = Some author →
  discordgo.Bot author = false →
  SimpleBot.userID b ≠ "" →
  discordgo.ID author ≠ SimpleBot.userID b →
  (∃ user, user ∈ discordgo.Mentions m ∧ discordgo.ID user = SimpleBot.userID b) →
  mongo.connected (SimpleDatabase.client (SimpleBot.database b)) = true →
  no_failures (mongo.server (SimpleDatabase.client (SimpleBot.database b))) →
  ∃ b' msgRec mentionRec,
    SimpleBot.processMessage m now now' b = Returns b'
    ∧ stored "user_messages" b' = stored "user_messages" b ++ [mongo.DocMessage msgRec]
    ∧ stored "mentions" b' = stored "mentions" b ++ [mongo.DocMention mentionRec]
    ∧ message_of m author b msgRec
    ∧ MessageData.IsSelf msgRec = false
    ∧ mention_of m author b mentionRec.
Proof.
  intros Ha Hbot Hid Hother Hment Hconn Hnf.
  unfold SimpleBot.processMessage. rewrite Ha, Hbot.
  rewrite decide_False by done. cbv zeta.
  unfold SimpleDatabase.StoreMessage.
  match goal with
  | |- context [SimpleDatabase.store _ _ ?x _] =>
      destruct (handler_store_accept "user_messages" "message" x
                  (SimpleBot.getChannelInfo (discordgo.ChannelID m) b).2 "bot: message")
        as (Heff1 & Hconn1 & Hnf1 & Hu1 & Hcache1); [by rewrite getChannelInfo_client..|]
  end.
  cbv zeta in Heff1, Hconn1, Hnf1, Hu1, Hcache1.
  match goal with
  | |- context [SimpleBot.isUserMentioned m ?b'] => set (b1 := b') in *
  end.
  rewrite getChannelInfo_userID in Hu1.
  rewrite isUserMentioned_direct by (by rewrite Hu1).
  rewrite Hu1, bool_decide_eq_true_2 by done. simpl andb. cbv iota.
  destruct (processMention_accept m author now' b1) as (x2 & Heff2);
    [by rewrite Hu1|done|done|].
  destruct (processMention_effect m author now' b1) as (recs & _ & Heff2' & Hrecs).
  assert (recs = [x2]) as ->.
  { pose proof (Heff2 "mentions") as E1. rewrite (Heff2' "mentions") in E1.
    simpl in E1. by apply app_inv_head in E1. }
  destruct (Hrecs x2) as (rec & -> & Hof); [by left|].
  eexists _, _, rec. split; [reflexivity|].
  split; [|split; [|split; [|split]]].
  - rewrite Heff2, Heff1, getChannelInfo_store. simpl. rewrite app_nil_r. reflexivity.
  - rewrite Heff2, Heff1, getChannelInfo_store. simpl. by rewrite app_nil_r.
  - by repeat split.
  - simpl. by apply bool_decide_eq_false.
  - unfold mention_of in *. rewrite Hu1 in Hof.
    destruct Hof as (M1 & M2 & M3 & M4 & M5 & M6 & M7).
    repeat (split; [done|]). intros Hok. apply M7.
    destruct (getChannelInfo_ok (discordgo.ChannelID m) b Hok) as (_ & Hok').
    unfold cache_ok in *. by rewrite Hcache1.
Qed.

Lemma mention_recorded_witness :
  ∃ b' msgRec mentionRec,
    SimpleBot.processMessage (message_mentioning "7") 100 101 bot1 = Returns b'
    ∧ stored "user_messages" b' = stored "user_messages" bot1 ++ [mongo.DocMessage msgRec]
    ∧ stored "mentions" b' = stored "mentions" bot1 ++ [mongo.DocMention mentionRec]
    ∧ message_of (message_mentioning "7") (discordgo.mkUser "7" "name" false) bot1 msgRec
    ∧ MessageData.IsSelf msgRec = false
    ∧ mention_of (message_mentioning "7") (discordgo.mkUser "7" "name" false) bot1
        mentionRec.
Proof.
  apply (mention_recorded (message_mentioning "7") (discordgo.mkUser "7" "name" false)
           100 101 bot1);
    [reflexivity | reflexivity | done | done | | reflexivity | by split].
  exists (discordgo.mkUser "42" "me" false). split; [by left|reflexivity].
Defined.

(** X14. Which edits are recorded.  On a store that takes every write,
    an edit is recorded, as one document with the content before and
    after, when the message before the edit is known, the author is
    another account that is not a bot, the own account is known and the
    content has changed.  In every other case, among them an edit that
    changes only the attachments and an edit of a message whose earlier
    state is not known, the handler leaves the bot and the store as they
    were. *)
Theorem edit_recorded (before after : option discordgo.Message) (now : Time)
    (b : SimpleBot.t) :
  mongo.connected (SimpleDatabase.client (SimpleBot.database b)) = true →
  no_failures (mongo.server (SimpleDatabase.client (SimpleBot.database b))) →
  let b' := SimpleBot.processEditedMessage before after now b in
  (∀ bm am author,
     before = Some bm → after = Some am → discordgo.Author am = Some author →
     discordgo.Bot author = false → SimpleBot.userID b ≠ "" →
     discordgo.ID author ≠ SimpleBot.userID b →
     discordgo.Content bm ≠ discordgo.Content am →
     ∃ rec,
       stored "edited_messages" b' = stored "edited_messages" b ++ [mongo.DocEdited rec]
       ∧ EditedMessageData.MessageID rec = discordgo.MsgID am
       ∧ EditedMessageData.UserID rec = discordgo.ID author
       ∧ EditedMessageData.BeforeContent rec = discordgo.Content bm
       ∧ EditedMessageData.AfterContent rec = discordgo.Content am
       ∧ EditedMessageData.ChannelID rec = discordgo.ChannelID am)
  ∧ (b' ≠ b →
     ∃ bm am author,
       before = Some bm ∧ after = Some am ∧ discordgo.Author am = Some author
       ∧ discordgo.Bot author = false ∧ SimpleBot.userID b ≠ ""
       ∧ discordgo.ID author ≠ SimpleBot.userID b
       ∧ discordgo.Content bm ≠ discordgo.Content am).
Proof.
  intros Hconn Hnf b'. subst b'. split.
  - intros bm am author -> -> Ha Hbot Hid Hother Hchanged.
    unfold SimpleBot.processEditedMessage. rewrite Ha, Hbot.
    rewrite decide_False by (intros [?|?]; done).
    rewrite decide_False by done. cbv zeta.
    unfold SimpleDatabase.StoreEditedMessage.
    match goal with
    | |- context [SimpleDatabase.store _ _ ?x _] =>
        destruct (handler_store_accept "edited_messages" "edited message" x
                    (SimpleBot.getChannelInfo (discordgo.ChannelID am) b).2
                    "bot: edited message")
          as (Heff & _); [by rewrite getChannelInfo_client..|]
    end.
    cbv zeta in Heff. eexists. rewrite Heff, getChannelInfo_store. simpl.
    split; [reflexivity|]. by repeat split.
  - intros Hne. unfold SimpleBot.processEditedMessage in Hne.
    destruct before as [bm|]; [|done]. destruct after as [am|]; [|done].
    destruct (discordgo.Author am) as [author|] eqn:Ha; [|done].
    destruct (discordgo.Bot author) eqn:Hbot; [done|].
    case_decide as Hown; [done|]. case_decide as Hsame; [done|].
    exists bm, am, author. repeat (split; [done|]).
    split; [intros ?; apply Hown; by left|]. split; [|done].
    intros ?. apply Hown. by right.
Qed.

Lemma edit_recorded_witness :
  ∃ rec,
    stored "edited_messages"
      (SimpleBot.processEditedMessage
         (Some (discordgo.mkMessage "m1" "c1" "hello" None [] [] None))
         (Some (discordgo.mkMessage "m1" "c1" "hello!"
                  (Some (discordgo.mkUser "7" "name" false)) [] [] None))
         100 bot1)
    = stored "edited_messages" bot1 ++ [mongo.DocEdited rec]
    ∧ EditedMessageData.MessageID rec = "m1"
    ∧ EditedMessageData.UserID rec = "7"
    ∧ EditedMessageData.BeforeContent rec = "hello"
    ∧ EditedMessageData.AfterContent rec = "hello!"
    ∧ EditedMessageData.ChannelID rec = "c1".
Proof.
  destruct (edit_recorded
              (Some (discordgo.mkMessage "m1" "c1" "hello" None [] [] None))
              (Some (discordgo.mkMessage "m1" "c1" "hello!"
                       (Some (discordgo.mkUser "7" "name" false)) [] [] None))
              100 bot1) as (H & _); [reflexivity | by split |].
  apply (H (discordgo.mkMessage "m1" "c1" "hello" None [] [] None)
           (discordgo.mkMessage "m1" "c1" "hello!"
              (Some (discordgo.mkUser "7" "name" false)) [] [] None)
           (discordgo.mkUser "7" "name" false));
    [reflexivity | reflexivity | reflexivity | reflexivity | done | done | done].
Defined.

(** ** The commands that query the store *)

Lemma clampLimit_bounds limit : 1 ≤ commands.clampLimit limit ≤ 1000.
Proof. unfold commands.clampLimit. repeat case_bool_decide; lia. Qed.


(** X15. Whatever the arguments, the snipe, the editsnipe and the
    lastping command ask the store for at least 1 and at most 1000 rows,
    so never for the unlimited answer a limit of 0 stands for; the rows
    they get are at most that many, newest first, and decoded from
    documents of their collection.  Without arguments the snipe commands
    ask for one row and lastping for five. *)
Theorem command_queries_bounded (s : commands.Rest) (self channel : string)
    (args : list string) (db : SimpleDatabase.t) :
  let q := commands.snipeQuery s self channel args in
  let p := commands.lastpingQuery self args in
  1 ≤ q.2 ≤ 1000
  ∧ 1 ≤ p.2 ≤ 1000
  ∧ answer_ok SimpleDeletedMessageData.DeletedAt SimpleDatabase.decodeDeleted
      "deleted_messages" q.2 (mongo.server (SimpleDatabase.client db))
      (commands.SimpleSnipeCommand.Execute s self channel args db).1
  ∧ answer_ok SimpleEditedMessageData.EditedAt SimpleDatabase.decodeEdited
      "edited_messages" q.2 (mongo.server (SimpleDatabase.client db))
      (commands.SimpleEditSnipeCommand.Execute s self channel args db).1
  ∧ answer_ok SimpleMentionData.CreatedAt SimpleDatabase.decodeMention
      "mentions" p.2 (mongo.server (SimpleDatabase.client db))
      (commands.SimpleLastPingCommand.Execute self args db).1
  ∧ (args = [] → q.2 = 1 ∧ p.2 = 5).
Proof.
  intros q p.
  assert (1 ≤ q.2 ≤ 1000) as Hq by apply clampLimit_bounds.
  assert (1 ≤ p.2 ≤ 1000) as Hp by apply clampLimit_bounds.
  split; [done|]. split; [done|].
  split; [|split; [|split]].
  - apply Simple_find_sorted_ok; [|fold q; lia].
    intros [] a; simpl; intros; by simplify_eq.
  - apply Simple_find_sorted_ok; [|fold q; lia].
    intros [] a; simpl; intros; by simplify_eq.
  - apply Simple_find_sorted_ok; [|fold p; lia].
    intros [] a; simpl; intros; by simplify_eq.
  - by intros ->.
Qed.




Lemma bytes_app a b : bytes (a +:+ b) = bytes a ++ bytes b.
Proof.
  unfold bytes. induction a as [|c a IH]; [done|].
  change (String c a +:+ b) with (String c (a +:+ b)).
  cbn [String.list_ascii_of_string]. by rewrite IH.
Qed.

Lemma str_bytes s : str (bytes s) = s.
Proof. apply String.string_of_list_ascii_of_string. Qed.

Lemma trimLeft_in cutset pre l :
  Forall (λ c, c ∈ cutset) pre →
  strings.trimLeft cutset (pre ++ l) = strings.trimLeft cutset l.
Proof.
  induction 1 as [|c pre Hc _ IH]; [done|]. simpl. by rewrite bool_decide_eq_true_2.
Qed.

Lemma trimLeft_notin cutset l k :
  Forall (λ c, c ∉ cutset) l → l ≠ [] →
  strings.trimLeft cutset (l ++ k) = l ++ k.
Proof.
  intros Hl Hne. destruct Hl as [|c l Hc _]; [done|]. simpl.
  by rewrite bool_decide_eq_false_2.
Qed.

Lemma Trim_wrapped cutset pre post l :
  Forall (λ c, c ∈ cutset) pre → Forall (λ c, c ∈ cutset) post →
  Forall (λ c, c ∉ cutset) l →
  strings.trimLeft cutset (strings.trimRight cutset (pre ++ l ++ post)) = l.
Proof.
  intros Hpre Hpost Hl. unfold strings.trimRight.
  rewrite !reverse_app, <- app_assoc.
  rewrite trimLeft_in by (by apply Forall_reverse).
  destruct l as [|c l].
  - rewrite reverse_nil, app_nil_l.
    rewrite <- (app_nil_r (reverse pre)), trimLeft_in by (by apply Forall_reverse).
    done.
  - rewrite trimLeft_notin.
    + rewrite reverse_app, !reverse_involutive, trimLeft_in by done.
      rewrite <- (app_nil_r (c :: l)). by rewrite trimLeft_notin, app_nil_r.
    + by apply Forall_reverse.
    + intros Hr. apply (f_equal reverse) in Hr. by rewrite reverse_involutive in Hr.
Qed.

Lemma HasPrefix_app p s : strings.HasPrefix (p +:+ s) p = true.
Proof.
  unfold strings.HasPrefix. apply bool_decide_eq_true. rewrite bytes_app.
  by apply prefix_app_r.
Qed.

Lemma HasSuffix_app p s : strings.HasSuffix (s +:+ p) p = true.
Proof.
  unfold strings.HasSuffix. apply bool_decide_eq_true. rewrite bytes_app.
  by apply suffix_app_r.
Qed.

(** X17. A mention in the arguments selects its id.  For an id that has
    none of the bytes of the mention syntax, such as the digits of a
    Discord id, the single argument [<@id>] or [<@!id>] makes the
    argument loop set the user to [id], and the single argument [<#id>]
    makes it set the channel to [id]; nothing else changes. *)
Theorem mention_argument (s : commands.Rest) (id : string) (st : commands.parsed) :
  Forall (λ c, c ∉ bytes "<@!>#") (bytes id) →
  commands.parseArgs s ["<@" +:+ id +:+ ">"] st
  = commands.mkParsed id (commands.channelID st) (commands.limit st)
  ∧ commands.parseArgs s ["<@!" +:+ id +:+ ">"] st
    = commands.mkParsed id (commands.channelID st) (commands.limit st)
  ∧ commands.parseArgs s ["<#" +:+ id +:+ ">"] st
    = commands.mkParsed (commands.userID st) id (commands.limit st).
Proof.
  intros Hid.
  assert (Forall (λ c, c ∉ bytes "<@!>") (bytes id)) as Hu.
  { eapply Forall_impl; [exact Hid|]. intros c Hc Hin. apply Hc.
    unfold bytes in Hin |- *. simpl in Hin |- *.
    rewrite !elem_of_cons, elem_of_nil in Hin. rewrite !elem_of_cons. tauto. }
  assert (Forall (λ c, c ∉ bytes "<#>") (bytes id)) as Hch.
  { eapply Forall_impl; [exact Hid|]. intros c Hc Hin. apply Hc.
    unfold bytes in Hin |- *. simpl in Hin |- *.
    rewrite !elem_of_cons, elem_of_nil in Hin. rewrite !elem_of_cons. tauto. }
  assert (∀ pre post : string, strings.HasSuffix (pre +:+ id +:+ post) post = true)
    as Hsuf.
  { intros pre post. unfold strings.HasSuffix. apply bool_decide_eq_true.
    rewrite !bytes_app, app_assoc. by apply suffix_app_r. }
  assert (strings.Trim ("<@" +:+ id +:+ ">") "<@!>" = id) as T1.
  { unfold strings.Trim. rewrite !bytes_app, Trim_wrapped; [apply str_bytes| | |done];
      by apply (bool_decide_unpack _). }
  assert (strings.Trim ("<@!" +:+ id +:+ ">") "<@!>" = id) as T2.
  { unfold strings.Trim. rewrite !bytes_app, Trim_wrapped; [apply str_bytes| | |done];
      by apply (bool_decide_unpack _). }
  assert (strings.Trim ("<#" +:+ id +:+ ">") "<#>" = id) as T3.
  { unfold strings.Trim. rewrite !bytes_app, Trim_wrapped; [apply str_bytes| | |done];
      by apply (bool_decide_unpack _). }
  assert (strings.HasPrefix ("<@!" +:+ id +:+ ">") "<@" = true) as P2.
  { unfold strings.HasPrefix. apply bool_decide_eq_true. rewrite !bytes_app.
    by exists (bytes "!" ++ bytes id ++ bytes ">"). }
  assert (strings.HasPrefix ("<#" +:+ id +:+ ">") "<@" = false) as P3.
  { unfold strings.HasPrefix. apply bool_decide_eq_false. rewrite !bytes_app.
    intros [k Hk]. cbn in Hk. by simplify_eq. }
  split; [|split]; unfold commands.parseArgs.
  - rewrite HasPrefix_app, Hsuf, T1. simpl. by case_decide.
  - rewrite P2, Hsuf, T2. simpl. by case_decide.
  - rewrite P3, HasPrefix_app, Hsuf, T3. simpl. by case_decide.
Qed.

Lemma mention_argument_witness :
  commands.parseArgs (commands.mkRest (λ _, None) (λ _, None))
    ["<@" +:+ "123456789012345678" +:+ ">"] (commands.mkParsed "" "c1" 1)
  = commands.mkParsed "123456789012345678" "c1" 1.
Proof.
  destruct (mention_argument (commands.mkRest (λ _, None) (λ _, None))
              "123456789012345678" (commands.mkParsed "" "c1" 1)) as (H & _);
    [|exact H].
  apply (bool_decide_unpack _). by vm_compute.
Defined.

(** ** The helpers of the commands *)

Lemma bytes_str l : bytes (str l) = l.
Proof. apply String.list_ascii_of_string_of_list_ascii. Qed.

Lemma replace_byte c s :
  strings.replace [c] [] 0 s = filter (λ a, a ≠ c) s.
Proof.
  induction s as [|a s IH]; [done|]. cbn [strings.replace]. case_bool_decide as Hp.
  - apply prefix_cons_inv_1 in Hp. subst a.
    by rewrite app_nil_l, filter_cons_False by (by intros ?).
  - rewrite filter_cons_True; [by rewrite IH|].
    intros ->. apply Hp. apply prefix_cons, prefix_nil.
Qed.

Lemma replace_three c s : ∀ k,
  Forall (λ a, a = c) (take k s) →
  filter (λ a, a ≠ c) (strings.replace [c; c; c] [] k s) = filter (λ a, a ≠ c) s.
Proof.
  induction s as [|a s IH]; intros k Hk; [done|].
  destruct k as [|k]; cbn [strings.replace].
  - case_bool_decide as Hp.
    + destruct Hp as [rest Hp]. injection Hp as -> ->.
      rewrite app_nil_l, (filter_cons_False _ c) by (by intros ?).
      apply IH. simpl. by repeat constructor.
    + rewrite !filter_cons. case_decide; [f_equal|]; apply IH; constructor.
  - simpl in Hk. apply Forall_cons in Hk as [-> Hk].
    rewrite filter_cons_False by (by intros ?). by apply IH.
Qed.

Lemma CleanContent_bytes content :
  bytes (commands.CleanContent content) = filter (λ c, c ∉ markup) (bytes content).
Proof.
  unfold commands.CleanContent, strings.ReplaceAll. rewrite !bytes_str.
  change (bytes commands.backslash) with [ascii_of_nat 92].
  change (bytes "```") with ["`"; "`"; "`"]%char.
  change (bytes "`") with ["`"]%char.
  change (bytes "|") with ["|"]%char.
  change (bytes "*") with ["*"]%char.
  change (bytes "") with (@nil ascii).
  rewrite !replace_byte, replace_three by constructor.
  rewrite !list_filter_filter. apply list_filter_iff. intros c.
  unfold markup. change (bytes commands.backslash ++ bytes "`|*")
    with [ascii_of_nat 92; "`"; "|"; "*"]%char.
  rewrite !not_elem_of_cons. pose proof (not_elem_of_nil c). tauto.
Qed.

Lemma CleanContent_clean content :
  Forall (λ c, c ∉ markup) (bytes (commands.CleanContent content)).
Proof.
  rewrite CleanContent_bytes. apply Forall_forall. intros c Hc.
  rewrite list_elem_of_filter in Hc. by destruct Hc.
Qed.

(** X18. [CleanContent] removes every backslash, backquote, bar and star
    and nothing else: the bytes of its result are the bytes of the
    content that are none of these four, in their order (the separate
    replacement of the triple backquote changes nothing in the result).
    So the result is no longer than the content, holds none of the four
    bytes, and cleaning it again leaves it as it is. *)
Theorem CleanContent_removes_markup (content : string) :
  bytes (commands.CleanContent content) = filter (λ c, c ∉ markup) (bytes content)
  ∧ Forall (λ c, c ∉ markup) (bytes (commands.CleanContent content))
  ∧ len (bytes (commands.CleanContent content)) ≤ len (bytes content)
  ∧ commands.CleanContent (commands.CleanContent content) = commands.CleanContent content.
Proof.
  split; [apply CleanContent_bytes|]. split; [apply CleanContent_clean|]. split.
  - rewrite CleanContent_bytes. unfold len.
    pose proof (length_filter (λ c, c ∉ markup) (bytes content)). lia.
  - transitivity (str (bytes (commands.CleanContent (commands.CleanContent content))));
      [by rewrite str_bytes|].
    rewrite (CleanContent_bytes (commands.CleanContent content)), CleanContent_bytes,
      list_filter_filter.
    transitivity (str (bytes (commands.CleanContent content))); [|by rewrite str_bytes].
    rewrite CleanContent_bytes. f_equal. apply list_filter_iff. tauto.
Qed.

Lemma TruncateContent_cases content maxLength :
  commands.TruncateContent content maxLength
  = if bool_decide (len (bytes content) ≤ maxLength) then Some content
    else if bool_decide (maxLength < 3) then None
    else Some (str (take (Z.to_nat (maxLength - 3)) (bytes content) ++ bytes "...")).
Proof.
  unfold commands.TruncateContent. repeat case_bool_decide; try lia; try done.
  f_equal. rewrite <- (str_bytes (_ +:+ _)). by rewrite bytes_app, bytes_str.
Qed.

(** X19. [TruncateContent] panics exactly when the content is longer
    than the maximum and the maximum is below 3.  Otherwise a content
    within the maximum is returned as it is, and a longer one is cut to
    its first [maxLength - 3] bytes followed by three dots, which makes
    exactly [maxLength] bytes; truncating the result again changes
    nothing.  So what the commands show of a content, the truncation to
    a maximum of at least 3 of the cleaned content, always exists, is
    within the maximum and holds no backslash, backquote, bar or star. *)
Theorem TruncateContent_bounded (content : string) (maxLength : Z) :
  (commands.TruncateContent content maxLength = None
   ↔ maxLength < 3 ∧ len (bytes content) > maxLength)
  ∧ (∀ r, commands.TruncateContent content maxLength = Some r →
       (len (bytes content) ≤ maxLength → r = content)
       ∧ (len (bytes content) > maxLength →
          bytes r = take (Z.to_nat (maxLength - 3)) (bytes content) ++ bytes "..."
          ∧ len (bytes r) = maxLength)
       ∧ len (bytes r) ≤ maxLength
       ∧ commands.TruncateContent r maxLength = Some r)
  ∧ (3 ≤ maxLength →
     ∃ r, commands.TruncateContent (commands.CleanContent content) maxLength = Some r
          ∧ len (bytes r) ≤ maxLength
          ∧ Forall (λ c, c ∉ markup) (bytes r)).
Proof.
  split; [|split].
  - rewrite TruncateContent_cases. repeat case_bool_decide; split; try done; lia.
  - intros r Hr. rewrite TruncateContent_cases in Hr.
    case_bool_decide as Hlen.
    + simplify_eq. split; [done|]. split; [lia|]. split; [done|].
      rewrite TruncateContent_cases. by rewrite bool_decide_eq_true_2.
    + case_bool_decide as H3; [done|]. simplify_eq.
      assert (len (take (Z.to_nat (maxLength - 3)) (bytes content) ++ bytes "...")
              = maxLength) as Hl.
      { unfold len in *. rewrite length_app, length_take. simpl. lia. }
      rewrite bytes_str. split; [lia|]. split; [done|]. split; [lia|].
      rewrite TruncateContent_cases, bytes_str. rewrite bool_decide_eq_true_2; [done|lia].
  - intros H3. rewrite TruncateContent_cases.
    pose proof (CleanContent_clean content) as Hclean.
    case_bool_decide as Hlen; [by eexists|].
    rewrite bool_decide_eq_false_2 by lia. eexists. split; [done|].
    rewrite bytes_str. split.
    + unfold len in *. rewrite length_app, length_take. simpl. lia.
    + apply Forall_app. split; [by apply Forall_take|].
      by apply (bool_decide_unpack _).
Qed.


Lemma RemoveDuplicates_loop_spec slice : ∀ seen result,
  (∀ x, default false (seen !! x) = true ↔ x ∈ result) →
  commands.RemoveDuplicates_loop slice seen result
  = result ++ filter (λ y, y ∉ result) (commands.RemoveDuplicates slice).
Proof.
  induction slice as [|x l IH]; intros seen result Hseen.
  { by rewrite app_nil_r. }
  assert (commands.RemoveDuplicates (x :: l)
          = x :: filter (λ y, y ≠ x) (commands.RemoveDuplicates l)) as Hcons.
  { unfold commands.RemoveDuplicates at 1. simpl. rewrite lookup_empty. simpl.
    rewrite (IH (<[x:=true]> ∅) [x]).
    - simpl. f_equal. apply list_filter_iff. intros y.
      rewrite not_elem_of_cons. pose proof (not_elem_of_nil y). tauto.
    - intros y. rewrite list_elem_of_singleton. destruct (decide (y = x)) as [->|Hne].
      + by rewrite lookup_insert_eq.
      + rewrite lookup_insert_ne, lookup_empty by done. simpl. split; [done|tauto]. }
  rewrite Hcons. simpl. destruct (default false (seen !! x)) eqn:Hx; simpl.
  - apply Hseen in Hx. rewrite IH by done. f_equal.
    rewrite filter_cons_False by tauto. rewrite list_filter_filter.
    apply list_filter_iff. intros y. split; [|tauto]. intros Hy. split; [done|].
    by intros ->.
  - assert (x ∉ result) as Hnot.
    { intros Hin. apply Hseen in Hin. congruence. }
    rewrite IH.
    + rewrite <- app_assoc. f_equal. simpl. rewrite filter_cons_True by done. f_equal.
      rewrite list_filter_filter. apply list_filter_iff. intros y.
      rewrite not_elem_of_app, list_elem_of_singleton. tauto.
    + intros y. rewrite elem_of_app, list_elem_of_singleton.
      destruct (decide (y = x)) as [->|Hne].
      * rewrite lookup_insert_eq. simpl. tauto.
      * rewrite lookup_insert_ne by done. rewrite Hseen. tauto.
Qed.

Lemma RemoveDuplicates_cons x l :
  commands.RemoveDuplicates (x :: l)
  = x :: filter (λ y, y ≠ x) (commands.RemoveDuplicates l).
Proof.
  unfold commands.RemoveDuplicates at 1. simpl. rewrite lookup_empty. simpl.
  rewrite (RemoveDuplicates_loop_spec l (<[x:=true]> ∅) [x]).
  - simpl. f_equal. apply list_filter_iff. intros y.
    rewrite not_elem_of_cons. pose proof (not_elem_of_nil y). tauto.
  - intros y. rewrite list_elem_of_singleton. destruct (decide (y = x)) as [->|Hne].
    + by rewrite lookup_insert_eq.
    + rewrite lookup_insert_ne, lookup_empty by done. simpl. split; [done|tauto].
Qed.

(** X20. [RemoveDuplicates] keeps the first occurrence of every string
    and drops the later ones: the result for [x] followed by [l] is [x]
    followed by the result for [l] without [x].  So the result has no
    duplicates, has exactly the strings of the slice, in the order of
    the slice, is the slice itself when that has no duplicates, and is
    left as it is by a second pass. *)
Theorem RemoveDuplicates_first_occurrences (slice : list string) :
  let result := commands.RemoveDuplicates slice in
  (∀ x l, commands.RemoveDuplicates (x :: l)
          = x :: filter (λ y, y ≠ x) (commands.RemoveDuplicates l))
  ∧ NoDup result
  ∧ (∀ x, x ∈ result ↔ x ∈ slice)
  ∧ result `sublist_of` slice
  ∧ (NoDup slice → result = slice)
  ∧ commands.RemoveDuplicates result = result.
Proof.
  intros result. subst result.
  assert (∀ l, NoDup l → commands.RemoveDuplicates l = l) as Hid.
  { induction l as [|x l IH]; [done|]. intros [Hx Hl]%NoDup_cons.
    rewrite RemoveDuplicates_cons, IH by done. f_equal.
    clear -Hx. induction l as [|y l IH]; [done|].
    apply not_elem_of_cons in Hx as [Hne Hx].
    rewrite filter_cons_True by (by intros ->). f_equal. by apply IH. }
  assert (NoDup (commands.RemoveDuplicates slice)
          ∧ (∀ x, x ∈ commands.RemoveDuplicates slice ↔ x ∈ slice)
          ∧ commands.RemoveDuplicates slice `sublist_of` slice) as (Hnd & Hel & Hsub).
  { induction slice as [|x l (IH1 & IH2 & IH3)].
    { split; [constructor|]. split; [done|]. done. }
    rewrite RemoveDuplicates_cons. split; [|split].
    - apply NoDup_cons. split; [|by apply NoDup_filter].
      rewrite list_elem_of_filter. tauto.
    - intros y. rewrite !elem_of_cons, list_elem_of_filter, IH2.
      destruct (decide (y = x)); tauto.
    - apply sublist_skip. etrans; [apply sublist_filter|done]. }
  split; [apply RemoveDuplicates_cons|]. split; [done|]. split; [done|].
  split; [done|]. split; [apply Hid|by apply Hid].
Qed.

Lemma ChunkSlice_loop_returns (slice : list string) (chunkSize : Z) :
  0 < chunkSize →
  ∀ (n fuel : nat) i chunks,
    0 ≤ i → (length (drop (Z.to_nat i) slice) ≤ n)%nat → (n < fuel)%nat →
    ∃ cs, commands.ChunkSlice_loop fuel slice chunkSize i chunks
          = Some (Returns (chunks ++ cs))
          ∧ concat cs = drop (Z.to_nat i) slice
          ∧ Forall (λ c, 0 < len c ≤ chunkSize) cs
          ∧ ∀ j c, cs !! j = Some c → (S j < length cs)%nat → len c = chunkSize.
Proof.
  intros Hpos. induction n as [|n IH]; intros fuel i chunks Hi Hn Hfuel;
    (destruct fuel as [|fuel]; [lia|]); simpl; rewrite length_drop in Hn.
  - rewrite bool_decide_eq_false_2 by (unfold len; lia).
    exists []. rewrite app_nil_r. split; [done|].
    split; [by rewrite drop_ge by lia|]. split; [constructor|]. by intros j c ?.
  - case_bool_decide as Hlt.
    + rewrite bool_decide_eq_false_2 by (case_bool_decide; lia).
      set (end_ := if bool_decide (i + chunkSize > len slice)
                   then len slice else i + chunkSize).
      assert (i < end_ ≤ len slice ∧ end_ ≤ i + chunkSize) as Hend
        by (subst end_; case_bool_decide; lia).
      destruct (IH fuel (i + chunkSize)
                  (chunks ++ [take (Z.to_nat (end_ - i)) (drop (Z.to_nat i) slice)]))
        as (cs & Hloop & Hcat & Hall & Hfull);
        [lia | rewrite length_drop; unfold len in *; lia | lia |].
      exists (take (Z.to_nat (end_ - i)) (drop (Z.to_nat i) slice) :: cs).
      split; [by rewrite Hloop, <- app_assoc|].
      assert (len (take (Z.to_nat (end_ - i)) (drop (Z.to_nat i) slice)) = end_ - i)
        as Hlen.
      { unfold len in *. rewrite length_take, length_drop. lia. }
      split; [|split].
      * simpl. rewrite Hcat. subst end_. case_bool_decide as Hover.
        -- rewrite take_ge by (rewrite length_drop; unfold len in *; lia).
           rewrite (drop_ge _ (Z.to_nat (i + chunkSize))) by (unfold len in *; lia).
           by rewrite app_nil_r.
        -- replace (Z.to_nat (i + chunkSize))
             with (Z.to_nat i + Z.to_nat (i + chunkSize - i))%nat by lia.
           rewrite <- drop_drop. apply take_drop.
      * constructor; [lia|done].
      * intros j c Hj Hlast. destruct j as [|j].
        -- simpl in Hj. simplify_eq. rewrite Hlen.
           destruct cs as [|c' cs']; [simpl in Hlast; lia|].
           apply Forall_cons in Hall as [Hc' _].
           assert (drop (Z.to_nat (i + chunkSize)) slice ≠ []) as Hne.
           { rewrite <- Hcat. simpl. destruct c'; [unfold len in Hc'; simpl in Hc'; lia|].
             done. }
           assert (i + chunkSize < len slice).
           { destruct (decide (i + chunkSize < len slice)); [done|].
             exfalso. apply Hne. apply drop_ge. unfold len in *. lia. }
           subst end_. rewrite bool_decide_eq_false_2 by lia. lia.
        -- simpl in Hj, Hlast. apply (Hfull j c Hj). lia.
    + exists []. rewrite app_nil_r. split; [done|].
      split; [by rewrite drop_ge by (unfold len in *; lia)|].
      split; [constructor|]. by intros j c ?.
Qed.

Lemma ChunkSlice_loop_mono slice chunkSize r : ∀ (fuel fuel' : nat) i chunks,
  commands.ChunkSlice_loop fuel slice chunkSize i chunks = Some r →
  (fuel ≤ fuel')%nat →
  commands.ChunkSlice_loop fuel' slice chunkSize i chunks = Some r.
Proof.
  induction fuel as [|fuel IH]; intros fuel' i chunks Hr Hle; [done|].
  destruct fuel' as [|fuel']; [lia|]. simpl in *.
  case_bool_decide; [|done]. case_bool_decide; [done|].
  apply IH; [done|lia].
Qed.

(** X21. [ChunkSlice] with a positive chunk size returns, after at most
    one iteration per element, chunks that put together are the slice:
    none is empty, none is longer than the chunk size, and all but the
    last have exactly the chunk size.  With a chunk size of 0 and a
    slice that is not empty the loop never ends, and with a negative
    chunk size it panics in its first iteration. *)
Theorem ChunkSlice_partitions (slice : list string) (chunkSize : Z) :
  (0 < chunkSize →
   ∃ chunks,
     (∀ fuel, (length slice < fuel)%nat →
              commands.ChunkSlice fuel slice chunkSize = Some (Returns chunks))
     ∧ concat chunks = slice
     ∧ Forall (λ c, 0 < len c ≤ chunkSize) chunks
     ∧ ∀ j c, chunks !! j = Some c → (S j < length chunks)%nat → len c = chunkSize)
  ∧ (chunkSize = 0 → slice ≠ [] →
     ∀ fuel, commands.ChunkSlice fuel slice chunkSize = None)
  ∧ (chunkSize < 0 → slice ≠ [] →
     ∀ fuel, fuel ≠ 0%nat →
             commands.ChunkSlice fuel slice chunkSize = Some (Panics [])).
Proof.
  split; [|split].
  - intros Hpos.
    destruct (ChunkSlice_loop_returns slice chunkSize Hpos (length slice)
                (S (length slice)) 0 []) as (chunks & Hloop & Hcat & Hall & Hfull);
      [lia | rewrite length_drop; lia | lia |].
    exists chunks. split; [|done].
    intros fuel Hfuel. unfold commands.ChunkSlice.
    apply (ChunkSlice_loop_mono _ _ _ (S (length slice))); [done|lia].
  - intros -> Hne fuel. unfold commands.ChunkSlice. generalize (@nil (list string)).
    induction fuel as [|fuel IH]; intros chunks; [done|]. simpl.
    rewrite bool_decide_eq_true_2 by (destruct slice; [done|unfold len; simpl; lia]).
    rewrite bool_decide_eq_false_2 by (case_bool_decide; unfold len; lia).
    apply IH.
  - intros Hneg Hne fuel Hfuel. destruct fuel as [|fuel]; [done|].
    unfold commands.ChunkSlice. simpl.
    rewrite bool_decide_eq_true_2 by (destruct slice; [done|unfold len; simpl; lia]).
    rewrite bool_decide_eq_true_2; [done|].
    right. case_bool_decide; unfold len in *; lia.
Qed.

Lemma ChunkSlice_partitions_witness :
  ∃ chunks,
    commands.ChunkSlice 6 ["a"; "b"; "c"; "d"; "e"] 2 = Some (Returns chunks)
    ∧ concat chunks = ["a"; "b"; "c"; "d"; "e"]
    ∧ Forall (λ c, 0 < len c ≤ 2) chunks.
Proof.
  destruct (proj1 (ChunkSlice_partitions ["a"; "b"; "c"; "d"; "e"] 2))
    as (chunks & Hret & Hcat & Hall & _); [lia|].
  exists chunks. split; [apply Hret; simpl; lia|]. by split.
Defined.

Lemma split_cons sep s : ∀ cur, ∃ p ps, strings.split sep cur s = p :: ps.
Proof.
  induction s as [|c s IH]; intros cur; simpl; [by eexists _, _|].
  case_decide; [by eexists _, _|apply IH].
Qed.

Lemma Join_quoted_lines s : ∀ cur,
  bytes (strings.Join ((λ line, "> " +:+ line) <$> (str <$> strings.split newline cur s))
           (String newline ""))
  = bytes "> " ++ cur ++ quoted s.
Proof.
  induction s as [|c s IH]; intros cur.
  - simpl. by rewrite bytes_app, bytes_str, app_nil_r.
  - cbn [strings.split]. unfold quoted. rewrite fmap_cons. cbn [concat].
    fold (quoted s). case_decide as Hc.
    + specialize (IH []). destruct (split_cons newline s []) as (p & ps & Hs).
      rewrite Hs in *. rewrite !fmap_cons in *. cbn [strings.Join] in *.
      rewrite !bytes_app, IH, bytes_str. subst c. by rewrite <- app_assoc.
    + rewrite IH. by rewrite <- !app_assoc.
Qed.

(** X22. [FormatMessage] quotes every line: the bytes of its result are
    the quote mark, a greater-than sign and a space, followed by the
    bytes of the content with the quote mark put after every line feed.
    Nothing of the content is changed or lost, and an empty content
    becomes the quote mark alone. *)
Theorem FormatMessage_quotes_lines (content : string) :
  bytes (commands.FormatMessage content) = bytes "> " ++ quoted (bytes content)
  ∧ filter (λ c, c ≠ newline) (bytes content)
    `sublist_of` bytes (commands.FormatMessage content)
  ∧ len (bytes (commands.FormatMessage content))
    = len (bytes content)
      + 2 * (1 + len (filter (λ c, c = newline) (bytes content))).
Proof.
  assert (bytes (commands.FormatMessage content) = bytes "> " ++ quoted (bytes content))
    as Heq.
  { unfold commands.FormatMessage, strings.Split.
    change ("010"%char) with newline. by rewrite Join_quoted_lines. }
  split; [done|]. rewrite Heq. split.
  - apply sublist_inserts_l. generalize (bytes content). intros l.
    induction l as [|c l IH]; [done|]. unfold quoted. rewrite fmap_cons. cbn [concat].
    fold (quoted l). rewrite filter_cons. case_decide as Hc.
    + rewrite decide_False by done. simpl. by apply sublist_skip.
    + apply sublist_inserts_l. done.
  - unfold len. rewrite length_app. simpl length at 1.
    assert (length (quoted (bytes content))
            = (length (bytes content)
               + 2 * length (filter (λ c, c = newline) (bytes content)))%nat) as ->; [|lia].
    generalize (bytes content). intros l.
    induction l as [|c l IH]; [done|]. unfold quoted. rewrite fmap_cons. cbn [concat].
    fold (quoted l). rewrite length_app, IH, filter_cons.
    case_decide; simpl; lia.
Qed.

(** ** The restart manager *)

Lemma monitorAndRestart_bound passes : ∀ rm o rm',
  0 ≤ RestartManager.restartCount rm →
  RestartManager.monitorAndRestart passes rm = Some (o, rm') →
  RestartManager.started rm ≤ RestartManager.started rm'
  ∧ RestartManager.started rm'
    ≤ RestartManager.started rm
      + Z.max 0 (RestartManager.maxRestarts rm - RestartManager.restartCount rm)
  ∧ RestartManager.maxRestarts rm' = RestartManager.maxRestarts rm
  ∧ match o with
    | RestartManager.Serving =>
        RestartManager.restartCount rm' = 0 ∧ RestartManager.isRunning rm' = RestartManager.isRunning rm
        ∧ RestartManager.started rm < RestartManager.started rm'
    | RestartManager.GaveUp =>
        RestartManager.isRunning rm' = false
        ∧ RestartManager.maxRestarts rm ≤ RestartManager.restartCount rm'
        ∧ RestartManager.started rm' - RestartManager.started rm
          = RestartManager.restartCount rm' - RestartManager.restartCount rm
    | RestartManager.Cancelled => RestartManager.isRunning rm' = false
    end.
Proof.
  induction passes as [|p passes IH]; intros rm o rm' Hc H; simpl in H.
  - case_bool_decide; [done|]. simplify_eq. simpl. repeat split; try done; lia.
  - case_bool_decide as Hlt; [|simplify_eq; simpl; repeat split; try done; lia].
    destruct (RestartManager.cancelledAtHead p); [simplify_eq; simpl; repeat split; try done; lia|].
    destruct (RestartManager.cancelledDuringStart p); [simplify_eq; simpl; repeat split; try done; lia|].
    destruct (RestartManager.startResult p) as [err|]; [|simplify_eq; simpl; repeat split; try done; lia].
    simpl in H. case_bool_decide as Hlt'; [|simplify_eq; simpl; repeat split; try done; lia].
    apply IH in H; [|simpl; lia]. simpl in H. destruct o; repeat split; try tauto; lia.
Qed.

Lemma monitorAndRestart_total passes : ∀ rm,
  RestartManager.maxRestarts rm - RestartManager.restartCount rm ≤ len passes →
  is_Some (RestartManager.monitorAndRestart passes rm).
Proof.
  induction passes as [|p passes IH]; intros rm Hlen; simpl.
  - rewrite bool_decide_eq_false_2 by (unfold len in *; simpl in *; lia). by eexists.
  - case_bool_decide; [|by eexists].
    destruct (RestartManager.cancelledAtHead p); [by eexists|].
    destruct (RestartManager.cancelledDuringStart p); [by eexists|].
    destruct (RestartManager.startResult p); [|by eexists]. simpl.
    case_bool_decide; [|by eexists]. apply IH. unfold len in *. simpl in *. lia.
Qed.

(** X23. The monitor of a new restart manager calls [bot.Start] at most
    [maxRestarts] times and ends within that many passes of its loop:
    not at all when [maxRestarts] is 0 or less.  It gives up only after
    exactly [maxRestarts] starts that all failed.  After a start that
    succeeded it resets the restart count and only waits for the
    cancellation, so a bot that has once started is never started
    again by it.  When the monitor returns, the manager is no longer
    running. *)
Theorem restart_attempts_bounded (maxRestarts : Z) (passes : list RestartManager.pass) :
  let rm := (RestartManager.StartWithRestart
               (RestartManager.NewRestartManager maxRestarts)).1 in
  (maxRestarts ≤ len passes → is_Some (RestartManager.monitorAndRestart passes rm))
  ∧ ∀ o rm',
      RestartManager.monitorAndRestart passes rm = Some (o, rm') →
      0 ≤ RestartManager.started rm' ≤ Z.max 0 maxRestarts
      ∧ match o with
        | RestartManager.Serving =>
            RestartManager.restartCount rm' = 0
            ∧ RestartManager.isRunning rm' = true
            ∧ 1 ≤ RestartManager.started rm'
        | RestartManager.GaveUp =>
            RestartManager.isRunning rm' = false
            ∧ RestartManager.started rm' = Z.max 0 maxRestarts
            ∧ RestartManager.restartCount rm' = RestartManager.started rm'
        | RestartManager.Cancelled => RestartManager.isRunning rm' = false
        end.
Proof.
  intros rm. subst rm. split.
  - intros Hlen. apply monitorAndRestart_total. simpl. lia.
  - intros o rm' H. pose proof H as H'.
    apply monitorAndRestart_bound in H; [|simpl; lia]. simpl in H.
    split; [lia|]. destruct o; [tauto| |repeat split; try tauto; lia].
    destruct H as (H1 & H2 & H3 & H4 & H5 & H6). split; [done|]. lia.
Qed.

Lemma restart_attempts_bounded_witness :
  ∃ rm',
    RestartManager.monitorAndRestart
      [RestartManager.mkPass false false (Some "no connection");
       RestartManager.mkPass false false None]
      (RestartManager.StartWithRestart (RestartManager.NewRestartManager 3)).1
    = Some (RestartManager.Serving, rm')
    ∧ 0 ≤ RestartManager.started rm' ≤ 3
    ∧ RestartManager.restartCount rm' = 0.
Proof.
  eexists. split; [reflexivity|].
  destruct (proj2 (restart_attempts_bounded 3
                     [RestartManager.mkPass false false (Some "no connection");
                      RestartManager.mkPass false false None])
              RestartManager.Serving _ eq_refl) as (Hb & Hc & _).
  split; [exact Hb|exact Hc].
Defined.

(** ** The spam command *)

Lemma executeSpam_loop_sends opts turns : ∀ i sends e sends',
  0 ≤ i →
  commands.SpamCommand.executeSpam_loop turns opts i sends = Some (e, sends') →
  ∃ new,
    sends' = sends ++ new
    ∧ len new ≤ Z.max 0 (commands.SpamCommand.Amount opts - i)
    ∧ Forall (λ x, x.1 = commands.SpamCommand.ChannelID opts
                   ∧ x.2 ∈ commands.SpamCommand.Messages opts) new
    ∧ (e = commands.SpamCommand.SpamCompleted →
       len new = Z.max 0 (commands.SpamCommand.Amount opts - i))
    ∧ (commands.SpamCommand.UseRandom opts = false
       ∨ len (commands.SpamCommand.Messages opts) ≤ 1 →
       ∀ (j : nat) x, new !! j = Some x →
         commands.SpamCommand.Messages opts
           !! Z.to_nat ((i + Z.of_nat j) mod len (commands.SpamCommand.Messages opts))
         = Some x.2)
    ∧ (commands.SpamCommand.Messages opts ≠ [] →
       commands.SpamCommand.UseRandom opts = false →
       e ≠ commands.SpamCommand.SpamPanicked).
Proof.
  set (ok := λ x : string * string,
         x.1 = commands.SpamCommand.ChannelID opts
         ∧ x.2 ∈ commands.SpamCommand.Messages opts).
  assert (∀ (sends : list (string * string)) e,
            e ≠ commands.SpamCommand.SpamCompleted →
            e ≠ commands.SpamCommand.SpamPanicked →
            ∀ i, ∃ new : list (string * string),
              sends = sends ++ new
              ∧ len new ≤ Z.max 0 (commands.SpamCommand.Amount opts - i)
              ∧ Forall ok new
              ∧ (e = commands.SpamCommand.SpamCompleted →
                 len new = Z.max 0 (commands.SpamCommand.Amount opts - i))
              ∧ (commands.SpamCommand.UseRandom opts = false
                 ∨ len (commands.SpamCommand.Messages opts) ≤ 1 →
                 ∀ (j : nat) x, new !! j = Some x →
                   commands.SpamCommand.Messages opts
                     !! Z.to_nat ((i + Z.of_nat j)
                                  mod len (commands.SpamCommand.Messages opts))
                   = Some x.2)
              ∧ (commands.SpamCommand.Messages opts ≠ [] →
                 commands.SpamCommand.UseRandom opts = false →
                 e ≠ commands.SpamCommand.SpamPanicked)) as Hstop.
  { intros sends e He1 He2 i. exists []. rewrite app_nil_r. split; [done|].
    split; [unfold len; simpl; lia|]. split; [constructor|]. split; [done|].
    split; [by intros _ j x ?|done]. }
  induction turns as [|t turns IH]; intros i sends e sends' Hi H; simpl in H.
  - case_bool_decide as Hlt; [done|]. simplify_eq. exists []. rewrite app_nil_r.
    split; [done|]. split; [unfold len; simpl; lia|]. split; [constructor|].
    split; [intros _; unfold len; simpl; lia|]. split; [by intros _ j x ?|done].
  - case_bool_decide as Hlt.
    2:{ simplify_eq. exists []. rewrite app_nil_r.
        split; [done|]. split; [unfold len; simpl; lia|]. split; [constructor|].
        split; [intros _; unfold len; simpl; lia|]. split; [by intros _ j x ?|done]. }
    destruct (commands.SpamCommand.cancelledAtHead t).
    { simplify_eq. by apply Hstop. }
    set (content :=
           if commands.SpamCommand.UseRandom opts
              && bool_decide (len (commands.SpamCommand.Messages opts) > 1)
           then commands.SpamCommand.Messages opts !! commands.SpamCommand.randIntn t
           else if decide (len (commands.SpamCommand.Messages opts) = 0) then None
                else commands.SpamCommand.Messages opts
                       !! Z.to_nat (i mod len (commands.SpamCommand.Messages opts)))
      in *.
    assert (∀ x, content = Some x → x ∈ commands.SpamCommand.Messages opts) as Hin.
    { intros x Hx. subst content.
      destruct (_ && _); [by eapply list_elem_of_lookup_2|].
      case_decide; [done|]. by eapply list_elem_of_lookup_2. }
    assert (commands.SpamCommand.UseRandom opts = false
            ∨ len (commands.SpamCommand.Messages opts) ≤ 1 →
            content
            = if decide (len (commands.SpamCommand.Messages opts) = 0) then None
              else commands.SpamCommand.Messages opts
                     !! Z.to_nat (i mod len (commands.SpamCommand.Messages opts)))
      as Hrot.
    { intros [Hr|Hr]; subst content; [by rewrite Hr|].
      rewrite (bool_decide_eq_false_2 (len _ > 1)) by lia. by rewrite andb_false_r. }
    destruct content as [x|] eqn:Hcontent.
    2:{ simplify_eq. exists []. rewrite app_nil_r.
        split; [done|]. split; [unfold len; simpl; lia|]. split; [constructor|].
        split; [done|]. split; [by intros _ j y ?|].
        intros Hne Hr _. specialize (Hrot (or_introl Hr)).
        case_decide as H0; [destruct (commands.SpamCommand.Messages opts);
                            [done|unfold len in H0; simpl in H0; lia]|].
        symmetry in Hrot. apply lookup_ge_None in Hrot.
        pose proof (Z.mod_pos_bound i (len (commands.SpamCommand.Messages opts))).
        unfold len in *. lia. }
    assert (∀ e sends',
              commands.SpamCommand.executeSpam_loop turns opts (i + 1)
                (sends ++ [(commands.SpamCommand.ChannelID opts, x)]) = Some (e, sends') →
              ∃ new,
                sends' = sends ++ new
                ∧ len new ≤ Z.max 0 (commands.SpamCommand.Amount opts - i)
                ∧ Forall ok new
                ∧ (e = commands.SpamCommand.SpamCompleted →
                   len new = Z.max 0 (commands.SpamCommand.Amount opts - i))
                ∧ (commands.SpamCommand.UseRandom opts = false
                   ∨ len (commands.SpamCommand.Messages opts) ≤ 1 →
                   ∀ (j : nat) y, new !! j = Some y →
                     commands.SpamCommand.Messages opts
                       !! Z.to_nat ((i + Z.of_nat j)
                                    mod len (commands.SpamCommand.Messages opts))
                     = Some y.2)
                ∧ (commands.SpamCommand.Messages opts ≠ [] →
                   commands.SpamCommand.UseRandom opts = false →
                   e ≠ commands.SpamCommand.SpamPanicked)) as Hnext.
    { intros e0 s0 Hloop. apply IH in Hloop as (new & -> & Hlen & Hall & Hdone & Hr & Hp);
        [|lia].
      exists ((commands.SpamCommand.ChannelID opts, x) :: new).
      split; [by rewrite <- app_assoc|].
      split; [unfold len in *; simpl; lia|].
      split; [constructor; [split; [done|by apply Hin]|done]|].
      split; [intros He; specialize (Hdone He); unfold len in *; simpl; lia|].
      split; [|done].
      intros Hrr [|j] y Hy.
      - simpl in Hy. simplify_eq. simpl. rewrite Z.add_0_r.
        specialize (Hrot Hrr). by case_decide.
      - simpl in Hy. specialize (Hr Hrr j y Hy).
        by replace (i + Z.of_nat (S j)) with (i + 1 + Z.of_nat j) by lia. }
    assert (∃ new,
              sends ++ [(commands.SpamCommand.ChannelID opts, x)] = sends ++ new
              ∧ len new ≤ Z.max 0 (commands.SpamCommand.Amount opts - i)
              ∧ Forall ok new
              ∧ (commands.SpamCommand.SpamCancelled = commands.SpamCommand.SpamCompleted →
                 len new = Z.max 0 (commands.SpamCommand.Amount opts - i))
              ∧ (commands.SpamCommand.UseRandom opts = false
                 ∨ len (commands.SpamCommand.Messages opts) ≤ 1 →
                 ∀ (j : nat) y, new !! j = Some y →
                   commands.SpamCommand.Messages opts
                     !! Z.to_nat ((i + Z.of_nat j)
                                  mod len (commands.SpamCommand.Messages opts))
                   = Some y.2)
              ∧ (commands.SpamCommand.Messages opts ≠ [] →
                 commands.SpamCommand.UseRandom opts = false →
                 commands.SpamCommand.SpamCancelled ≠ commands.SpamCommand.SpamPanicked))
      as Hcancel.
    { exists [(commands.SpamCommand.ChannelID opts, x)]. split; [done|].
      split; [unfold len; simpl; lia|].
      split; [constructor; [split; [done|by apply Hin]|constructor]|].
      split; [done|]. split; [|done].
      intros Hrr [|j] y Hy; [|done]. simpl in Hy. simplify_eq. simpl.
      rewrite Z.add_0_r. specialize (Hrot Hrr). by case_decide. }
    revert H. destruct (commands.SpamCommand.sendResult t).
    + destruct (bool_decide (commands.SpamCommand.Delay opts > 0
                             ∧ i < commands.SpamCommand.Amount opts - 1)
                && commands.SpamCommand.cancelledInWait t); intros H;
        [simplify_eq; exact Hcancel|by apply Hnext].
    + destruct (commands.SpamCommand.cancelledInWait t); intros H;
        [simplify_eq; exact Hcancel|by apply Hnext].
    + intros H. by apply Hnext.
Qed.

Lemma executeSpam_loop_total opts turns : ∀ i sends,
  commands.SpamCommand.Amount opts - i ≤ len turns →
  is_Some (commands.SpamCommand.executeSpam_loop turns opts i sends).
Proof.
  induction turns as [|t turns IH]; intros i sends Hlen; simpl.
  - rewrite bool_decide_eq_false_2 by (unfold len in *; simpl in *; lia). by eexists.
  - case_bool_decide; [|by eexists].
    destruct (commands.SpamCommand.cancelledAtHead t); [by eexists|].
    assert (∀ s, is_Some (commands.SpamCommand.executeSpam_loop turns opts (i + 1) s))
      as Hn by (intros s; apply IH; unfold len in *; simpl in *; lia).
    destruct (if _ && _ then _ else _); [|by eexists].
    destruct (commands.SpamCommand.sendResult t); [| |done].
    + destruct (_ && _); [by eexists|done].
    + destruct (commands.SpamCommand.cancelledInWait t); [by eexists|done].
Qed.

(** X24. [executeSpam] calls [ChannelMessageSend] at most [Amount]
    times, always for the channel of the options and with one of their
    messages, and exactly [Amount] times when it completes; a send that
    fails counts as one of them.  Without the random choice the call
    number [j] sends message [j] modulo the number of messages, and the
    loop cannot panic as long as there is a message.  Whichever way it
    ends, the channel is afterwards removed from both maps, and only
    that channel; and [Amount] turns always suffice to reach its
    end. *)
Theorem spam_sends_bounded (turns : list commands.SpamCommand.turn)
    (opts : commands.SpamCommand.SpamOptions) (c c' : commands.SpamCommand.t)
    (e : commands.SpamCommand.ending) (sends : list (string * string)) :
  commands.SpamCommand.executeSpam turns opts c = Some (e, sends, c') →
  len sends ≤ Z.max 0 (commands.SpamCommand.Amount opts)
  ∧ Forall (λ x, x.1 = commands.SpamCommand.ChannelID opts
                 ∧ x.2 ∈ commands.SpamCommand.Messages opts) sends
  ∧ (e = commands.SpamCommand.SpamCompleted →
     len sends = Z.max 0 (commands.SpamCommand.Amount opts))
  ∧ (commands.SpamCommand.UseRandom opts = false
     ∨ len (commands.SpamCommand.Messages opts) ≤ 1 →
     ∀ (j : nat) x, sends !! j = Some x →
       commands.SpamCommand.Messages opts
         !! Z.to_nat (Z.of_nat j mod len (commands.SpamCommand.Messages opts))
       = Some x.2)
  ∧ (commands.SpamCommand.Messages opts ≠ [] →
     commands.SpamCommand.UseRandom opts = false →
     e ≠ commands.SpamCommand.SpamPanicked)
  ∧ (commands.SpamCommand.isSpamming c' !! commands.SpamCommand.ChannelID opts) = None
  ∧ (commands.SpamCommand.ChannelID opts ∉ commands.SpamCommand.cancelFuncs c')
  ∧ (∀ channel, channel ≠ commands.SpamCommand.ChannelID opts →
       commands.SpamCommand.isSpamming c' !! channel
       = commands.SpamCommand.isSpamming c !! channel
       ∧ (channel ∈ commands.SpamCommand.cancelFuncs c'
          ↔ channel ∈ commands.SpamCommand.cancelFuncs c))
  ∧ ∀ turns' c0, commands.SpamCommand.Amount opts ≤ len turns' →
                 is_Some (commands.SpamCommand.executeSpam turns' opts c0).
Proof.
  unfold commands.SpamCommand.executeSpam. intros H.
  destruct (commands.SpamCommand.executeSpam_loop turns opts 0 []) as [[e0 s0]|] eqn:Hloop;
    [|done].
  simplify_eq.
  apply executeSpam_loop_sends in Hloop as (new & -> & Hlen & Hall & Hdone & Hrot & Hp);
    [|done].
  rewrite Z.sub_0_r in *. simpl.
  split; [done|]. split; [done|]. split; [done|]. split; [exact Hrot|]. split; [done|].
  split; [by rewrite lookup_delete_eq|].
  split; [rewrite elem_of_difference, elem_of_singleton; tauto|]. split.
  - intros channel Hne. split; [by rewrite lookup_delete_ne|].
    rewrite elem_of_difference, elem_of_singleton. tauto.
  - intros turns' c0 Hlen'.
    destruct (executeSpam_loop_total opts turns' 0 []) as [[e1 s1] ->]; [lia|].
    by eexists.
Qed.

Lemma spam_sends_bounded_witness :
  ∃ c', commands.SpamCommand.executeSpam calm_turns spam_opts
          (commands.SpamCommand.mk {["c1" := true]} {["c1"]})
        = Some (commands.SpamCommand.SpamCompleted,
                [("c1", "a"); ("c1", "b"); ("c1", "a")], c')
        ∧ commands.SpamCommand.isSpamming c' !! "c1" = None.
Proof.
  eexists. split; [reflexivity|].
  destruct (spam_sends_bounded calm_turns spam_opts
              (commands.SpamCommand.mk {["c1" := true]} {["c1"]})
              _ commands.SpamCommand.SpamCompleted
              [("c1", "a"); ("c1", "b"); ("c1", "a")] eq_refl)
    as (_ & _ & _ & _ & _ & H & _).
  exact H.
Defined.
